(** * ollama_transfer: a shallow embedding of [ollama_transfer.py]

    The script lists the installed models, lets the user pick some, reads
    their manifests, previews the files and copies them into a portable
    tree.  This development embeds every function of the script as a Rocq
    function and proves the properties stated for it.

    Modelling conventions.
    - A Python [str] is a [string]; a character is its code point, so the
      model covers text whose code points are below 256 (ASCII and
      Latin-1).  [str.isspace], [str.lower], [str.splitlines] and [int]
      are written out for that range.
    - A value decoded by [json.load] is a [json] tree.
    - The file system is a finite map from absolute paths (lists of
      components) to nodes.  Paths are POSIX paths; symbolic links and
      permissions are not modelled.  The operating system also resolves
      a component [..] and refuses a name of more than 255 bytes or a
      path of 4096 bytes or more; the map does neither, so the properties
      that depend on how a path is looked up are stated for plain paths
      ([plain]), on which the map and the operating system agree.
    - [print] and the prompt of [input] append tagged messages to an
      output log; [input] consumes a list of lines and raises [EOFError]
      when the list is exhausted.
    - A function that may raise returns a [result]; [exit(1)] is the
      exception [SystemExit 1]. *)

From Stdlib Require Import ZArith Ascii String List Sorted Permutation Bool Lia.
From Stdlib Require Import Floats.PrimFloat.
From stdpp Require Import gmap strings list fin_maps.

Open Scope string_scope.
Open Scope Z_scope.

(** ** Python string primitives *)

Module Py.

Definition ord (c : ascii) : Z := Z.of_N (N_of_ascii c).

Definition chr (z : Z) : ascii := ascii_of_N (Z.to_N z).

(** [str.isspace] on one character: TAB..CR, FS..US, space, NEL, NBSP. *)
Definition isspace (c : ascii) : bool :=
  let n := ord c in
  ((9 <=? n) && (n <=? 13)) || ((28 <=? n) && (n <=? 32))
  || (n =? 133) || (n =? 160).

(** The line boundaries of [str.splitlines]: LF, VT, FF, CR, FS, GS, RS
    and NEL (CR LF counts once, see [splitlines]). *)
Definition islinebreak (c : ascii) : bool :=
  let n := ord c in
  ((10 <=? n) && (n <=? 13)) || ((28 <=? n) && (n <=? 30)) || (n =? 133).

Definition isdigit (c : ascii) : bool :=
  let n := ord c in (48 <=? n) && (n <=? 57).

(** [str.lower] on one character: A..Z and the Latin-1 capitals
    (U+00C0..U+00DE without the multiplication sign). *)
Definition lower_char (c : ascii) : ascii :=
  let n := ord c in
  if ((65 <=? n) && (n <=? 90))
     || ((192 <=? n) && (n <=? 222) && negb (n =? 215))
  then chr (n + 32) else c.

Fixpoint lower (s : string) : string :=
  match s with
  | EmptyString => EmptyString
  | String c s' => String (lower_char c) (lower s')
  end.

Definition is_empty (s : string) : bool :=
  match s with EmptyString => true | String _ _ => false end.

Fixpoint lstrip (s : string) : string :=
  match s with
  | EmptyString => EmptyString
  | String c s' => if isspace c then lstrip s' else s
  end.

Fixpoint rstrip (s : string) : string :=
  match s with
  | EmptyString => EmptyString
  | String c s' =>
      match rstrip s' with
      | EmptyString => if isspace c then EmptyString else String c EmptyString
      | r => String c r
      end
  end.

(** [s.strip()] *)
Definition strip (s : string) : string := lstrip (rstrip s).

(** Cut [s] at every character satisfying [p]; the result is never
    empty and keeps empty fields.  [s.split(sep)] for a one-character
    separator is [fields (eqb sep) s]. *)
Fixpoint fields (p : ascii -> bool) (s : string) : list string :=
  match s with
  | EmptyString => [EmptyString]
  | String c s' =>
      if p c then EmptyString :: fields p s'
      else match fields p s' with
           | t :: ts => String c t :: ts
           | [] => [String c EmptyString]
           end
  end.

(** [s.split(sep)] with a separator of one character. *)
Definition split_on (sep : ascii) (s : string) : list string :=
  fields (Ascii.eqb sep) s.

(** [s.split()]: the maximal runs of characters that are not
    whitespace. *)
Definition split (s : string) : list string :=
  List.filter (fun t => negb (is_empty t)) (fields isspace s).

(** [s.splitlines()] *)
Fixpoint splitlines (s : string) : list string :=
  match s with
  | EmptyString => []
  | String c s' =>
      if islinebreak c then
        match s' with
        | String c' s'' =>
            if (ord c =? 13) && (ord c' =? 10)
            then EmptyString :: splitlines s''
            else EmptyString :: splitlines s'
        | EmptyString => [EmptyString]
        end
      else match splitlines s' with
           | t :: ts => String c t :: ts
           | [] => [String c EmptyString]
           end
  end.

(** [sep.join(l)] *)
Fixpoint join (sep : string) (l : list string) : string :=
  match l with
  | [] => EmptyString
  | [x] => x
  | x :: l' => x ++ sep ++ join sep l'
  end.

(** [s.replace(old, new)] for one-character [old] and [new]. *)
Fixpoint replace (old new : ascii) (s : string) : string :=
  match s with
  | EmptyString => EmptyString
  | String c s' =>
      String (if Ascii.eqb c old then new else c) (replace old new s')
  end.

(** [sub in s] for strings. *)
Fixpoint contains (sub s : string) : bool :=
  String.prefix sub s
  || match s with
     | EmptyString => false
     | String _ s' => contains sub s'
     end.

(** The digits of an [int] literal after the sign: decimal digits with
    single underscores between them. *)
Fixpoint int_digits (acc : Z) (after_underscore : bool) (s : string)
  : option Z :=
  match s with
  | EmptyString => if after_underscore then None else Some acc
  | String c s' =>
      if isdigit c then int_digits (10 * acc + (ord c - 48)) false s'
      else if Ascii.eqb c "_"
      then (if after_underscore then None else int_digits acc true s')
      else None
  end.

(** The number of digit characters of a literal, leading zeros
    included, underscores not. *)
Fixpoint count_digits (s : string) : Z :=
  match s with
  | EmptyString => 0
  | String c s' => (if isdigit c then 1 else 0) + count_digits s'
  end.

(** [sys.get_int_max_str_digits()]: a literal with more digits is
    refused. *)
Definition int_max_str_digits : Z := 4300.

Definition int_unsigned (s : string) : option Z :=
  match s with
  | String c _ =>
      if isdigit c then
        if int_max_str_digits <? count_digits s then None
        else int_digits 0 false s
      else None
  | EmptyString => None
  end.

(** [int(s)]; [None] stands for [ValueError], also the one raised for a
    literal of more than 4300 digits. *)
Definition int (s : string) : option Z :=
  match strip s with
  | String "+" s' => int_unsigned s'
  | String "-" s' => option_map Z.opp (int_unsigned s')
  | s' => int_unsigned s'
  end.

(** [a < b] on strings: lexicographic on code points. *)
Definition str_lt (a b : string) : bool := String.ltb a b.

End Py.

(** ** Exceptions and results *)

Inductive exn :=
| ValueError | AttributeError | TypeError | KeyError | IndexError
| EOFError | JSONDecodeError
| FileNotFoundError | FileExistsError | NotADirectoryError
| IsADirectoryError | SameFileError
| SystemExit (code : Z).

Inductive result (A : Type) :=
| Ok (a : A)
| Raise (e : exn).
Arguments Ok {A} a.
Arguments Raise {A} e.

(** ** Decoded JSON values *)

(** What [json.load] returns.  An object keeps its members in document
    order; when a key is repeated the last value wins ([dict_get]) and
    the key keeps its first position ([dict_keys]), as in the [dict]
    built by the decoder. *)
#[warnings="-register-all"]
Inductive json :=
| JNull
| JBool (b : bool)
| JInt (z : Z)
| JFloat (x : float)
| JStr (s : string)
| JList (l : list json)
| JDict (d : list (string * json)).

Fixpoint dict_get (k : string) (d : list (string * json)) : option json :=
  match d with
  | [] => None
  | (k', v) :: d' =>
      match dict_get k d' with
      | Some v' => Some v'
      | None => if String.eqb k k' then Some v else None
      end
  end.

Fixpoint dict_keys (d : list (string * json)) : list string :=
  match d with
  | [] => []
  | (k, _) :: d' =>
      k :: List.filter (fun k' => negb (String.eqb k k')) (dict_keys d')
  end.

(** Truth value of an object, as tested by [if v:]. *)
Definition truthy (v : json) : bool :=
  match v with
  | JNull => false
  | JBool b => b
  | JInt z => negb (z =? 0)
  | JFloat x => negb (PrimFloat.eqb x 0%float)
  | JStr s => negb (Py.is_empty s)
  | JList l => match l with [] => false | _ => true end
  | JDict d => match d with [] => false | _ => true end
  end.

(** [obj.get(key, default)]: only a [dict] has the method. *)
Definition py_get (obj : json) (key : string) (default : json)
  : result json :=
  match obj with
  | JDict d => Ok (match dict_get key d with Some v => v | None => default end)
  | _ => Raise AttributeError
  end.

Fixpoint chars (s : string) : list json :=
  match s with
  | EmptyString => []
  | String c s' => JStr (String c EmptyString) :: chars s'
  end.

(** The items visited by [for x in v]. *)
Definition py_iter (v : json) : result (list json) :=
  match v with
  | JList l => Ok l
  | JDict d => Ok (map JStr (dict_keys d))
  | JStr s => Ok (chars s)
  | _ => Raise TypeError
  end.

Definition is_str (k : string) (v : json) : bool :=
  match v with JStr s => String.eqb k s | _ => false end.

(** [key in v] for a string [key]: key membership in a dict, substring
    test in a string, element test in a list. *)
Definition py_in (key : string) (v : json) : result bool :=
  match v with
  | JDict d => Ok (match dict_get key d with Some _ => true | None => false end)
  | JStr s => Ok (Py.contains key s)
  | JList l => Ok (existsb (is_str key) l)
  | _ => Raise TypeError
  end.

(** [v[key]] for a string [key]. *)
Definition py_getitem (v : json) (key : string) : result json :=
  match v with
  | JDict d =>
      match dict_get key d with Some x => Ok x | None => Raise KeyError end
  | _ => Raise TypeError
  end.

(** ** Paths and the file system *)

Abbreviation path := (list string).

Inductive node :=
| File (data : string) (meta : Z)
| Dir.

Abbreviation fs := (gmap (list string) node).

(** [os.stat]: the root always exists and is a directory.  The lookup
    takes the path as it is written: a component [..] is a name like
    any other, and no name is too long. *)
Definition stat (f : fs) (p : path) : option node :=
  match p with
  | [] => Some Dir
  | _ => f !! p
  end.

(** [p.exists()], for a path the operating system accepts ([OSError]
    for a name that is too long is not modelled). *)
Definition exists_ (f : fs) (p : path) : bool :=
  match stat f p with Some _ => true | None => false end.

Definition is_dir (f : fs) (p : path) : bool :=
  match stat f p with Some Dir => true | _ => false end.

(** The components of a path string: empty components and [.] are
    dropped, as [pathlib] does. *)
Definition parts (s : string) : path :=
  List.filter (fun c => negb (Py.is_empty c) && negb (String.eqb c "."))
              (Py.split_on "/" s).

Definition is_absolute (s : string) : bool := String.prefix "/" s.

(** [p / s]: an absolute [s] replaces [p]. *)
Definition path_div (p : path) (s : string) : path :=
  if is_absolute s then parts s else (p ++ parts s)%list.

Infix "//" := path_div (at level 40, left associativity).

(** [Path(s)], relative paths being taken from the working directory. *)
Definition Path (cwd : path) (s : string) : path := cwd // s.

Definition parent (p : path) : path := removelast p.

Definition basename (p : path) : string := List.last p EmptyString.

(** [p.mkdir(parents=True, exist_ok=True)]: every missing directory on
    the way down to [p] is created; a file in the way is an error. *)
Fixpoint mkdir_walk (pre : path) (rest : list string) (f : fs) : result fs :=
  match rest with
  | [] => Ok f
  | c :: rest' =>
      let q := (pre ++ [c])%list in
      match f !! q with
      | Some Dir => mkdir_walk q rest' f
      | Some (File _ _) =>
          Raise (match rest' with
                 | [] => FileExistsError
                 | _ => NotADirectoryError
                 end)
      | None => mkdir_walk q rest' (<[q := Dir]> f)
      end
  end.

Definition mkdir (f : fs) (p : path) : result fs := mkdir_walk [] p f.

(** Where [shutil.copy2(src, dst)] writes: inside [dst] when [dst] is a
    directory. *)
Definition copy_target (f : fs) (src dst : path) : path :=
  if is_dir f dst then (dst ++ [basename src])%list else dst.

(** [shutil.copy2(src, dst)]: data and metadata of [src] replace the
    target.  The test for source and target being the same file comes
    before the source is opened, so it also fires for a directory.  The
    exception for a source or a target directory that cannot be reached
    is [FileNotFoundError]; it stands for [NotADirectoryError] as well,
    which is raised instead when a file is in the way. *)
Definition copy2 (f : fs) (src dst : path) : result fs :=
  match stat f src with
  | None => Raise FileNotFoundError
  | Some n =>
      let target := copy_target f src dst in
      if bool_decide (target = src) then Raise SameFileError
      else match n with
           | Dir => Raise IsADirectoryError
           | File data meta =>
               match stat f target with
               | Some Dir => Raise IsADirectoryError
               | _ =>
                   if is_dir f (parent target)
                   then Ok (<[target := File data meta]> f)
                   else Raise FileNotFoundError
               end
           end
  end.

(** [open(p, "r").read()] *)
Definition read_text (f : fs) (p : path) : result string :=
  match stat f p with
  | None => Raise FileNotFoundError
  | Some Dir => Raise IsADirectoryError
  | Some (File data _) => Ok data
  end.

(** [l[i]] on a Python list: negative indices count from the end. *)
Definition py_index {A} (l : list A) (i : Z) : result A :=
  let n := Z.of_nat (length l) in
  let j := if i <? 0 then i + n else i in
  if (0 <=? j) && (j <? n)
  then match l !! Z.to_nat j with
       | Some x => Ok x
       | None => Raise IndexError
       end
  else Raise IndexError.

(** ** The host and the module-level constants (lines 14-47) *)

Record host := {
  system : string;                  (* platform.system() *)
  home : path;                      (* Path.home() *)
  cwd : path;                       (* the working directory *)
  CUSTOM_OUTPUT_DIR : string;
  CUSTOM_OLLAMA_BASE_DIR : string;
  LISTPICK_AVAILABLE : bool
}.

Record globals := {
  OUTPUT_DIR : path;
  OLLAMA_BASE_DIR : path
}.

(** Lines 26-38: the source root chosen from the operating system. *)
Definition platform_base_dir (h : host) (f : fs) : path :=
  if String.eqb (system h) "Darwin" then home h // ".ollama/models"
  else if String.eqb (system h) "Windows" then home h // ".ollama/models"
  else if exists_ f (Path (cwd h) "/var/lib/ollama" // "blobs")
  then Path (cwd h) "/var/lib/ollama"
  else if exists_ f (Path (cwd h) "/var/lib/ollama/models" // "blobs")
  then Path (cwd h) "/var/lib/ollama"
  else Path (cwd h) "/usr/share/ollama/models".

(** Lines 23 and 40-43: the overrides win when they are not empty. *)
Definition module_globals (h : host) (f : fs) : globals :=
  {| OUTPUT_DIR :=
       if negb (String.eqb (CUSTOM_OUTPUT_DIR h) "")
       then Path (cwd h) (CUSTOM_OUTPUT_DIR h)
       else Path (cwd h) "./ollama";
     OLLAMA_BASE_DIR :=
       if negb (String.eqb (CUSTOM_OLLAMA_BASE_DIR h) "")
       then Path (cwd h) (CUSTOM_OLLAMA_BASE_DIR h)
       else platform_base_dir h f |}.

Definition OLLAMA_MANIFEST_DIR (g : globals) : path :=
  OLLAMA_BASE_DIR g // "manifests/registry.ollama.ai/library".

Definition OLLAMA_BLOB_DIR (g : globals) : path :=
  OLLAMA_BASE_DIR g // "blobs".

(** ** Output log *)

Record ModelRow := {
  row_name : string;
  row_id : string;
  row_size : string;
  row_modified : string
}.

Inductive msg :=
| MsgOllamaNotFound
| MsgOllamaListError (stderr : string)
| MsgTableHeader
| MsgTableRow (i : Z) (m : ModelRow)
| MsgPromptSelect
| MsgInvalidChoice (choice : Z)
| MsgEnterNumbers
| MsgManifestNotFound (model_name : string)
| MsgPromptCopy
| MsgEnterYN
| MsgInvalidName (model_name : string)
| MsgCopyingManifest (dest : path)
| MsgManifestCopied
| MsgCopyingBlobs
| MsgBlobCopied (file : string)
| MsgBlobSkipped (file : string)
| MsgFilesCopied (out : path)
| MsgErrorCopying (e : exn)
| MsgNoModelsFound
| MsgNoModelsSelected
| MsgPathsHeader
| MsgModel (model_name : string)
| MsgManifest (p : path)
| MsgBlobs
| MsgBlobPath (p : path)
| MsgBlobMissing (p : path)
| MsgCopyingModel (model_name : string).

(** ** get_installed_models (lines 49-74) *)

(** The outcome of [subprocess.run(["ollama", "list"], check=True)]. *)
Inductive completed :=
| CommandNotFound
| CalledProcessError (stderr : string)
| Completed (stdout : string).

(** The body of the loop over the lines: the rows it appends. *)
Definition parse_line (line : string) : list ModelRow :=
  match Py.split line with
  | p0 :: p1 :: p2 :: p3 :: rest =>
      [ {| row_name := p0;
           row_id := p1;
           row_size := p2 ++ " " ++ p3;
           row_modified := Py.join " " rest |} ]
  | _ => []
  end.

(** [models] before the sort: the rows of [lines[1:]] in order. *)
Definition parse_models (stdout : string) : list ModelRow :=
  flat_map parse_line (List.tl (Py.splitlines (Py.strip stdout))).

Definition sort_key (m : ModelRow) : string := Py.lower (row_name m).

(** [list.sort(key=...)] is a stable sort that compares keys with [<];
    the result of a stable sort does not depend on the algorithm, so a
    stable insertion sort stands for it. *)
Fixpoint insert_row (x : ModelRow) (l : list ModelRow) : list ModelRow :=
  match l with
  | [] => [x]
  | y :: l' =>
      if Py.str_lt (sort_key y) (sort_key x)
      then y :: insert_row x l'
      else x :: l
  end.

Fixpoint sort_models (l : list ModelRow) : list ModelRow :=
  match l with
  | [] => []
  | x :: l' => insert_row x (sort_models l')
  end.

Definition get_installed_models (run : completed)
  : list msg * result (list ModelRow) :=
  match run with
  | CommandNotFound => ([MsgOllamaNotFound], Raise (SystemExit 1))
  | CalledProcessError stderr =>
      ([MsgOllamaListError stderr], Raise (SystemExit 1))
  | Completed stdout => ([], Ok (sort_models (parse_models stdout)))
  end.

(** ** choose_models_text (lines 76-109) *)

Fixpoint table_rows (i : Z) (models : list ModelRow) : list msg :=
  match models with
  | [] => []
  | m :: ms => MsgTableRow i m :: table_rows (i + 1) ms
  end.

(** [[int(c.strip()) for c in choice_input.split(",")]]; [None] is
    [ValueError]. *)
Fixpoint parse_choices (cs : list string) : option (list Z) :=
  match cs with
  | [] => Some []
  | c :: cs' =>
      match Py.int (Py.strip c) with
      | None => None
      | Some z =>
          match parse_choices cs' with
          | None => None
          | Some zs => Some (z :: zs)
          end
      end
  end.

(** How the [for choice in choices] loop ends. *)
Inductive selection :=
| AllValid (selected_models : list string)   (* the [else] branch *)
| Invalid (choice : Z).                      (* left by [break] *)

Fixpoint select_loop (models : list ModelRow) (choices : list Z)
    (selected_models : list string) : result selection :=
  match choices with
  | [] => Ok (AllValid selected_models)
  | choice :: rest =>
      if (1 <=? choice) && (choice <=? Z.of_nat (length models))
      then match py_index models (choice - 1) with
           | Ok m => select_loop models rest (selected_models ++ [row_name m])
           | Raise e => Raise e
           end
      else Ok (Invalid choice)
  end.

(** Put [pre] in front of the log of a later step. *)
Definition logged {A B} (pre : list msg) (r : list msg * A * B)
  : list msg * A * B :=
  let '(out, a, b) := r in ((pre ++ out)%list, a, b).

(** The [while True] loop, one iteration per input line. *)
Fixpoint choose_loop (models : list ModelRow) (stdin : list string)
  : list msg * result (list string) * list string :=
  match stdin with
  | [] => ([MsgPromptSelect], Raise EOFError, [])
  | line :: rest =>
      let choice_input := Py.strip line in
      if Py.is_empty choice_input then ([MsgPromptSelect], Ok [], rest)
      else if String.eqb (Py.lower choice_input) "all"
      then ([MsgPromptSelect], Ok (map row_name models), rest)
      else
        match parse_choices (Py.split_on "," choice_input) with
        | None =>
            logged [MsgPromptSelect; MsgEnterNumbers] (choose_loop models rest)
        | Some choices =>
            match select_loop models choices [] with
            | Raise e => ([MsgPromptSelect], Raise e, rest)
            | Ok (Invalid choice) =>
                logged [MsgPromptSelect; MsgInvalidChoice choice]
                       (choose_loop models rest)
            | Ok (AllValid []) =>
                logged [MsgPromptSelect] (choose_loop models rest)
            | Ok (AllValid selected_models) =>
                ([MsgPromptSelect], Ok selected_models, rest)
            end
        end
  end.

Definition choose_models_text (models : list ModelRow) (stdin : list string)
  : list msg * result (list string) * list string :=
  logged (MsgTableHeader :: table_rows 1 models) (choose_loop models stdin).

(** ** choose_models_picker (lines 111-130) *)

Fixpoint names_at (models : list ModelRow) (indices : list Z)
  : result (list string) :=
  match indices with
  | [] => Ok []
  | i :: rest =>
      match py_index models i with
      | Raise e => Raise e
      | Ok m =>
          match names_at models rest with
          | Raise e => Raise e
          | Ok ns => Ok (row_name m :: ns)
          end
      end
  end.

(** [picker_run] is what [Picker(...).run()] selects for the rows. *)
Definition choose_models_picker (picker_run : list ModelRow -> list Z)
    (models : list ModelRow) : result (list string) :=
  match picker_run models with
  | [] => Ok []
  | selected_indices => names_at models selected_indices
  end.

(** ** find_manifest_path (lines 132-139) *)

Definition find_manifest_path (g : globals) (f : fs) (model_name : string)
  : list msg * result path :=
  match Py.split_on ":" model_name with
  | [model_name'; model_version] =>
      let manifest_path :=
        OLLAMA_MANIFEST_DIR g // model_name' // model_version in
      if exists_ f manifest_path then ([], Ok manifest_path)
      else ([MsgManifestNotFound model_name'], Raise (SystemExit 1))
  | _ => ([], Raise ValueError)            (* the unpacking fails *)
  end.

(** ** parse_manifest (lines 141-154) *)

(** Lines 151-153: the loop over the layers. *)
Fixpoint layer_loop (layers : list json) (digests : list json)
  : result (list json) :=
  match layers with
  | [] => Ok digests
  | layer :: rest =>
      match py_in "digest" layer with
      | Raise e => Raise e
      | Ok false => layer_loop rest digests
      | Ok true =>
          match py_getitem layer "digest" with
          | Raise e => Raise e
          | Ok d => layer_loop rest (digests ++ [d])
          end
      end
  end.

(** Lines 146-154, on the decoded manifest. *)
Definition manifest_digests (manifest : json) : result (list json) :=
  match py_get manifest "config" (JDict []) with
  | Raise e => Raise e
  | Ok config =>
      match py_get config "digest" JNull with
      | Raise e => Raise e
      | Ok config_digest =>
          let digests := if truthy config_digest then [config_digest] else [] in
          match py_get manifest "layers" (JList []) with
          | Raise e => Raise e
          | Ok layers =>
              match py_iter layers with
              | Raise e => Raise e
              | Ok items => layer_loop items digests
              end
          end
      end
  end.

(** [json_loads] is the decoder of the [json] module; [None] is
    [JSONDecodeError]. *)
Definition parse_manifest (json_loads : string -> option json)
    (f : fs) (manifest_path : path) : result (list json) :=
  match read_text f manifest_path with
  | Raise e => Raise e
  | Ok text =>
      match json_loads text with
      | None => Raise JSONDecodeError
      | Some manifest => manifest_digests manifest
      end
  end.

(** ** prompt_copy (lines 156-165) *)

Definition one_of (s : string) (l : list string) : bool :=
  existsb (String.eqb s) l.

Fixpoint prompt_copy (stdin : list string)
  : list msg * result bool * list string :=
  match stdin with
  | [] => ([MsgPromptCopy], Raise EOFError, [])
  | line :: rest =>
      let response := Py.strip (Py.lower line) in
      if one_of response ["y"; "yes"] then ([MsgPromptCopy], Ok true, rest)
      else if one_of response ["n"; "no"] then ([MsgPromptCopy], Ok false, rest)
      else logged [MsgPromptCopy; MsgEnterYN] (prompt_copy rest)
  end.

(** ** copy_files (lines 167-205) *)

(** The file name of a blob: [digest.replace(":", "-")]. *)
Definition blob_name (digest : string) : string := Py.replace ":" "-" digest.

(** Lines 193-200: the loop over the digests.  The last component is the
    exception that left the loop, if any. *)
Fixpoint copy_blobs (g : globals) (blobs_dir : path) (digests : list json)
    (f : fs) : list msg * fs * option exn :=
  match digests with
  | [] => ([], f, None)
  | JStr digest :: rest =>
      let blob_file := OLLAMA_BLOB_DIR g // blob_name digest in
      if exists_ f blob_file then
        let dest_blob := blobs_dir // blob_name digest in
        match copy2 f blob_file dest_blob with
        | Raise e => ([], f, Some e)
        | Ok f' =>
            logged [MsgBlobCopied (blob_name digest)]
                   (copy_blobs g blobs_dir rest f')
        end
      else
        logged [MsgBlobSkipped (blob_name digest)]
               (copy_blobs g blobs_dir rest f)
  | _ :: _ => ([], f, Some AttributeError)  (* no [replace] method *)
  end.

Definition copy_files (g : globals) (model_name : string)
    (manifest_path : path) (digests : list json) (f : fs) : list msg * fs :=
  match Py.split_on ":" model_name with
  | [model_base; version] =>
      let manifest_dir :=
        OUTPUT_DIR g // "manifests" // "registry.ollama.ai" // "library"
                   // model_base in
      let blobs_dir := OUTPUT_DIR g // "blobs" in
      match mkdir f manifest_dir with
      | Raise e => ([MsgErrorCopying e], f)
      | Ok f1 =>
          match mkdir f1 blobs_dir with
          | Raise e => ([MsgErrorCopying e], f1)
          | Ok f2 =>
              let dest_manifest := manifest_dir // version in
              match copy2 f2 manifest_path dest_manifest with
              | Raise e =>
                  ([MsgCopyingManifest dest_manifest; MsgErrorCopying e], f2)
              | Ok f3 =>
                  let '(out, f4, r) := copy_blobs g blobs_dir digests f3 in
                  (([MsgCopyingManifest dest_manifest; MsgManifestCopied;
                     MsgCopyingBlobs] ++ out
                    ++ [match r with
                        | None => MsgFilesCopied (OUTPUT_DIR g)
                        | Some e => MsgErrorCopying e
                        end])%list, f4)
              end
          end
      end
  | _ => ([MsgInvalidName model_name], f)
  end.

(** ** main (lines 207-251) *)

Abbreviation model_data := (list (string * list string * list json)).

(** Lines 228-232: manifest path and digests of every selected model. *)
Fixpoint collect_model_data (json_loads : string -> option json)
    (g : globals) (f : fs) (selected_models : list string)
  : list msg * result model_data :=
  match selected_models with
  | [] => ([], Ok [])
  | model :: rest =>
      match find_manifest_path g f model with
      | (out, Raise e) => (out, Raise e)
      | (out, Ok manifest_path) =>
          match parse_manifest json_loads f manifest_path with
          | Raise e => (out, Raise e)
          | Ok digests =>
              match collect_model_data json_loads g f rest with
              | (out', Raise e) => ((out ++ out')%list, Raise e)
              | (out', Ok data) =>
                  ((out ++ out')%list,
                   Ok ((model, manifest_path, digests) :: data))
              end
          end
      end
  end.

(** Lines 240-245: the blob paths of one model. *)
Fixpoint display_blobs (g : globals) (f : fs) (digests : list json)
  : list msg * option exn :=
  match digests with
  | [] => ([], None)
  | JStr digest :: rest =>
      let blob_file := OLLAMA_BLOB_DIR g // blob_name digest in
      let '(out, r) := display_blobs g f rest in
      ((MsgBlobPath blob_file
         :: (if exists_ f blob_file then [] else [MsgBlobMissing blob_file])
         ++ out)%list, r)
  | _ :: _ => ([], Some AttributeError)
  end.

(** Lines 236-245: the preview. *)
Fixpoint display_paths (g : globals) (f : fs) (data : model_data)
  : list msg * option exn :=
  match data with
  | [] => ([], None)
  | (model, manifest_path, digests) :: rest =>
      match display_blobs g f digests with
      | (out, Some e) =>
          ((MsgModel model :: MsgManifest manifest_path :: MsgBlobs :: out)%list,
           Some e)
      | (out, None) =>
          let '(out', r) := display_paths g f rest in
          ((MsgModel model :: MsgManifest manifest_path :: MsgBlobs
             :: out ++ out')%list, r)
      end
  end.

(** Lines 249-251: the export of every selected model. *)
Fixpoint export_all (g : globals) (data : model_data) (f : fs)
  : list msg * fs :=
  match data with
  | [] => ([], f)
  | (model, manifest_path, digests) :: rest =>
      let '(out, f') := copy_files g model manifest_path digests f in
      let '(out', f'') := export_all g rest f' in
      ((MsgCopyingModel model :: out ++ out')%list, f'')
  end.

(** What [main] hands back: the log, how it ended, the unread input and
    the file system. *)
Record run := {
  run_log : list msg;
  run_end : result unit;
  run_stdin : list string;
  run_fs : fs
}.

Definition selection_of (h : host) (picker_run : list ModelRow -> list Z)
    (models : list ModelRow) (stdin : list string)
  : list msg * result (list string) * list string :=
  if String.eqb (system h) "Windows" || negb (LISTPICK_AVAILABLE h)
  then choose_models_text models stdin
  else ([], choose_models_picker picker_run models, stdin).

Definition main (json_loads : string -> option json) (h : host)
    (g : globals) (ollama_list : completed)
    (picker_run : list ModelRow -> list Z)
    (stdin : list string) (f : fs) : run :=
  match get_installed_models ollama_list with
  | (out0, Raise e) => Build_run out0 (Raise e) stdin f
  | (out0, Ok []) => Build_run (out0 ++ [MsgNoModelsFound]) (Ok tt) stdin f
  | (out0, Ok models) =>
      match selection_of h picker_run models stdin with
      | (out1, Raise e, stdin1) => Build_run (out0 ++ out1) (Raise e) stdin1 f
      | (out1, Ok [], stdin1) =>
          Build_run (out0 ++ out1 ++ [MsgNoModelsSelected]) (Ok tt) stdin1 f
      | (out1, Ok selected_models, stdin1) =>
          match collect_model_data json_loads g f selected_models with
          | (out2, Raise e) =>
              Build_run (out0 ++ out1 ++ out2) (Raise e) stdin1 f
          | (out2, Ok data) =>
              match display_paths g f data with
              | (out3, Some e) =>
                  Build_run (out0 ++ out1 ++ out2 ++ MsgPathsHeader :: out3)
                            (Raise e) stdin1 f
              | (out3, None) =>
                  let pre := (out0 ++ out1 ++ out2 ++ MsgPathsHeader :: out3)%list in
                  match prompt_copy stdin1 with
                  | (out4, Raise e, stdin2) =>
                      Build_run (pre ++ out4) (Raise e) stdin2 f
                  | (out4, Ok false, stdin2) =>
                      Build_run (pre ++ out4) (Ok tt) stdin2 f
                  | (out4, Ok true, stdin2) =>
                      let '(out5, f') := export_all g data f in
                      Build_run (pre ++ out4 ++ out5) (Ok tt) stdin2 f'
                  end
              end
          end
      end
  end.

(** The script run as a program: the module-level code, then [main]. *)
Definition script (json_loads : string -> option json) (h : host)
    (ollama_list : completed) (picker_run : list ModelRow -> list Z)
    (stdin : list string) (f : fs) : run :=
  main json_loads h (module_globals h f) ollama_list picker_run stdin f.

(** ** Definitions used to state the properties *)

(** The manifest format of the specification: an object whose optional
    [config] is an object with an optional string [digest], and whose
    optional [layers] is an array of objects with an optional string
    [digest]; other members are free. *)
Definition opt_str (o : option json) : bool :=
  match o with
  | None | Some (JStr _) => true
  | _ => false
  end.

Definition layer_shape (layer : json) : bool :=
  match layer with
  | JDict d => opt_str (dict_get "digest" d)
  | _ => false
  end.

Definition manifest_shape (m : json) : bool :=
  match m with
  | JDict d =>
      match dict_get "config" d with
      | None => true
      | Some (JDict c) => opt_str (dict_get "digest" c)
      | _ => false
      end
      && match dict_get "layers" d with
         | None => true
         | Some (JList ls) => forallb layer_shape ls
         | _ => false
         end
  | _ => false
  end.

(** A member of an object, when it is there. *)
Definition field (k : string) (v : json) : option json :=
  match v with
  | JDict d => dict_get k d
  | _ => None
  end.

Definition config_digest (m : json) : option json :=
  match field "config" m with
  | Some c => field "digest" c
  | None => None
  end.

Definition layers_of (m : json) : list json :=
  match field "layers" m with
  | Some (JList ls) => ls
  | _ => []
  end.

(** The digest of every layer that has one, in array order. *)
Definition layer_digests (m : json) : list json :=
  omap (field "digest") (layers_of m).

(** The digest list as the specification words it: the config digest if
    present, then the layer digests. *)
Definition claimed_digests (m : json) : list json :=
  (option_list (config_digest m) ++ layer_digests m)%list.

(** The digest list with the config digest kept only when it is not
    empty. *)
Definition listed_digests (m : json) : list json :=
  (match config_digest m with
   | Some d => if truthy d then [d] else []
   | None => []
   end ++ layer_digests m)%list.

(** A line of the listing that gives a row: at least four tokens. *)
Definition well_formed (line : string) : bool :=
  (4 <=? length (Py.split line))%nat.

(** The row the specification reads off the tokens of a line. *)
Definition row_of_tokens (tokens : list string) : ModelRow :=
  {| row_name := nth 0 tokens "";
     row_id := nth 1 tokens "";
     row_size := nth 2 tokens "" ++ " " ++ nth 3 tokens "";
     row_modified := Py.join " " (drop 4 tokens) |}.

Definition row_of_line (line : string) : ModelRow :=
  row_of_tokens (Py.split line).

(** [a] may stand before [b] in a list sorted case-insensitively by
    name. *)
Definition name_le (a b : ModelRow) : Prop :=
  Py.str_lt (Py.lower (row_name b)) (Py.lower (row_name a)) = false.

(** A string of whitespace only. *)
Fixpoint all_space (s : string) : bool :=
  match s with
  | EmptyString => true
  | String c s' => Py.isspace c && all_space s'
  end.

(** The line feed, and texts given line by line. *)
Definition LF : string := String (Py.chr 10) EmptyString.

Definition unlines (ls : list string) : string := Py.join LF ls.

(** A number that designates a row of the table. *)
Definition in_range (models : list ModelRow) (c : Z) : bool :=
  (1 <=? c) && (c <=? Z.of_nat (length models)).

(** The name in row number [n] of the table, rows being numbered from
    1. *)
Definition row_number (models : list ModelRow) (n : Z) : option string :=
  row_name <$> models !! Z.to_nat (n - 1).

(** The numbers of an input line that is a comma-separated list of
    numbers. *)
Definition numbers (line : string) : option (list Z) :=
  parse_choices (Py.split_on "," (Py.strip line)).

(** The answer read from a line of input, and its two recognized
    kinds. *)
Definition answer (line : string) : string := Py.strip (Py.lower line).

Definition affirmative (line : string) : bool :=
  one_of (answer line) ["y"; "yes"].

Definition negative (line : string) : bool :=
  one_of (answer line) ["n"; "no"].

Definition recognized (line : string) : bool :=
  affirmative line || negative line.



(** An inventory of five rows. *)
Definition five_rows : list ModelRow :=
  [ {| row_name := "gemma:2b"; row_id := "a1"; row_size := "1.7 GB";
       row_modified := "5 days ago" |};
    {| row_name := "llama3:8b"; row_id := "b2"; row_size := "4.7 GB";
       row_modified := "2 weeks ago" |};
    {| row_name := "mistral:7b"; row_id := "c3"; row_size := "4.1 GB";
       row_modified := "3 weeks ago" |};
    {| row_name := "phi3:mini"; row_id := "d4"; row_size := "2.2 GB";
       row_modified := "4 weeks ago" |};
    {| row_name := "qwen2:7b"; row_id := "e5"; row_size := "4.4 GB";
       row_modified := "2 months ago" |} ].

(** Source and destination of the blob of a digest. *)
Definition blob_src (g : globals) (digest : string) : path :=
  OLLAMA_BLOB_DIR g // blob_name digest.

Definition blob_dst (blobs_dir : path) (digest : string) : path :=
  blobs_dir // blob_name digest.

(** Two file systems with the same directories. *)
Definition dirs_eq (f f' : fs) : Prop :=
  forall p, is_dir f p = is_dir f' p.

(** Two file systems that agree on the given paths. *)
Definition agree (ps : list path) (f f' : fs) : Prop :=
  forall p, p ∈ ps -> stat f p = stat f' p.

(** A sequence of writes, applied in order. *)
Definition apply_writes (ws : list (path * node)) (f : fs) : fs :=
  foldl (fun f w => <[w.1 := w.2]> f) f ws.

(** The string without its first character. *)
Definition str_tail (s : string) : string :=
  match s with
  | EmptyString => EmptyString
  | String _ s' => s'
  end.

(** [ext ls ls']: [ls'] is [ls] with whitespace added at the end of the
    text, that is, with its last line extended by whitespace and followed
    by blank lines. *)
Inductive ext : list string -> list string -> Prop :=
| ext_nil bl :
    Forall (fun l => all_space l = true) bl -> ext [] bl
| ext_one l w bl :
    all_space w = true ->
    Forall (fun l => all_space l = true) bl ->
    ext [l] ((l ++ w) :: bl)
| ext_cons l ls ls' :
    ext ls ls' -> ext (l :: ls) (l :: ls').

(** The first line gets one more character in front. *)
Definition prepend (c : ascii) (ls : list string) : list string :=
  match ls with
  | t :: ts => String c t :: ts
  | [] => [String c EmptyString]
  end.

(** The last node written to [p], if any. *)
Fixpoint last_write (ws : list (path * node)) (p : path) : option node :=
  match ws with
  | [] => None
  | w :: ws' =>
      match last_write ws' p with
      | Some n => Some n
      | None => if decide (w.1 = p) then Some w.2 else None
      end
  end.

(** A write of a file over something that is not a directory. *)
Definition file_write (f : fs) (w : path * node) : Prop :=
  w.1 <> [] /\ is_dir f w.1 = false /\ exists data meta, w.2 = File data meta.

(** The files an export reads: the manifest and the source blobs. *)
Fixpoint blob_sources (g : globals) (digests : list json) : list path :=
  match digests with
  | [] => []
  | JStr d :: rest => blob_src g d :: blob_sources g rest
  | _ :: rest => blob_sources g rest
  end.

Definition export_reads (g : globals) (manifest_path : path)
    (digests : list json) : list path :=
  manifest_path :: blob_sources g digests.

(** The files an export may write: each destination, or the entry of the
    same name inside it should the destination be a directory. *)
Fixpoint blob_targets (g : globals) (blobs_dir : path) (digests : list json)
  : list path :=
  match digests with
  | [] => []
  | JStr d :: rest =>
      blob_dst blobs_dir d
      :: (blob_dst blobs_dir d ++ [basename (blob_src g d)])%list
      :: blob_targets g blobs_dir rest
  | _ :: rest => blob_targets g blobs_dir rest
  end.

Definition export_writes (g : globals) (model_base version : string)
    (manifest_path : path) (digests : list json) : list path :=
  let dest_manifest :=
    OUTPUT_DIR g // "manifests" // "registry.ollama.ai" // "library"
               // model_base // version in
  dest_manifest
  :: (dest_manifest ++ [basename manifest_path])%list
  :: blob_targets g (OUTPUT_DIR g // "blobs") digests.

(** No file read by the export of a model is a file it may write: the
    sources lie outside the destination tree. *)
Definition no_alias (g : globals) (model_name : string)
    (manifest_path : path) (digests : list json) : bool :=
  match Py.split_on ":" model_name with
  | [model_base; version] =>
      forallb
        (fun s =>
           negb (bool_decide
                   (s ∈ export_writes g model_base version manifest_path
                                      digests)))
        (export_reads g manifest_path digests)
  | _ => true
  end.

(** The conditions under which every copy of the blob loop goes through:
    the directory of every destination is there, no source and no
    destination is a directory, and no source is a destination. *)
Definition copyable (g : globals) (blobs_dir : path) (f : fs)
    (digests : list string) : bool :=
  forallb
    (fun d =>
       is_dir f (parent (blob_dst blobs_dir d))
       && negb (is_dir f (blob_src g d))
       && negb (is_dir f (blob_dst blobs_dir d))
       && forallb
            (fun d' =>
               negb (bool_decide (blob_src g d' = blob_dst blobs_dir d)))
            digests)
    digests.

(** The notice the blob loop prints for a digest. *)
Definition blob_notice (g : globals) (f : fs) (digest : string) : msg :=
  if exists_ f (blob_src g digest)
  then MsgBlobCopied (blob_name digest)
  else MsgBlobSkipped (blob_name digest).

Definition is_skip (m : msg) : bool :=
  match m with
  | MsgBlobSkipped _ => true
  | _ => false
  end.

(** A manifest whose config digest is the empty string. *)
Definition manifest_empty_config : json :=
  JDict [("config", JDict [("digest", JStr "")]); ("layers", JList [])].

(** A manifest with a config digest, two layers with a digest and one
    layer without. *)
Definition manifest_three (d0 d1 d2 : string) : json :=
  JDict [("config", JDict [("digest", JStr d0)]);
         ("layers", JList [JDict [("digest", JStr d1)];
                           JDict [("mediaType", JStr "layer")];
                           JDict [("digest", JStr d2)]])].

(** How many times a character occurs in a string. *)
Fixpoint count_char (c : ascii) (s : string) : nat :=
  match s with
  | EmptyString => O
  | String c' s' => ((if Ascii.eqb c' c then 1 else 0) + count_char c s')%nat
  end.

(** ** A sample installation

    A Linux host with one model, [llama3:8b], whose manifest names three
    blobs of which the third is missing from the store. *)
Definition sample_host : host :=
  {| system := "Linux";
     home := ["home"; "u"];
     cwd := ["home"; "u"];
     CUSTOM_OUTPUT_DIR := "";
     CUSTOM_OLLAMA_BASE_DIR := "";
     LISTPICK_AVAILABLE := false |}.

Definition sample_store : path := ["usr"; "share"; "ollama"; "models"].

Definition sample_library : path :=
  (sample_store ++ ["manifests"; "registry.ollama.ai"; "library"])%list.

Definition sample_fs : fs :=
  list_to_map
    [ (["home"], Dir);
      (["home"; "u"], Dir);
      (["usr"], Dir);
      (["usr"; "share"], Dir);
      (["usr"; "share"; "ollama"], Dir);
      (sample_store, Dir);
      ((sample_store ++ ["manifests"])%list, Dir);
      ((sample_store ++ ["manifests"; "registry.ollama.ai"])%list, Dir);
      (sample_library, Dir);
      ((sample_library ++ ["llama3"])%list, Dir);
      ((sample_library ++ ["llama3"; "8b"])%list, File "manifest of llama3" 7);
      ((sample_store ++ ["blobs"])%list, Dir);
      ((sample_store ++ ["blobs"; "sha256-aa"])%list, File "config" 3);
      ((sample_store ++ ["blobs"; "sha256-bb"])%list, File "weights" 5) ].

Definition sample_globals : globals := module_globals sample_host sample_fs.

Definition sample_manifest : json :=
  manifest_three "sha256:aa" "sha256:bb" "sha256:cc".

Definition sample_digests : list string :=
  ["sha256:aa"; "sha256:bb"; "sha256:cc"].

Definition sample_json_loads (text : string) : option json :=
  if String.eqb text "manifest of llama3" then Some sample_manifest else None.

Definition sample_listing : completed :=
  Completed (unlines ["NAME       ID    SIZE    MODIFIED";
                      "llama3:8b  365c  4.7 GB  2 weeks ago"]).

(** The sample file system with the directories of the destination
    tree. *)
Definition sample_fs_out : fs :=
  <[ ["home"; "u"; "ollama"; "blobs"] := Dir ]>
    (<[ ["home"; "u"; "ollama"] := Dir ]> sample_fs).

(** The sample file system after each step of the export of the sample
    model: the manifest directory, the blob directory, the manifest. *)
Definition sample_out : path := ["home"; "u"; "ollama"].

Definition sample_fs_dirs : fs :=
  <[ (sample_out ++ ["manifests"; "registry.ollama.ai"; "library"; "llama3"])%list
     := Dir ]>
    (<[ (sample_out ++ ["manifests"; "registry.ollama.ai"; "library"])%list
        := Dir ]>
       (<[ (sample_out ++ ["manifests"; "registry.ollama.ai"])%list := Dir ]>
          (<[ (sample_out ++ ["manifests"])%list := Dir ]>
             (<[ sample_out := Dir ]> sample_fs)))).

Definition sample_fs_ready : fs :=
  <[ (sample_out ++ ["blobs"])%list := Dir ]> sample_fs_dirs.

Definition sample_fs_manifest : fs :=
  <[ (sample_out ++ ["manifests"; "registry.ollama.ai"; "library"; "llama3";
                     "8b"])%list
     := File "manifest of llama3" 7 ]> sample_fs_ready.

(** A Linux host where only the second probed directory has a [blobs]
    entry. *)
Definition second_probe_fs : fs :=
  list_to_map
    [ (["var"], Dir);
      (["var"; "lib"], Dir);
      (["var"; "lib"; "ollama"], Dir);
      (["var"; "lib"; "ollama"; "models"], Dir);
      (["var"; "lib"; "ollama"; "models"; "blobs"], Dir) ].

(** ** Definitions used by the further properties *)

(** A string without whitespace, and a token: a non-empty such string. *)
Fixpoint no_space (s : string) : bool :=
  match s with
  | EmptyString => true
  | String c s' => negb (Py.isspace c) && no_space s'
  end.

Definition is_token (s : string) : bool :=
  negb (Py.is_empty s) && no_space s.

(** The shape of a row built from a line of the listing. *)
Definition row_ok (r : ModelRow) : Prop :=
  is_token (row_name r) = true
  /\ is_token (row_id r) = true
  /\ (exists a b, is_token a = true /\ is_token b = true
                  /\ row_size r = a ++ " " ++ b)
  /\ (exists ts, forallb is_token ts = true
                 /\ row_modified r = Py.join " " ts).

(** A row written back as a line of the listing. *)
Definition render_row (r : ModelRow) : string :=
  Py.join " " [row_name r; row_id r; row_size r; row_modified r].

(** The rows whose sort key is [k]. *)
Definition with_key (k : string) (l : list ModelRow) : list ModelRow :=
  List.filter (fun r => String.eqb (sort_key r) k) l.

(** A line the numeric prompt accepts: empty, [all], or numbers that are
    all in range. *)
Definition accepted (models : list ModelRow) (line : string) : bool :=
  Py.is_empty (Py.strip line)
  || String.eqb (Py.lower (Py.strip line)) "all"
  || match numbers line with
     | Some choices => forallb (in_range models) choices
     | None => false
     end.

(** What the numeric prompt prints for a line it rejects. *)
Definition complaint (models : list ModelRow) (line : string) : msg :=
  match numbers line with
  | Some choices =>
      match List.find (fun c => negb (in_range models c)) choices with
      | Some bad => MsgInvalidChoice bad
      | None => MsgEnterNumbers
      end
  | None => MsgEnterNumbers
  end.

(** An index the picker may return: Python accepts [-n .. n-1]. *)
Definition valid_index (models : list ModelRow) (i : Z) : bool :=
  (- Z.of_nat (length models) <=? i) && (i <? Z.of_nat (length models)).

(** The name at a Python index, negative indices counting from the
    end. *)
Definition name_at (models : list ModelRow) (i : Z) : option string :=
  row_name <$> models !! Z.to_nat (i mod Z.of_nat (length models)).

(** A JSON value that is neither a string nor a container. *)
Definition scalar (v : json) : bool :=
  match v with
  | JNull | JBool _ | JInt _ | JFloat _ => true
  | _ => false
  end.

Definition is_object (v : json) : bool :=
  match v with
  | JDict _ => true
  | _ => false
  end.

(** What [main] records for a selected model: the manifest is where the
    store keeps it, it exists, and the digests are those of the manifest. *)
Definition resolved (json_loads : string -> option json) (g : globals)
    (f : fs) (entry : string * list string * list json) : Prop :=
  let '(model, manifest_path, digests) := entry in
  exists_ f manifest_path = true
  /\ (exists base version,
        Py.split_on ":" model = [base; version]
        /\ manifest_path = OLLAMA_MANIFEST_DIR g // base // version)
  /\ parse_manifest json_loads f manifest_path = Ok digests.

(** The kind of a node: directory or file. *)
Definition is_dir_node (n : node) : bool :=
  match n with
  | Dir => true
  | File _ _ => false
  end.

(** [f'] keeps every entry of [f], each with its kind. *)
Definition kept (f f' : fs) : Prop :=
  forall p n, stat f p = Some n ->
    exists n', stat f' p = Some n' /\ is_dir_node n' = is_dir_node n.

(** The paths an export of [model_name] may write a file to. *)
Definition export_targets (g : globals) (model_name : string)
    (manifest_path : path) (digests : list json) : list path :=
  match Py.split_on ":" model_name with
  | [model_base; version] =>
      export_writes g model_base version manifest_path digests
  | _ => []
  end.

(** Where [copy_files] puts the manifest of a model. *)
Definition dest_manifest_of (g : globals) (model_base version : string)
  : path :=
  OUTPUT_DIR g // "manifests" // "registry.ollama.ai" // "library"
             // model_base // version.


(** The path of a missing-blob warning of the preview, and the file name
    of a skipped notice of the export. *)
Definition warned_path (m : msg) : option path :=
  match m with
  | MsgBlobMissing p => Some p
  | _ => None
  end.

Definition skipped_name (m : msg) : option string :=
  match m with
  | MsgBlobSkipped n => Some n
  | _ => None
  end.

Definition missing (g : globals) (f : fs) (d : string) : bool :=
  negb (exists_ f (blob_src g d)).


(** The source roots the platform rule can choose. *)
Definition home_store (h : host) : path := (home h ++ [".ollama"; "models"])%list.
Definition var_store : path := ["var"; "lib"; "ollama"].
Definition usr_store : path := ["usr"; "share"; "ollama"; "models"].

(** The host is one of the two home-directory platforms. *)
Definition home_platform (h : host) : bool :=
  String.eqb (system h) "Darwin" || String.eqb (system h) "Windows".

(** The string of [n] times the character [c]. *)
Fixpoint repeated (n : nat) (c : ascii) : string :=
  match n with
  | O => EmptyString
  | S n' => String c (repeated n' c)
  end.

(** ** Plain paths *)

(** The number of bytes of the UTF-8 encoding of a string of code points
    below 256. *)
Fixpoint utf8_length (s : string) : Z :=
  match s with
  | EmptyString => 0
  | String c s' => (if Py.ord c <? 128 then 1 else 2) + utf8_length s'
  end.

Fixpoint name_chars (s : string) : bool :=
  match s with
  | EmptyString => true
  | String c s' =>
      negb (Ascii.eqb c "/") && negb (Py.ord c =? 0) && name_chars s'
  end.

(** A file name: not empty, not [.] or [..], without slash or NUL, of at
    most 255 bytes. *)
Definition is_name (c : string) : bool :=
  negb (Py.is_empty c) && negb (String.eqb c ".") && negb (String.eqb c "..")
  && name_chars c && (utf8_length c <=? 255).

(** The length of a path written out, a slash before each component. *)
Fixpoint path_bytes (p : path) : Z :=
  match p with
  | [] => 0
  | c :: p' => 1 + utf8_length c + path_bytes p'
  end.

(** A plain path: every component is a file name and the whole stays
    below the limit of the operating system. *)
Definition plain (p : path) : bool :=
  forallb is_name p && (path_bytes p <=? 4095).

(** The blob paths of the digests are plain. *)
Definition plain_blobs (g : globals) (blobs_dir : path) (digests : list string)
  : bool :=
  forallb (fun d => plain (blob_src g d) && plain (blob_dst blobs_dir d))
          digests.

(** Every path the export of a model reads or may write is plain. *)
Definition plain_export (g : globals) (model_name : string)
    (manifest_path : path) (digests : list json) : bool :=
  match Py.split_on ":" model_name with
  | [model_base; version] =>
      forallb plain
        (export_reads g manifest_path digests
         ++ export_writes g model_base version manifest_path digests)
  | _ => true
  end.

(** The [config] member of a manifest object is absent or an object, so
    that reading its digest does not fail. *)
Definition config_ok (d : list (string * json)) : bool :=
  match dict_get "config" d with
  | Some c => is_object c
  | None => true
  end.

(** ** An installation that exports into its own store

    The output directory is the source blob directory, so that the
    destination of the blob [x] is the source of the blob [blobs/x]. *)
Definition alias_store : path := ["srv"; "models"].

Definition alias_globals : globals :=
  {| OUTPUT_DIR := (alias_store ++ ["blobs"])%list;
     OLLAMA_BASE_DIR := alias_store |}.

Definition alias_manifest : path :=
  (alias_store ++ ["manifests"; "registry.ollama.ai"; "library"; "m"; "v"])%list.

Definition alias_digests : list string := ["blobs/x"; "x"].

Definition alias_fs_flat : fs :=
  list_to_map
    [ (["srv"], Dir);
      (alias_store, Dir);
      ((alias_store ++ ["manifests"])%list, Dir);
      ((alias_store ++ ["manifests"; "registry.ollama.ai"])%list, Dir);
      ((alias_store ++ ["manifests"; "registry.ollama.ai"; "library"])%list,
       Dir);
      ((alias_store ++ ["manifests"; "registry.ollama.ai"; "library"; "m"])%list,
       Dir);
      (alias_manifest, File "manifest of m" 7);
      ((alias_store ++ ["blobs"])%list, Dir);
      ((alias_store ++ ["blobs"; "x"])%list, File "weights" 5);
      ((alias_store ++ ["blobs"; "blobs"])%list, Dir) ].

(** The same with a directory [blobs] inside the destination blob
    directory. *)
Definition alias_fs : fs :=
  <[ (alias_store ++ ["blobs"; "blobs"; "blobs"])%list := Dir ]> alias_fs_flat.

(** * Properties *)

(** ** The manifest parser *)

Lemma layer_loop_shape (ls acc : list json) :
  forallb layer_shape ls = true ->
  layer_loop ls acc = Ok (acc ++ omap (field "digest") ls)%list.
Proof.
  revert acc. induction ls as [|l ls IH]; intros acc H; simpl.
  - by rewrite app_nil_r.
  - simpl in H. apply andb_prop in H as [Hl Hls].
    destruct l as [| | | | |?|d]; try discriminate. simpl in *.
    destruct (dict_get "digest" d) as [v|]; simpl.
    + rewrite IH by done. by rewrite <- app_assoc.
    + by apply IH.
Qed.

Lemma manifest_digests_shape (m : json) :
  manifest_shape m = true -> manifest_digests m = Ok (listed_digests m).
Proof.
  destruct m as [| | | | | |d]; try discriminate. simpl.
  intros H. apply andb_prop in H as [Hc Hl].
  unfold manifest_digests, listed_digests, config_digest, layer_digests,
    layers_of. simpl.
  assert (Hlayers : forall acc,
    match py_iter match dict_get "layers" d with
                  | Some v => v
                  | None => JList []
                  end
    with
    | Ok items => layer_loop items acc
    | Raise e => Raise e
    end
    = Ok (acc ++ omap (field "digest")
                   match dict_get "layers" d with
                   | Some (JList ls) => ls
                   | _ => []
                   end)%list).
  { intros acc. destruct (dict_get "layers" d) as [[| | | | |ls|]|];
      try discriminate; simpl.
    - by apply layer_loop_shape.
    - by rewrite app_nil_r. }
  destruct (dict_get "config" d) as [[| | | | | |c]|]; try discriminate; simpl.
  - destruct (dict_get "digest" c) as [[| | | |s| |]|]; try discriminate;
      simpl.
    + destruct (Py.is_empty s); simpl;
        [exact (Hlayers []) | exact (Hlayers [JStr s])].
    + exact (Hlayers []).
  - exact (Hlayers []).
Qed.

(** C1, as stated, fails: the manifest [manifest_empty_config] has a
    config digest (the empty string), so the stated list holds that
    empty string, but the parser returns the empty list. *)
Lemma parse_manifest_claimed_counterexample :
  let f : fs := {[ ["store"; "manifest"] := File "text" 0 ]} in
  let json_loads := fun _ : string => Some manifest_empty_config in
  manifest_shape manifest_empty_config = true
  /\ claimed_digests manifest_empty_config = [JStr ""]
  /\ parse_manifest json_loads f ["store"; "manifest"] = Ok []
  /\ parse_manifest json_loads f ["store"; "manifest"]
     <> Ok (claimed_digests manifest_empty_config).
Proof.
  vm_compute. repeat split; discriminate.
Qed.

(** C1 (amended): for every manifest of the specified format, the parser
    returns the config digest if it is present and not the empty string,
    followed by the digest of every layer that has one, in the order of
    the [layers] array and without deduplication; a manifest with a
    non-empty config digest [d0] and layer digests [d1], [d2] (and a layer
    without digest) yields exactly [[d0; d1; d2]], also when [d1 = d2]. *)
Theorem parse_manifest_listed :
  (forall json_loads (f : fs) p text m,
      read_text f p = Ok text ->
      json_loads text = Some m ->
      manifest_shape m = true ->
      parse_manifest json_loads f p = Ok (listed_digests m))
  /\ (forall d0 d1 d2,
         d0 <> "" ->
         manifest_digests (manifest_three d0 d1 d2)
         = Ok [JStr d0; JStr d1; JStr d2]).
Proof.
  split.
  - intros json_loads f p text m Hread Hload Hshape.
    unfold parse_manifest. rewrite Hread, Hload.
    by apply manifest_digests_shape.
  - intros d0 d1 d2 Hd0. rewrite manifest_digests_shape by reflexivity.
    unfold listed_digests. simpl.
    destruct d0; [done|reflexivity].
Qed.

Lemma parse_manifest_listed_witness :
  let f : fs := {[ ["store"; "manifest"] := File "text" 0 ]} in
  let m := manifest_three "sha256:aa" "sha256:bb" "sha256:bb" in
  parse_manifest (fun _ => Some m) f ["store"; "manifest"]
  = Ok [JStr "sha256:aa"; JStr "sha256:bb"; JStr "sha256:bb"]
  /\ manifest_digests m
     = Ok [JStr "sha256:aa"; JStr "sha256:bb"; JStr "sha256:bb"].
Proof.
  intros f m. split.
  - exact (proj1 parse_manifest_listed (fun _ => Some m) f
             ["store"; "manifest"] "text" m
             eq_refl eq_refl eq_refl).
  - apply (proj2 parse_manifest_listed "sha256:aa" "sha256:bb" "sha256:bb").
    discriminate.
Defined.

(** C10: an empty-string digest is treated differently in the two
    places.  A config digest that is present but empty contributes no
    entry (the result is the layer digests alone); a layer whose [digest]
    key is present contributes its value whatever it is, the empty string
    included. *)
Theorem empty_digest_asymmetry :
  (forall m,
      manifest_shape m = true ->
      config_digest m = Some (JStr "") ->
      manifest_digests m = Ok (layer_digests m))
  /\ (forall d v rest digests,
         dict_get "digest" d = Some v ->
         layer_loop (JDict d :: rest) digests
         = layer_loop rest (digests ++ [v]))
  /\ manifest_digests
       (JDict [("config", JDict [("digest", JStr "")]);
               ("layers", JList [JDict [("digest", JStr "")]])])
     = Ok [JStr ""].
Proof.
  split; [|split].
  - intros m Hshape Hcfg. rewrite manifest_digests_shape by done.
    unfold listed_digests. by rewrite Hcfg.
  - intros d v rest digests Hd. simpl. by rewrite Hd.
  - reflexivity.
Qed.

Lemma empty_digest_asymmetry_witness :
  let m := JDict [("config", JDict [("digest", JStr "")]);
                  ("layers", JList [JDict [("digest", JStr "")];
                                    JDict [("digest", JStr "sha256:cc")]])] in
  manifest_digests m = Ok [JStr ""; JStr "sha256:cc"]
  /\ layer_loop [JDict [("digest", JStr "")]] [] = Ok [JStr ""].
Proof.
  intros m. split.
  - exact (proj1 empty_digest_asymmetry m eq_refl eq_refl).
  - exact (proj1 (proj2 empty_digest_asymmetry)
             [("digest", JStr "")] (JStr "") [] [] eq_refl).
Defined.

(** ** Strings: whitespace, tokens and lines *)

Lemma islinebreak_isspace (c : ascii) :
  Py.islinebreak c = true -> Py.isspace c = true.
Proof.
  destruct c as [[] [] [] [] [] [] [] []]; vm_compute; congruence.
Qed.

Lemma fields_not_nil (p : ascii -> bool) (s : string) : Py.fields p s <> [].
Proof.
  destruct s as [|c s]; simpl; [done|].
  destruct (p c); [done|]. by destruct (Py.fields p s).
Qed.

Lemma fields_app_space (l w : string) :
  all_space w = true ->
  Py.fields Py.isspace (l ++ w)
  = (Py.fields Py.isspace l ++ replicate (String.length w) "")%list.
Proof.
  intros Hw. induction l as [|c l IH]; simpl.
  - induction w as [|c w IHw]; simpl; [done|].
    simpl in Hw. apply andb_prop in Hw as [Hc Hw].
    rewrite Hc. f_equal. by apply IHw.
  - destruct (Py.isspace c); rewrite IH; [done|].
    pose proof (fields_not_nil Py.isspace l) as Hne.
    by destruct (Py.fields Py.isspace l).
Qed.

Lemma filter_replicate_empty (n : nat) :
  List.filter (fun t => negb (Py.is_empty t)) (replicate n "") = [].
Proof. induction n; simpl; auto. Qed.

Lemma split_app_space (l w : string) :
  all_space w = true -> Py.split (l ++ w) = Py.split l.
Proof.
  intros Hw. unfold Py.split. rewrite fields_app_space by done.
  rewrite List.filter_app, filter_replicate_empty. by rewrite app_nil_r.
Qed.

Lemma split_all_space (w : string) : all_space w = true -> Py.split w = [].
Proof. intros Hw. exact (split_app_space "" w Hw). Qed.

Lemma split_cons_space (c : ascii) (s : string) :
  Py.isspace c = true -> Py.split (String c s) = Py.split s.
Proof. intros Hc. unfold Py.split. simpl. by rewrite Hc. Qed.

Lemma split_cons_nonspace (c : ascii) (s : string) :
  Py.isspace c = false -> Py.split (String c s) <> [].
Proof.
  intros Hc. unfold Py.split. simpl. rewrite Hc.
  by destruct (Py.fields Py.isspace s).
Qed.

Lemma parse_line_split (l l' : string) :
  Py.split l = Py.split l' -> parse_line l = parse_line l'.
Proof. unfold parse_line. by intros ->. Qed.

Lemma parse_line_blank (l : string) : all_space l = true -> parse_line l = [].
Proof. intros H. unfold parse_line. by rewrite split_all_space. Qed.

Lemma rstrip_app (t : string) :
  exists w, all_space w = true /\ t = Py.rstrip t ++ w.
Proof.
  induction t as [|c t (w & Hw & IH)]; [by exists ""|].
  simpl. destruct (Py.rstrip t) as [|c' r] eqn:Hr.
  - simpl in IH. subst t. destruct (Py.isspace c) eqn:Hc.
    + exists (String c w). simpl. by rewrite Hc.
    + by exists w.
  - exists w. split; [done|].
    change (String c t = String c (String c' r ++ w)). by f_equal.
Qed.

(** Induction on a string with the hypothesis for the tail and for the
    tail of the tail, as the recursion of [splitlines] needs. *)
Lemma string_ind_two (P : string -> Prop) :
  P "" ->
  (forall c s, P s -> P (str_tail s) -> P (String c s)) ->
  forall s, P s.
Proof.
  intros H0 Hstep s.
  enough (P s /\ P (str_tail s)) by tauto.
  induction s as [|c s [IH1 IH2]]; simpl; auto.
Qed.

Lemma all_space_tail (w : string) :
  all_space w = true -> all_space (str_tail w) = true.
Proof.
  destruct w; simpl; [done|]. intros H. by apply andb_prop in H as [_ H].
Qed.

Lemma splitlines_all_space (w : string) :
  all_space w = true ->
  Forall (fun l => all_space l = true) (Py.splitlines w).
Proof.
  induction w as [|c w IH1 IH2] using string_ind_two; intros Hw; simpl.
  - constructor.
  - simpl in Hw. apply andb_prop in Hw as [Hc Hw].
    destruct (Py.islinebreak c).
    + destruct w as [|c' w']; [by repeat constructor|].
      destruct ((Py.ord c =? 13) && (Py.ord c' =? 10)).
      * constructor; [done|]. apply IH2. by apply (all_space_tail _ Hw).
      * constructor; [done|]. by apply IH1.
    + specialize (IH1 Hw). destruct (Py.splitlines w) as [|t ts].
      * repeat constructor. simpl. by rewrite Hc.
      * inversion IH1; subst. constructor; [|done]. simpl. by rewrite Hc.
Qed.

Lemma ext_prepend (c : ascii) (ls ls' : list string) :
  ext ls ls' -> ext (prepend c ls) (prepend c ls').
Proof.
  intros H. destruct H as [bl Hbl|l w bl Hw Hbl|l ls ls' H]; simpl.
  - destruct bl as [|b bl].
    + apply (ext_one (String c "") "" []); [done|constructor].
    + inversion Hbl; subst. by apply (ext_one (String c "") b bl).
  - by apply (ext_one (String c l) w bl).
  - by apply ext_cons.
Qed.

Lemma splitlines_app_space (s w : string) :
  all_space w = true -> ext (Py.splitlines s) (Py.splitlines (s ++ w)).
Proof.
  intros Hw. induction s as [|c s IH1 IH2] using string_ind_two.
  - simpl. apply ext_nil. by apply splitlines_all_space.
  - change (String c s ++ w) with (String c (s ++ w)).
    cbn [Py.splitlines]. destruct (Py.islinebreak c).
    + destruct s as [|c' s'].
      * change ("" ++ w) with w. destruct w as [|c' w'].
        { apply ext_cons, ext_nil. constructor. }
        pose proof (all_space_tail _ Hw) as Hw'. simpl in Hw'.
        destruct ((Py.ord c =? 13) && (Py.ord c' =? 10));
          apply ext_cons, ext_nil; by apply splitlines_all_space.
      * change (String c' s' ++ w) with (String c' (s' ++ w)). cbv match.
        destruct ((Py.ord c =? 13) && (Py.ord c' =? 10));
          by apply ext_cons.
    + by apply (ext_prepend c).
Qed.

Lemma flat_map_blank (bl : list string) :
  Forall (fun l => all_space l = true) bl -> flat_map parse_line bl = [].
Proof.
  induction 1 as [|l bl Hl _ IH]; simpl; [done|].
  by rewrite parse_line_blank, IH.
Qed.

Lemma ext_rows (ls ls' : list string) :
  ext ls ls' -> flat_map parse_line ls' = flat_map parse_line ls.
Proof.
  induction 1 as [bl Hbl|l w bl Hw Hbl|l ls ls' _ IH]; simpl.
  - by apply flat_map_blank.
  - rewrite (parse_line_split (l ++ w) l) by (by apply split_app_space).
    by rewrite flat_map_blank.
  - by rewrite IH.
Qed.

Lemma ext_header (ls body : list string) (h : string) :
  ext ls (h :: body) ->
  Py.split h <> [] ->
  exists h' body',
    ls = h' :: body' /\ Py.split h' = Py.split h
    /\ flat_map parse_line body' = flat_map parse_line body.
Proof.
  intros H Hh. inversion H as [bl Hbl|l w bl Hw Hbl|l ls0 ls' H0]; subst.
  - inversion Hbl; subst. by rewrite split_all_space in Hh.
  - exists l, []. split; [done|]. split.
    + symmetry. by apply split_app_space.
    + simpl. symmetry. by apply flat_map_blank.
  - exists h, ls0. split; [done|]. split; [done|].
    symmetry. by apply ext_rows.
Qed.

Lemma splitlines_lstrip (s h : string) (body : list string) :
  Py.splitlines s = h :: body ->
  Py.split h <> [] ->
  List.tl (Py.splitlines (Py.lstrip s)) = body.
Proof.
  revert h body. induction s as [|c s IH]; intros h body Hs Hh; [done|].
  cbn [Py.lstrip]. destruct (Py.isspace c) eqn:Hc; [|by rewrite Hs].
  cbn [Py.splitlines] in Hs. destruct (Py.islinebreak c).
  - exfalso. apply Hh.
    destruct s as [|c' s']; [by inversion Hs|].
    destruct ((Py.ord c =? 13) && (Py.ord c' =? 10)); by inversion Hs.
  - destruct (Py.splitlines s) as [|t ts] eqn:Hsl.
    + exfalso. apply Hh. inversion Hs; subst.
      by rewrite split_cons_space.
    + inversion Hs; subst. apply (IH t body); [done|].
      by rewrite split_cons_space in Hh.
Qed.

(** The rows read from a text with a header that is not blank. *)
Lemma parse_models_body (text header : string) (body : list string) :
  Py.splitlines text = header :: body ->
  Py.split header <> [] ->
  parse_models text = flat_map parse_line body.
Proof.
  intros Htext Hh. unfold parse_models, Py.strip.
  destruct (rstrip_app text) as (w & Hw & Heq).
  pose proof (splitlines_app_space (Py.rstrip text) w Hw) as Hext.
  rewrite <- Heq, Htext in Hext.
  destruct (ext_header _ _ _ Hext Hh) as (h' & body' & Hr & Hsp & Hrows).
  rewrite (splitlines_lstrip _ h' body' Hr) by (by rewrite Hsp).
  done.
Qed.

Lemma rows_cons_space (c : ascii) (s : string) :
  Py.isspace c = true ->
  flat_map parse_line (Py.splitlines (String c s))
  = flat_map parse_line (Py.splitlines s).
Proof.
  intros Hc. cbn [Py.splitlines]. destruct (Py.islinebreak c).
  - destruct s as [|c' s']; [done|].
    destruct ((Py.ord c =? 13) && (Py.ord c' =? 10)) eqn:Hcr; [|done].
    apply andb_prop in Hcr as [_ Hlf]. apply Z.eqb_eq in Hlf.
    cbn [Py.splitlines]. unfold Py.islinebreak. rewrite Hlf.
    by destruct s'.
  - destruct (Py.splitlines s) as [|t ts]; simpl.
    + rewrite (parse_line_split (String c "") ""); [done|].
      by apply split_cons_space.
    + by rewrite (parse_line_split (String c t) t)
        by (by apply split_cons_space).
Qed.

Lemma rows_lstrip (s : string) :
  flat_map parse_line (Py.splitlines (Py.lstrip s))
  = flat_map parse_line (Py.splitlines s).
Proof.
  induction s as [|c s IH]; [done|].
  cbn [Py.lstrip]. destruct (Py.isspace c) eqn:Hc; [|done].
  by rewrite IH, rows_cons_space.
Qed.

Lemma rows_strip (text : string) :
  flat_map parse_line (Py.splitlines (Py.strip text))
  = flat_map parse_line (Py.splitlines text).
Proof.
  unfold Py.strip. rewrite rows_lstrip.
  destruct (rstrip_app text) as (w & Hw & Heq).
  rewrite Heq at 2. symmetry. by apply ext_rows, splitlines_app_space.
Qed.

Lemma parse_line_well_formed (l : string) :
  parse_line l = if well_formed l then [row_of_line l] else [].
Proof.
  unfold parse_line, well_formed, row_of_line.
  by destruct (Py.split l) as [|p0 [|p1 [|p2 [|p3 rest]]]].
Qed.

Lemma rows_filter (ls : list string) :
  flat_map parse_line ls = map row_of_line (List.filter well_formed ls).
Proof.
  induction ls as [|l ls IH]; simpl; [done|].
  rewrite parse_line_well_formed, IH. by destruct (well_formed l).
Qed.

Lemma parse_models_none (text : string) :
  List.filter well_formed (Py.splitlines text) = [] ->
  parse_models text = [].
Proof.
  intros H. pose proof (rows_strip text) as Hs.
  rewrite (rows_filter (Py.splitlines text)), H in Hs. simpl in Hs.
  unfold parse_models. destruct (Py.splitlines (Py.strip text)); [done|].
  simpl in *. by apply app_eq_nil in Hs as [_ ?].
Qed.

(** ** Sorting by key *)

Lemma compare_not_lt_trans (x y z : string) :
  (x ?= y)%string <> Lt -> (y ?= z)%string <> Lt -> (x ?= z)%string <> Lt.
Proof.
  revert y z. induction x as [|a x IH]; intros [|b y] [|c z]; simpl; try done.
  unfold Ascii.compare.
  destruct (N.compare_spec (N_of_ascii a) (N_of_ascii b)),
           (N.compare_spec (N_of_ascii b) (N_of_ascii c)),
           (N.compare_spec (N_of_ascii a) (N_of_ascii c));
    try done; try lia; by apply IH.
Qed.

Lemma str_lt_compare (a b : string) :
  Py.str_lt a b = false <-> (a ?= b)%string <> Lt.
Proof.
  unfold Py.str_lt, String.ltb.
  destruct (a ?= b)%string; simpl; split; congruence.
Qed.

Lemma name_le_trans (a b c : ModelRow) :
  name_le a b -> name_le b c -> name_le a c.
Proof.
  unfold name_le. rewrite !str_lt_compare. intros H1 H2.
  by apply (compare_not_lt_trans _ (Py.lower (row_name b))).
Qed.

Lemma str_lt_asym (a b : string) :
  Py.str_lt a b = true -> Py.str_lt b a = false.
Proof.
  unfold Py.str_lt, String.ltb. rewrite (String.compare_antisym b a).
  by destruct (a ?= b)%string.
Qed.

Lemma insert_row_perm (x : ModelRow) (l : list ModelRow) :
  Permutation (insert_row x l) (x :: l).
Proof.
  induction l as [|y l IH]; simpl; [done|].
  destruct (Py.str_lt (sort_key y) (sort_key x)); [|done].
  rewrite IH. apply perm_swap.
Qed.

Lemma sort_models_perm (l : list ModelRow) : Permutation (sort_models l) l.
Proof.
  induction l as [|x l IH]; simpl; [done|].
  rewrite insert_row_perm. by constructor.
Qed.

Lemma insert_row_sorted (x : ModelRow) (l : list ModelRow) :
  StronglySorted name_le l -> StronglySorted name_le (insert_row x l).
Proof.
  induction 1 as [|y l Hs IH Hy]; simpl.
  - repeat constructor.
  - destruct (Py.str_lt (sort_key y) (sort_key x)) eqn:Hlt.
    + constructor; [done|].
      rewrite (insert_row_perm x l). constructor; [|done].
      by apply str_lt_asym.
    + constructor; [by constructor|]. constructor; [done|].
      eapply Forall_impl; [exact Hy|]. intros z Hz.
      by apply (name_le_trans x y z).
Qed.

Lemma sort_models_sorted (l : list ModelRow) :
  StronglySorted name_le (sort_models l).
Proof.
  induction l as [|x l IH]; simpl; [constructor|].
  by apply insert_row_sorted.
Qed.

(** ** The inventory reader *)

(** C2, as stated, fails when the header line is blank: the text below
    is an empty first line followed by one line of six tokens, yet the
    reader returns no row, because the text is stripped before it is cut
    into lines and the data line is then taken for the header. *)
Lemma get_installed_models_blank_header_counterexample :
  let line := "llama3:8b 365c0bd3c000 4.7 GB 2 weeks ago" in
  let text := unlines [""; line] in
  Py.splitlines text = [""; line]
  /\ List.filter well_formed [line] = [line]
  /\ get_installed_models (Completed text) = ([], Ok [])
  /\ ~ (exists rows,
          get_installed_models (Completed text) = ([], Ok rows)
          /\ length rows = length (List.filter well_formed [line])).
Proof.
  intros line text.
  split; [reflexivity|]. split; [reflexivity|]. split; [reflexivity|].
  intros (rows & Hrows & Hlen).
  assert (Hrun : get_installed_models (Completed text) = ([], Ok []))
    by reflexivity.
  rewrite Hrun in Hrows. inversion Hrows; subst rows. discriminate Hlen.
Qed.

(** C2 (amended): for every output text made of a header line that is
    not blank followed by lines of which N have at least four
    whitespace-separated tokens (the others are dropped), the reader
    returns exactly N rows, one per such line, with token 0 as name,
    token 1 as id, tokens 2 and 3 joined by a space as size and the
    remaining tokens joined by spaces as modified, sorted
    case-insensitively ascending by name; and for every text in which no
    line has four tokens it returns the empty sequence. *)
Theorem get_installed_models_rows :
  (forall text header body,
      Py.splitlines text = header :: body ->
      Py.split header <> [] ->
      let rows := sort_models (map row_of_line (List.filter well_formed body)) in
      get_installed_models (Completed text) = ([], Ok rows)
      /\ length rows = length (List.filter well_formed body)
      /\ Permutation rows (map row_of_line (List.filter well_formed body))
      /\ StronglySorted name_le rows)
  /\ (forall text,
         List.filter well_formed (Py.splitlines text) = [] ->
         get_installed_models (Completed text) = ([], Ok [])).
Proof.
  split.
  - intros text header body Htext Hh rows. subst rows.
    split; [|split; [|split]].
    + simpl. by rewrite (parse_models_body text header body), rows_filter.
    + rewrite (Permutation_length (sort_models_perm _)).
      by rewrite length_map.
    + apply sort_models_perm.
    + apply sort_models_sorted.
  - intros text H. simpl. by rewrite parse_models_none.
Qed.

Lemma get_installed_models_rows_witness :
  let text :=
    unlines ["NAME          ID     SIZE    MODIFIED";
             "qwen2:7b      ab12   4.4 GB  3 days ago";
             "only three tokens";
             "Llama3:8b     cd34   4.7 GB  2 weeks ago"] in
  get_installed_models (Completed text)
  = ([], Ok [ {| row_name := "Llama3:8b"; row_id := "cd34";
                 row_size := "4.7 GB"; row_modified := "2 weeks ago" |};
              {| row_name := "qwen2:7b"; row_id := "ab12";
                 row_size := "4.4 GB"; row_modified := "3 days ago" |} ])
  /\ get_installed_models (Completed (unlines ["NAME ID"; "only three tokens"]))
     = ([], Ok []).
Proof.
  intros text. split.
  - refine (proj1 (proj1 get_installed_models_rows text
                     "NAME          ID     SIZE    MODIFIED"
                     ["qwen2:7b      ab12   4.4 GB  3 days ago";
                      "only three tokens";
                      "Llama3:8b     cd34   4.7 GB  2 weeks ago"]
                     eq_refl _)).
    vm_compute. discriminate.
  - apply (proj2 get_installed_models_rows). reflexivity.
Defined.

(** ** The numeric prompt *)

Lemma logged_logged {A B} (pre pre' : list msg) (r : list msg * A * B) :
  logged pre (logged pre' r) = logged (pre ++ pre') r.
Proof. destruct r as [[out a] b]. simpl. by rewrite app_assoc. Qed.

Lemma lower_char_a (c : ascii) :
  Py.lower_char c = "a"%char -> c = "a"%char \/ c = "A"%char.
Proof.
  destruct c as [[] [] [] [] [] [] [] []]; vm_compute; intros H;
    try discriminate H; auto.
Qed.

Lemma lower_char_l (c : ascii) :
  Py.lower_char c = "l"%char -> c = "l"%char \/ c = "L"%char.
Proof.
  destruct c as [[] [] [] [] [] [] [] []]; vm_compute; intros H;
    try discriminate H; auto.
Qed.

Lemma all_not_numbers (s : string) :
  Py.lower s = "all" -> parse_choices (Py.split_on "," s) = None.
Proof.
  destruct s as [|c1 [|c2 [|c3 [|c4 s]]]]; try discriminate.
  simpl. intros H. injection H as H1 H2 H3.
  apply lower_char_a in H1 as [-> | ->];
    apply lower_char_l in H2 as [-> | ->];
    apply lower_char_l in H3 as [-> | ->]; reflexivity.
Qed.

Lemma parse_choices_cons (c : string) (cs : list string) (zs : list Z) :
  parse_choices (c :: cs) = Some zs -> zs <> [].
Proof.
  simpl. destruct (Py.int (Py.strip c)); [|done].
  destruct (parse_choices cs); [|done]. by intros [= <-].
Qed.

Lemma split_on_not_nil (sep : ascii) (s : string) : Py.split_on sep s <> [].
Proof. apply fields_not_nil. Qed.

Lemma py_index_in_range {A} (l : list A) (i : Z) :
  0 <= i < Z.of_nat (length l) ->
  exists x, l !! Z.to_nat i = Some x /\ py_index l i = Ok x.
Proof.
  intros Hi. unfold py_index.
  destruct (i <? 0) eqn:Hneg; [lia|].
  assert (Hb : (0 <=? i) && (i <? Z.of_nat (length l)) = true).
  { apply andb_true_intro. split; [apply Z.leb_le|apply Z.ltb_lt]; lia. }
  rewrite Hb. destruct (l !! Z.to_nat i) as [x|] eqn:Hx.
  - by exists x.
  - apply lookup_ge_None in Hx. lia.
Qed.

Lemma select_loop_valid (models : list ModelRow) (choices : list Z)
    (selected : list string) :
  forallb (in_range models) choices = true ->
  exists names,
    select_loop models choices selected = Ok (AllValid (selected ++ names))
    /\ map Some names = map (row_number models) choices.
Proof.
  revert selected. induction choices as [|c cs IH]; intros selected H.
  - exists []. by rewrite app_nil_r.
  - simpl in H. apply andb_prop in H as [Hc Hcs].
    cbn [select_loop]. unfold in_range in Hc. rewrite Hc.
    apply andb_prop in Hc as [H1 H2].
    apply Z.leb_le in H1, H2.
    destruct (py_index_in_range models (c - 1)) as (m & Hm & ->); [lia|].
    destruct (IH (selected ++ [row_name m])%list Hcs) as (names & -> & Hn).
    exists (row_name m :: names). split.
    + by rewrite <- app_assoc.
    + simpl. unfold row_number at 1. rewrite Hm. simpl. by f_equal.
Qed.

Lemma select_loop_invalid (models : list ModelRow) (choices : list Z)
    (selected : list string) (bad : Z) :
  List.find (fun c => negb (in_range models c)) choices = Some bad ->
  select_loop models choices selected = Ok (Invalid bad).
Proof.
  revert selected. induction choices as [|c cs IH]; intros selected H;
    [done|].
  simpl in H. cbn [select_loop]. fold (in_range models c).
  destruct (in_range models c) eqn:Hc; simpl in H.
  - unfold in_range in Hc. apply andb_prop in Hc as [H1 H2].
    apply Z.leb_le in H1, H2.
    destruct (py_index_in_range models (c - 1)) as (m & _ & ->); [lia|].
    by apply IH.
  - by injection H as ->.
Qed.

(** C3: the numeric prompt, on an inventory of any number of rows.  An
    input line that is a comma-separated list of numbers, all between 1
    and the number of rows, returns the names of the designated rows in
    the order typed, a repeated number giving a repeated name.  If some
    number is out of range the line is rejected as a whole: the outcome
    is the outcome of prompting again on the rest of the input, after the
    message for the first offending number.  The line [all], in any
    letter case, returns every name in listed order, and an empty line
    returns the empty list. *)
Theorem choose_models_text_selection (models : list ModelRow)
    (line : string) (rest : list string) :
  let table := MsgTableHeader :: table_rows 1 models in
  (forall choices,
      numbers line = Some choices ->
      forallb (in_range models) choices = true ->
      exists names,
        choose_models_text models (line :: rest)
        = ((table ++ [MsgPromptSelect])%list, Ok names, rest)
        /\ map Some names = map (row_number models) choices)
  /\ (forall choices bad,
         numbers line = Some choices ->
         List.find (fun c => negb (in_range models c)) choices = Some bad ->
         choose_models_text models (line :: rest)
         = logged (table ++ [MsgPromptSelect; MsgInvalidChoice bad])
                  (choose_loop models rest))
  /\ (Py.lower (Py.strip line) = "all" ->
      choose_models_text models (line :: rest)
      = ((table ++ [MsgPromptSelect])%list, Ok (map row_name models), rest))
  /\ (Py.strip line = "" ->
      choose_models_text models (line :: rest)
      = ((table ++ [MsgPromptSelect])%list, Ok [], rest)).
Proof.
  intros table. unfold choose_models_text, numbers. fold table.
  cbn [choose_loop].
  split; [|split; [|split]].
  - intros choices Hnum Hall.
    destruct (Py.strip line) as [|c0 s0] eqn:Hs; [discriminate Hnum|].
    cbn [Py.is_empty].
    destruct (String.eqb (Py.lower (String c0 s0)) "all") eqn:Hl.
    { apply String.eqb_eq, all_not_numbers in Hl. congruence. }
    rewrite Hnum.
    destruct (select_loop_valid models choices [] Hall) as (names & -> & Hn).
    exists names. split; [|done]. simpl.
    destruct names as [|n names]; [|done].
    destruct choices; [|discriminate Hn].
    destruct (Py.split_on "," (String c0 s0)) eqn:Hf.
    + by apply split_on_not_nil in Hf.
    + by apply parse_choices_cons in Hnum.
  - intros choices bad Hnum Hbad.
    destruct (Py.strip line) as [|c0 s0] eqn:Hs; [discriminate Hnum|].
    cbn [Py.is_empty].
    destruct (String.eqb (Py.lower (String c0 s0)) "all") eqn:Hl.
    { apply String.eqb_eq, all_not_numbers in Hl. congruence. }
    rewrite Hnum, (select_loop_invalid models choices [] bad Hbad).
    by rewrite logged_logged.
  - intros Hl.
    destruct (Py.strip line) as [|c0 s0]; [discriminate Hl|].
    cbn [Py.is_empty]. by rewrite Hl.
  - by intros ->.
Qed.

Lemma choose_models_text_selection_witness :
  (exists names,
      choose_models_text five_rows ["1,3"; "y"]
      = ((MsgTableHeader :: table_rows 1 five_rows) ++ [MsgPromptSelect],
         Ok names, ["y"])%list
      /\ map Some names = [Some "gemma:2b"; Some "mistral:7b"])
  /\ choose_models_text five_rows ["1,9"; "all"]
     = logged ((MsgTableHeader :: table_rows 1 five_rows)
               ++ [MsgPromptSelect; MsgInvalidChoice 9])
              (choose_loop five_rows ["all"])
  /\ choose_models_text five_rows [" ALL "]
     = ((MsgTableHeader :: table_rows 1 five_rows) ++ [MsgPromptSelect],
        Ok (map row_name five_rows), [])%list
  /\ choose_models_text five_rows [""; "1"]
     = ((MsgTableHeader :: table_rows 1 five_rows) ++ [MsgPromptSelect],
        Ok [], ["1"])%list.
Proof.
  split; [|split; [|split]].
  - exact (proj1 (choose_models_text_selection five_rows "1,3" ["y"])
             [1; 3] eq_refl eq_refl).
  - exact (proj1 (proj2 (choose_models_text_selection five_rows "1,9" ["all"]))
             [1; 9] 9 eq_refl eq_refl).
  - exact (proj1 (proj2 (proj2
             (choose_models_text_selection five_rows " ALL " [])))
             eq_refl).
  - exact (proj2 (proj2 (proj2
             (choose_models_text_selection five_rows "" ["1"])))
             eq_refl).
Defined.

(** ** The confirmation prompt and the orchestrator *)

Lemma prompt_copy_step (line : string) (rest : list string) :
  prompt_copy (line :: rest)
  = if affirmative line then ([MsgPromptCopy], Ok true, rest)
    else if negative line then ([MsgPromptCopy], Ok false, rest)
    else logged [MsgPromptCopy; MsgEnterYN] (prompt_copy rest).
Proof. reflexivity. Qed.


















(** ** The file system *)

Lemma stat_insert_ne (f : fs) (t p : path) (n : node) :
  t <> p -> stat (<[t := n]> f) p = stat f p.
Proof.
  intros Hne. destruct p as [|c p]; [done|]. simpl.
  by apply lookup_insert_ne.
Qed.

Lemma stat_insert_eq (f : fs) (t : path) (n : node) :
  t <> [] -> stat (<[t := n]> f) t = Some n.
Proof.
  intros Hne. destruct t as [|c t]; [done|]. simpl.
  by apply lookup_insert_eq.
Qed.

Lemma is_dir_insert_file (f : fs) (t p : path) (data : string) (meta : Z) :
  t <> [] ->
  is_dir (<[t := File data meta]> f) p
  = if decide (p = t) then false else is_dir f p.
Proof.
  intros Hne. unfold is_dir. destruct (decide (p = t)) as [->|Hp].
  - by rewrite stat_insert_eq.
  - by rewrite stat_insert_ne.
Qed.

Lemma dirs_eq_refl (f : fs) : dirs_eq f f.
Proof. done. Qed.

Lemma dirs_eq_sym (f f' : fs) : dirs_eq f f' -> dirs_eq f' f.
Proof. intros H p. by rewrite H. Qed.

Lemma dirs_eq_trans (f1 f2 f3 : fs) :
  dirs_eq f1 f2 -> dirs_eq f2 f3 -> dirs_eq f1 f3.
Proof. intros H1 H2 p. by rewrite H1. Qed.

Lemma dirs_eq_insert (f f' : fs) (t : path) (data : string) (meta : Z) :
  dirs_eq f f' -> t <> [] ->
  dirs_eq (<[t := File data meta]> f) (<[t := File data meta]> f').
Proof.
  intros H Hne p. rewrite !is_dir_insert_file by done.
  by destruct (decide (p = t)).
Qed.

Lemma dirs_eq_insert_r (f : fs) (t : path) (data : string) (meta : Z) :
  t <> [] -> is_dir f t = false ->
  dirs_eq f (<[t := File data meta]> f).
Proof.
  intros Hne Ht p. rewrite is_dir_insert_file by done.
  by destruct (decide (p = t)) as [->|].
Qed.

Lemma is_dir_cons (f : fs) (c : string) (p : path) :
  is_dir f (c :: p) = true <-> f !! (c :: p) = Some Dir.
Proof.
  unfold is_dir. simpl. destruct (f !! (c :: p)) as [[]|]; split; congruence.
Qed.

Lemma snoc_not_nil (pre : path) (c : string) : (pre ++ [c])%list <> [].
Proof. by destruct pre. Qed.

(** [mkdir] keeps every node that is there. *)
Lemma mkdir_walk_keeps (pre : path) (rest : list string) (f f' : fs)
    (p : path) (n : node) :
  mkdir_walk pre rest f = Ok f' -> f !! p = Some n -> f' !! p = Some n.
Proof.
  revert pre f. induction rest as [|c rest IH]; intros pre f Hm Hp.
  - by injection Hm as <-.
  - simpl in Hm. destruct (f !! (pre ++ [c])%list) as [[]|] eqn:Hq.
    + discriminate.
    + by apply (IH _ _ Hm).
    + apply (IH _ _ Hm). rewrite lookup_insert_ne; [done|]. congruence.
Qed.

Lemma mkdir_walk_idempotent (pre : path) (rest : list string) (f f' : fs) :
  mkdir_walk pre rest f = Ok f' -> mkdir_walk pre rest f' = Ok f'.
Proof.
  revert pre f. induction rest as [|c rest IH]; intros pre f Hm; [done|].
  simpl in Hm. simpl.
  destruct (f !! (pre ++ [c])%list) as [[]|] eqn:Hq.
  - discriminate.
  - rewrite (mkdir_walk_keeps _ _ _ _ _ _ Hm Hq). by apply (IH _ f).
  - assert (Hd : f' !! (pre ++ [c])%list = Some Dir).
    { apply (mkdir_walk_keeps _ _ _ _ _ _ Hm). apply lookup_insert_eq. }
    rewrite Hd. by apply (IH _ (<[(pre ++ [c])%list := Dir]> f)).
Qed.

(** [mkdir] does nothing where the directories are already there. *)
Lemma mkdir_walk_present (pre : path) (rest : list string) (f g : fs) :
  mkdir_walk pre rest f = Ok f ->
  (forall p, is_dir f p = true -> is_dir g p = true) ->
  mkdir_walk pre rest g = Ok g.
Proof.
  revert pre. induction rest as [|c rest IH]; intros pre Hm Hsub; [done|].
  simpl in Hm. simpl.
  destruct (f !! (pre ++ [c])%list) as [[]|] eqn:Hq.
  - discriminate.
  - assert (Hg : g !! (pre ++ [c])%list = Some Dir).
    { pose proof (snoc_not_nil pre c) as Hne.
      destruct (pre ++ [c])%list as [|x q] eqn:E; [done|].
      apply is_dir_cons, Hsub, is_dir_cons. done. }
    rewrite Hg. by apply IH.
  - pose proof (mkdir_walk_keeps _ _ _ _ (pre ++ [c])%list Dir Hm) as Hk.
    rewrite lookup_insert_eq in Hk. specialize (Hk eq_refl). congruence.
Qed.

Lemma mkdir_dirs_mono (f f' : fs) (p q : path) :
  mkdir f p = Ok f' -> is_dir f q = true -> is_dir f' q = true.
Proof.
  intros Hm. destruct q as [|c q]; [done|].
  rewrite !is_dir_cons. by apply (mkdir_walk_keeps _ _ _ _ _ _ Hm).
Qed.

Lemma mkdir_idempotent (f f' : fs) (p : path) :
  mkdir f p = Ok f' -> mkdir f' p = Ok f'.
Proof. apply mkdir_walk_idempotent. Qed.

Lemma mkdir_present (f g : fs) (p : path) :
  mkdir f p = Ok f ->
  (forall q, is_dir f q = true -> is_dir g q = true) ->
  mkdir g p = Ok g.
Proof. apply mkdir_walk_present. Qed.

Lemma stat_dir_case {A : Type} (f : fs) (t : path) (a b : A) :
  match stat f t with Some Dir => a | _ => b end
  = if is_dir f t then a else b.
Proof. unfold is_dir. by destruct (stat f t) as [[]|]. Qed.

Lemma copy_target_cases (f : fs) (src dst : path) :
  copy_target f src dst = dst
  \/ copy_target f src dst = (dst ++ [basename src])%list.
Proof. unfold copy_target. destruct (is_dir f dst); auto. Qed.

(** What a successful [copy2] does. *)
Lemma copy2_ok (f f1 : fs) (src dst : path) :
  copy2 f src dst = Ok f1 ->
  exists data meta,
    stat f src = Some (File data meta)
    /\ copy_target f src dst <> src
    /\ copy_target f src dst <> []
    /\ is_dir f (copy_target f src dst) = false
    /\ is_dir f (parent (copy_target f src dst)) = true
    /\ f1 = <[copy_target f src dst := File data meta]> f.
Proof.
  unfold copy2. destruct (stat f src) as [n|]; [|discriminate].
  set (t := copy_target f src dst).
  destruct (bool_decide (t = src)) eqn:Hsame; [discriminate|].
  apply bool_decide_eq_false in Hsame.
  destruct n as [data meta|]; [|discriminate].
  rewrite stat_dir_case.
  destruct (is_dir f t) eqn:Ht; [discriminate|].
  destruct (is_dir f (parent t)) eqn:Hp; [|discriminate].
  intros [= <-]. exists data, meta. repeat split; try done.
  intros E. rewrite E in Ht. discriminate.
Qed.

(** [copy2] reads only the source and the directory structure. *)
Lemma copy2_sim (f f' : fs) (src dst : path) :
  dirs_eq f f' -> stat f src = stat f' src ->
  match copy2 f src dst with
  | Raise e => copy2 f' src dst = Raise e
  | Ok f1 =>
      exists t data meta,
        (t = dst \/ t = (dst ++ [basename src])%list)
        /\ t <> [] /\ is_dir f t = false
        /\ f1 = <[t := File data meta]> f
        /\ copy2 f' src dst = Ok (<[t := File data meta]> f')
  end.
Proof.
  intros Hd Hs.
  assert (Ht : copy_target f' src dst = copy_target f src dst).
  { unfold copy_target. by rewrite (Hd dst). }
  destruct (copy2 f src dst) as [f1|e] eqn:Hc.
  - destruct (copy2_ok _ _ _ _ Hc) as (data & meta & H1 & H2 & H3 & H4 & H5 & ->).
    exists (copy_target f src dst), data, meta.
    split; [apply copy_target_cases|]. repeat split; try done.
    unfold copy2. rewrite <- Hs, H1, Ht.
    rewrite bool_decide_eq_false_2 by done.
    rewrite stat_dir_case, <- !Hd, H4, H5. done.
  - revert Hc. unfold copy2. rewrite <- Hs, Ht.
    destruct (stat f src) as [n|]; [|done].
    destruct (bool_decide _); [done|].
    destruct n as [data meta|]; [|done].
    rewrite !stat_dir_case, <- !Hd.
    destruct (is_dir f (copy_target f src dst)); [done|].
    by destruct (is_dir f (parent (copy_target f src dst))).
Qed.

Lemma lookup_apply_writes (ws : list (path * node)) (f : fs) (p : path) :
  apply_writes ws f !! p
  = match last_write ws p with Some n => Some n | None => f !! p end.
Proof.
  revert f. induction ws as [|w ws IH]; intros f; [done|].
  change (apply_writes (w :: ws) f) with (apply_writes ws (<[w.1 := w.2]> f)).
  rewrite IH. simpl.
  destruct (last_write ws p); [done|].
  rewrite lookup_insert. by destruct (decide (w.1 = p)).
Qed.

Lemma apply_writes_twice (ws : list (path * node)) (f : fs) :
  apply_writes ws (apply_writes ws f) = apply_writes ws f.
Proof.
  apply map_eq. intros p. rewrite !lookup_apply_writes.
  by destruct (last_write ws p).
Qed.

Lemma file_write_dirs_eq (f f' : fs) (w : path * node) :
  dirs_eq f f' -> file_write f w -> file_write f' w.
Proof. intros Hd (H1 & H2 & H3). split; [done|]. split; [|done]. by rewrite <- Hd. Qed.

Lemma apply_writes_dirs_eq (ws : list (path * node)) (f : fs) :
  Forall (file_write f) ws -> dirs_eq f (apply_writes ws f).
Proof.
  revert f. induction ws as [|w ws IH]; intros f H; [done|].
  inversion H as [|? ? Hw Hws]; subst. destruct w as [t n].
  destruct Hw as (Hne & Hdir & data & meta & Hn). simpl in *. subst n.
  pose proof (dirs_eq_insert_r f t data meta Hne Hdir) as Hd.
  change (apply_writes ((t, File data meta) :: ws) f)
    with (apply_writes ws (<[t := File data meta]> f)).
  apply (dirs_eq_trans _ _ _ Hd). apply IH.
  eapply Forall_impl; [exact Hws|]. intros w'. by apply file_write_dirs_eq.
Qed.

Lemma apply_writes_agree (ps : list path) (ws : list (path * node)) (f : fs) :
  Forall (fun w => w.1 ∉ ps) ws -> agree ps f (apply_writes ws f).
Proof.
  revert f. induction ws as [|w ws IH]; intros f H; [done|].
  inversion H as [|? ? Hw Hws]; subst. intros p Hp.
  change (apply_writes (w :: ws) f) with (apply_writes ws (<[w.1 := w.2]> f)).
  rewrite <- (IH _ Hws p Hp). symmetry. apply stat_insert_ne.
  intros E. apply Hw. by rewrite E.
Qed.

(** ** The exporter *)

Lemma blob_sources_elem (g : globals) (digests : list json) (d : string) :
  JStr d ∈ digests -> blob_src g d ∈ blob_sources g digests.
Proof.
  induction digests as [|x rest IH]; intros H; [by inversion H|].
  inversion H as [|? ? ? H']; subst.
  - by left.
  - destruct x; simpl; try right; by apply IH.
Qed.

Lemma blob_targets_elem (g : globals) (bd : path) (digests : list json)
    (d : string) :
  JStr d ∈ digests ->
  blob_dst bd d ∈ blob_targets g bd digests
  /\ (blob_dst bd d ++ [basename (blob_src g d)])%list
     ∈ blob_targets g bd digests.
Proof.
  induction digests as [|x rest IH]; intros H; [by inversion H|].
  inversion H as [|? ? ? H']; subst.
  - split; [by left|right; by left].
  - destruct (IH H') as [H1 H2].
    destruct x; simpl; try done; split; by do 2 right.
Qed.

(** Two runs of the blob loop from file systems with the same
    directories and the same sources do the same writes. *)
Lemma copy_blobs_sim (g : globals) (bd : path) (rs ts : list path)
    (digests : list json) (f f' : fs) :
  (forall d, JStr d ∈ digests -> blob_src g d ∈ rs) ->
  (forall d, JStr d ∈ digests ->
             blob_dst bd d ∈ ts
             /\ (blob_dst bd d ++ [basename (blob_src g d)])%list ∈ ts) ->
  (forall s, s ∈ rs -> s ∉ ts) ->
  dirs_eq f f' -> agree rs f f' ->
  exists ws out r,
    copy_blobs g bd digests f = (out, apply_writes ws f, r)
    /\ copy_blobs g bd digests f' = (out, apply_writes ws f', r)
    /\ Forall (fun w => w.1 ∈ ts /\ file_write f w) ws.
Proof.
  intros Hrs Hts Hdisj. revert f f'.
  induction digests as [|x rest IH]; intros f f' Hd Ha.
  { by exists [], [], None. }
  assert (Hrs' : forall d, JStr d ∈ rest -> blob_src g d ∈ rs).
  { intros d Hin. apply Hrs. by right. }
  assert (Hts' : forall d, JStr d ∈ rest ->
             blob_dst bd d ∈ ts
             /\ (blob_dst bd d ++ [basename (blob_src g d)])%list ∈ ts).
  { intros d Hin. apply Hts. by right. }
  specialize (IH Hrs' Hts').
  destruct x as [| | | |d| |];
    try (by exists [], [], (Some AttributeError)).
  cbn [copy_blobs]. fold (blob_src g d). fold (blob_dst bd d).
  assert (Hin : JStr d ∈ JStr d :: rest) by by left.
  assert (Hsrc : stat f (blob_src g d) = stat f' (blob_src g d)).
  { apply Ha, Hrs, Hin. }
  pose proof (copy2_sim f f' (blob_src g d) (blob_dst bd d) Hd Hsrc) as Hc.
  unfold exists_. rewrite <- Hsrc.
  destruct (stat f (blob_src g d)) as [n|] eqn:Hst.
  - destruct (copy2 f (blob_src g d) (blob_dst bd d)) as [f1|e].
    + destruct Hc as (t & data & meta & Ht & Hne & Hdir & -> & ->).
      assert (Htin : t ∈ ts).
      { destruct (Hts d Hin) as [H1 H2]. by destruct Ht as [-> | ->]. }
      destruct (IH (<[t := File data meta]> f) (<[t := File data meta]> f'))
        as (ws & out & r & H1 & H2 & Hws).
      { by apply dirs_eq_insert. }
      { intros s Hs. rewrite !stat_insert_ne; [by apply Ha| |].
        - intros ->. by apply (Hdisj s).
        - intros ->. by apply (Hdisj s). }
      exists ((t, File data meta) :: ws), (MsgBlobCopied (blob_name d) :: out), r.
      rewrite H1, H2. split; [done|]. split; [done|].
      constructor.
      * split; [done|]. split; [done|]. split; [done|]. by exists data, meta.
      * eapply Forall_impl; [exact Hws|]. intros w [Hw1 Hw2].
        split; [done|].
        apply (file_write_dirs_eq (<[t := File data meta]> f)); [|done].
        apply dirs_eq_sym. by apply dirs_eq_insert_r.
    + rewrite Hc. by exists [], [], (Some e).
  - destruct (IH f f' Hd Ha) as (ws & out & r & H1 & H2 & Hws).
    exists ws, (MsgBlobSkipped (blob_name d) :: out), r.
    by rewrite H1, H2.
Qed.

Lemma no_alias_disjoint (g : globals) (model_name model_base version : string)
    (manifest_path : path) (digests : list json) :
  Py.split_on ":" model_name = [model_base; version] ->
  no_alias g model_name manifest_path digests = true ->
  forall s,
    s ∈ export_reads g manifest_path digests ->
    s ∉ export_writes g model_base version manifest_path digests.
Proof.
  unfold no_alias. intros -> H s Hs.
  rewrite forallb_forall in H. specialize (H s).
  rewrite <- list_elem_of_In in H. specialize (H Hs).
  apply negb_true_iff, bool_decide_eq_false in H. exact H.
Qed.

(** C6, as stated, fails when the export reads what it writes.  In the
    installation that exports into its own store the destination of the
    blob [x] is the source of the blob [blobs/x]: the first run skips
    [blobs/x] and copies [x]; the second run, on the file system the
    first one left, finds [blobs/x] and copies it as well, so that it
    prints another log and leaves a file the first run did not leave.
    Without the directory that receives this file the second run ends in
    an error where the first one ended in success. *)
Lemma copy_files_twice_counterexample :
  let export := copy_files alias_globals "m:v" alias_manifest
                           (map JStr alias_digests) in
  let dest := OUTPUT_DIR alias_globals // "blobs" in
  let head := [MsgCopyingManifest (dest_manifest_of alias_globals "m" "v");
               MsgManifestCopied; MsgCopyingBlobs] in
  blob_dst dest "x" = blob_src alias_globals "blobs/x"
  /\ plain_export alias_globals "m:v" alias_manifest (map JStr alias_digests)
     = true
  /\ no_alias alias_globals "m:v" alias_manifest (map JStr alias_digests)
     = false
  /\ (export alias_fs).1
     = (head ++ [MsgBlobSkipped "blobs/x"; MsgBlobCopied "x";
                 MsgFilesCopied (OUTPUT_DIR alias_globals)])%list
  /\ (export (export alias_fs).2).1
     = (head ++ [MsgBlobCopied "blobs/x"; MsgBlobCopied "x";
                 MsgFilesCopied (OUTPUT_DIR alias_globals)])%list
  /\ stat (export alias_fs).2 (blob_dst dest "blobs/x") = None
  /\ stat (export (export alias_fs).2).2 (blob_dst dest "blobs/x")
     = Some (File "weights" 5)
  /\ export (export alias_fs).2 <> export alias_fs
  /\ (export alias_fs_flat).1
     = (head ++ [MsgBlobSkipped "blobs/x"; MsgBlobCopied "x";
                 MsgFilesCopied (OUTPUT_DIR alias_globals)])%list
  /\ (export (export alias_fs_flat).2).1
     = (head ++ [MsgErrorCopying FileNotFoundError])%list.
Proof.
  intros export dest head.
  assert (H1 : stat (export alias_fs).2 (blob_dst dest "blobs/x") = None)
    by (vm_compute; reflexivity).
  assert (H2 : stat (export (export alias_fs).2).2 (blob_dst dest "blobs/x")
               = Some (File "weights" 5)) by (vm_compute; reflexivity).
  split; [vm_compute; reflexivity|].
  split; [vm_compute; reflexivity|].
  split; [vm_compute; reflexivity|].
  split; [vm_compute; reflexivity|].
  split; [vm_compute; reflexivity|].
  split; [exact H1|]. split; [exact H2|].
  split; [|split; vm_compute; reflexivity].
  intros E. rewrite E in H2. rewrite H1 in H2. discriminate H2.
Qed.

(** C6 (amended): when every path of the export is plain and no file
    read by the export is one it may write, running the exporter a second
    time with the same model name, manifest path and digest list, on the
    file system left by the first run, leaves that file system as it is
    and prints what the first run printed, so a first run without error
    is followed by a second run without error.  Creating the directories
    again is harmless: [mkdir] on the file system it produced changes
    nothing. *)
Theorem copy_files_idempotent :
  (forall (g : globals) (model_name : string) (manifest_path : path)
          (digests : list json) (f : fs),
      plain_export g model_name manifest_path digests = true ->
      no_alias g model_name manifest_path digests = true ->
      copy_files g model_name manifest_path digests
                 (copy_files g model_name manifest_path digests f).2
      = copy_files g model_name manifest_path digests f)
  /\ (forall (f f' : fs) (p : path),
         mkdir f p = Ok f' -> mkdir f' p = Ok f').
Proof.
  split; [|exact mkdir_idempotent].
  intros g model_name mpath digests f _ Hna.
  unfold copy_files.
  destruct (Py.split_on ":" model_name) as [|base [|version [|x l]]] eqn:Hsplit;
    try reflexivity.
  pose proof (no_alias_disjoint _ _ _ _ _ _ Hsplit Hna) as Hdisj.
  unfold export_writes, export_reads in Hdisj.
  set (md := OUTPUT_DIR g // "manifests" // "registry.ollama.ai" // "library"
                        // base) in *.
  set (bd := OUTPUT_DIR g // "blobs") in *.
  set (dm := md // version) in *.
  set (rs := mpath :: blob_sources g digests) in *.
  set (ts := dm :: (dm ++ [basename mpath])%list :: blob_targets g bd digests)
    in *.
  destruct (mkdir f md) as [f1|e] eqn:H1; [|simpl; by rewrite H1].
  destruct (mkdir f1 bd) as [f2|e] eqn:H2;
    [|simpl; by rewrite (mkdir_idempotent _ _ _ H1), H2].
  assert (Hmd2 : mkdir f2 md = Ok f2).
  { apply (mkdir_present f1); [by apply (mkdir_idempotent f)|].
    intros q. by apply (mkdir_dirs_mono _ _ bd). }
  assert (Hbd2 : mkdir f2 bd = Ok f2) by by apply (mkdir_idempotent f1).
  destruct (copy2 f2 mpath dm) as [f3|e] eqn:H3;
    [|simpl; by rewrite Hmd2, Hbd2, H3].
  destruct (copy2_ok _ _ _ _ H3)
    as (data & meta & Hsrc & _ & Htne & Htdir & _ & Hf3).
  set (tm := copy_target f2 mpath dm) in *.
  assert (Htm : tm ∈ ts).
  { destruct (copy_target_cases f2 mpath dm) as [E|E]; fold tm in E;
      rewrite E; [by left|right; by left]. }
  assert (Hrs : forall d, JStr d ∈ digests -> blob_src g d ∈ rs).
  { intros d Hd. right. by apply blob_sources_elem. }
  assert (Hts : forall d, JStr d ∈ digests ->
            blob_dst bd d ∈ ts
            /\ (blob_dst bd d ++ [basename (blob_src g d)])%list ∈ ts).
  { intros d Hd. destruct (blob_targets_elem g bd digests d Hd).
    split; by do 2 right. }
  (* the first run of the blob loop *)
  destruct (copy_blobs_sim g bd rs ts digests f3 f3 Hrs Hts Hdisj)
    as (w1 & out & r & Hrun1 & _ & Hw1); [done|done|].
  rewrite Hrun1. cbn [snd].
  set (f4 := apply_writes w1 f3) in *.
  assert (Hd23 : dirs_eq f2 f3).
  { rewrite Hf3. by apply dirs_eq_insert_r. }
  assert (Hd34 : dirs_eq f3 f4).
  { apply apply_writes_dirs_eq. eapply Forall_impl; [exact Hw1|].
    by intros w [_ ?]. }
  assert (Ha34 : agree rs f3 f4).
  { apply apply_writes_agree. eapply Forall_impl; [exact Hw1|].
    intros w [Hw _] Hin. by apply (Hdisj w.1). }
  assert (Hd24 : dirs_eq f2 f4) by by apply (dirs_eq_trans _ f3).
  assert (Hm24 : stat f2 mpath = stat f4 mpath).
  { rewrite <- (Ha34 mpath) by by left. rewrite Hf3.
    symmetry. apply stat_insert_ne. intros E.
    apply (Hdisj mpath); [by left|]. by rewrite <- E. }
  (* the second run *)
  rewrite (mkdir_present f2 f4 md Hmd2) by (intros q; by rewrite <- Hd24).
  rewrite (mkdir_present f2 f4 bd Hbd2) by (intros q; by rewrite <- Hd24).
  pose proof (copy2_sim f2 f4 mpath dm Hd24 Hm24) as Hc.
  rewrite H3 in Hc.
  destruct Hc as (t & data' & meta' & Ht & Htne' & _ & Hf3' & ->).
  assert (Htin : t ∈ ts).
  { destruct Ht as [-> | ->]; [by left|right; by left]. }
  set (g3 := <[t := File data' meta']> f4).
  destruct (copy_blobs_sim g bd rs ts digests f3 g3 Hrs Hts Hdisj)
    as (w2 & out2 & r2 & Hrun1' & Hrun2 & _).
  { rewrite Hf3'. by apply dirs_eq_insert. }
  { intros s Hs. unfold g3. rewrite stat_insert_ne.
    - by apply Ha34.
    - intros ->. by apply (Hdisj s). }
  rewrite Hrun1 in Hrun1'. injection Hrun1' as <- Hf4 <-.
  rewrite Hrun2.
  assert (Hfin : apply_writes w2 g3 = f4).
  { rewrite Hf4. unfold g3. rewrite Hf4, Hf3'.
    apply (apply_writes_twice ((t, File data' meta') :: w2) f2). }
  by rewrite Hfin.
Qed.

Lemma dst_eq_src_eq (g : globals) (bd : path) (d d' : string) :
  blob_src g d <> blob_dst bd d ->
  blob_src g d' <> blob_dst bd d' ->
  blob_dst bd d = blob_dst bd d' ->
  blob_src g d = blob_src g d'.
Proof.
  unfold blob_src, blob_dst, path_div.
  destruct (is_absolute (blob_name d)), (is_absolute (blob_name d'));
    intros H1 H2 E; try done.
  apply app_inv_head in E. by rewrite E.
Qed.

Lemma copyable_spec (g : globals) (bd : path) (f : fs) (ds : list string) :
  copyable g bd f ds = true ->
  forall d, d ∈ ds ->
    is_dir f (parent (blob_dst bd d)) = true
    /\ is_dir f (blob_src g d) = false
    /\ is_dir f (blob_dst bd d) = false
    /\ forall d', d' ∈ ds -> blob_src g d' <> blob_dst bd d.
Proof.
  unfold copyable. rewrite forallb_forall. intros H d Hd.
  apply list_elem_of_In, H in Hd.
  apply andb_prop in Hd as [Hd H4]. apply andb_prop in Hd as [Hd H3].
  apply andb_prop in Hd as [H1 H2].
  apply negb_true_iff in H2, H3.
  repeat split; try done.
  intros d' Hd'. rewrite forallb_forall in H4.
  apply list_elem_of_In, H4, negb_true_iff, bool_decide_eq_false in Hd'.
  done.
Qed.

(** The blob loop when every copy goes through; [f0] is the file system
    at the start of the loop and [all] the whole digest list. *)
Lemma copy_blobs_copyable (g : globals) (bd : path) (f0 : fs)
    (all : list string) :
  (forall d, d ∈ all ->
     is_dir f0 (parent (blob_dst bd d)) = true
     /\ is_dir f0 (blob_src g d) = false
     /\ is_dir f0 (blob_dst bd d) = false
     /\ forall d', d' ∈ all -> blob_src g d' <> blob_dst bd d) ->
  forall (ds : list string) (f : fs),
    (forall d, d ∈ ds -> d ∈ all) ->
    dirs_eq f0 f ->
    (forall d, d ∈ all -> stat f (blob_src g d) = stat f0 (blob_src g d)) ->
    exists f',
      copy_blobs g bd (map JStr ds) f = (map (blob_notice g f0) ds, f', None)
      /\ (forall d, d ∈ ds -> exists_ f0 (blob_src g d) = true ->
            stat f' (blob_dst bd d) = stat f0 (blob_src g d))
      /\ (forall p,
            stat f' p = stat f p
            \/ exists d, d ∈ ds /\ p = blob_dst bd d
                         /\ exists_ f0 (blob_src g d) = true
                         /\ stat f' p = stat f0 (blob_src g d)).
Proof.
  intros Hall. induction ds as [|d0 ds IH]; intros f Hsub Hd Hsrc.
  { exists f. repeat split; [by intros d H; inversion H|by left]. }
  assert (Hin0 : d0 ∈ all) by (apply Hsub; by left).
  assert (Hsub' : forall d, d ∈ ds -> d ∈ all) by (intros d H; apply Hsub; by right).
  destruct (Hall d0 Hin0) as (Hpar & Hsdir & Hddir & Hna).
  cbn [map copy_blobs]. fold (blob_src g d0). fold (blob_dst bd d0).
  unfold blob_notice at 1.
  assert (Hex : exists_ f (blob_src g d0) = exists_ f0 (blob_src g d0)).
  { unfold exists_. by rewrite Hsrc. }
  rewrite Hex. destruct (exists_ f0 (blob_src g d0)) eqn:Hexists.
  - (* the source is there: it is a file and the copy goes through *)
    assert (Hfile : exists data meta,
               stat f0 (blob_src g d0) = Some (File data meta)).
    { unfold exists_ in Hexists. unfold is_dir in Hsdir.
      destruct (stat f0 (blob_src g d0)) as [[data meta|]|]; try done.
      by exists data, meta. }
    destruct Hfile as (data & meta & Hfile).
    assert (Hne : blob_dst bd d0 <> []).
    { intros E. by rewrite E in Hddir. }
    assert (Hcopy : copy2 f (blob_src g d0) (blob_dst bd d0)
                    = Ok (<[blob_dst bd d0 := File data meta]> f)).
    { unfold copy2, copy_target. rewrite Hsrc, Hfile by done.
      rewrite <- (Hd (blob_dst bd d0)), Hddir.
      rewrite bool_decide_eq_false_2 by (intros E; by apply (Hna d0 Hin0)).
      rewrite stat_dir_case, <- !Hd, Hddir, Hpar. done. }
    rewrite Hcopy.
    set (f1 := <[blob_dst bd d0 := File data meta]> f).
    destruct (IH f1 Hsub') as (f' & Hrun & Hcopied & Hframe).
    { apply (dirs_eq_trans _ f); [done|].
      apply dirs_eq_insert_r; [done|]. by rewrite <- Hd. }
    { intros d Hdin. unfold f1. rewrite stat_insert_ne; [by apply Hsrc|].
      intros E. by apply (Hna d Hdin). }
    exists f'. rewrite Hrun. split; [done|].
    assert (Hhead : stat f' (blob_dst bd d0) = stat f0 (blob_src g d0)).
    { destruct (Hframe (blob_dst bd d0)) as [E|(d & Hdin & E & _ & Hst)].
      - rewrite E. unfold f1. by rewrite stat_insert_eq.
      - rewrite Hst. symmetry. f_equal.
        apply (dst_eq_src_eq g bd d0 d); [| |done].
        + by apply (Hna d0 Hin0).
        + destruct (Hall d (Hsub' d Hdin)) as (_ & _ & _ & Hna').
          apply Hna'. by apply Hsub'.
    }
    split.
    + intros d Hdin Hdex. inversion Hdin as [|? ? ? Hdin']; subst; [done|].
      by apply Hcopied.
    + intros p. destruct (Hframe p) as [E|(d & Hdin & E & Hdex & Hst)].
      * destruct (decide (p = blob_dst bd d0)) as [->|Hp].
        -- right. exists d0. split; [by left|]. done.
        -- left. rewrite E. unfold f1. by apply stat_insert_ne.
      * right. exists d. split; [by right|]. done.
  - (* the source is missing: one notice, nothing else *)
    destruct (IH f Hsub' Hd Hsrc) as (f' & Hrun & Hcopied & Hframe).
    exists f'. rewrite Hrun. split; [done|]. split.
    + intros d Hdin Hdex. inversion Hdin as [|? ? ? Hdin']; subst.
      * congruence.
      * by apply Hcopied.
    + intros p. destruct (Hframe p) as [E|(d & Hdin & E & Hdex & Hst)];
        [by left|].
      right. exists d. split; [by right|]. done.
Qed.



Lemma blob_notice_skipped (g : globals) (f : fs) (ds : list string) :
  omap skipped_name (map (blob_notice g f) ds)
  = map blob_name (List.filter (missing g f) ds).
Proof.
  induction ds as [|d ds IH]; [done|].
  cbn [map List.filter]. unfold missing at 1, blob_notice at 1.
  destruct (exists_ f (blob_src g d)); simpl;
    first [exact IH | f_equal; exact IH].
Qed.

(** C5, as stated, fails when a copy itself fails.  In the sample
    installation take the digests [sha256:cc], the empty string,
    [sha256:aa] and [sha256:dd]: the blobs of the first and the last are
    missing, the source of the empty digest is the blob directory itself,
    which exists, and the blob of [sha256:aa] exists.  The exporter prints
    the skipped notice of the first digest, then the copy of the
    directory raises and ends the loop: the blob of [sha256:aa] is not
    copied and the missing [sha256:dd] gets no notice. *)
Lemma copy_blobs_directory_counterexample :
  let digests := ["sha256:cc"; ""; "sha256:aa"; "sha256:dd"] in
  let run :=
    copy_files sample_globals "llama3:8b" (sample_library ++ ["llama3"; "8b"])
               (map JStr digests) sample_fs in
  map (fun d => exists_ sample_fs (blob_src sample_globals d)) digests
  = [false; true; true; false]
  /\ blob_src sample_globals "" = OLLAMA_BLOB_DIR sample_globals
  /\ run.1
     = [MsgCopyingManifest (dest_manifest_of sample_globals "llama3" "8b");
        MsgManifestCopied; MsgCopyingBlobs; MsgBlobSkipped "sha256-cc";
        MsgErrorCopying IsADirectoryError]
  /\ stat run.2 (blob_dst (OUTPUT_DIR sample_globals // "blobs") "sha256:aa")
     = None
  /\ copyable sample_globals (OUTPUT_DIR sample_globals // "blobs")
              sample_fs_manifest digests = false.
Proof.
  intros digests run. repeat split; vm_compute; reflexivity.
Qed.

(** C5 (amended): for digests whose blob paths are plain.  A digest
    whose source blob is missing gets exactly one skipped notice and the
    loop goes on with the next digest on the same file system.  When
    every copy can go through (the directory of each destination exists,
    no source and no destination is a directory, no source is the
    destination of a digest of the list), the loop ends without an
    exception, prints for each digest in order one notice, copied if its
    source blob exists and skipped if not, so that the skipped notices
    are those of the missing blobs, and leaves at the destination of
    every digest whose source blob exists the data and metadata of that
    blob; the exporter, once it has created the directories and copied
    the manifest, then returns that file system and ends with its message
    of success; and [main] exports the next model from the file system
    the exporter returned, whatever happened to the model before. *)
Theorem copy_blobs_missing :
  (forall (g : globals) (blobs_dir : path) (d : string) (rest : list json)
          (f : fs),
      plain (blob_src g d) = true ->
      exists_ f (blob_src g d) = false ->
      copy_blobs g blobs_dir (JStr d :: rest) f
      = logged [MsgBlobSkipped (blob_name d)] (copy_blobs g blobs_dir rest f))
  /\ (forall (g : globals) (blobs_dir : path) (ds : list string) (f : fs),
         plain_blobs g blobs_dir ds = true ->
         copyable g blobs_dir f ds = true ->
         exists f',
           copy_blobs g blobs_dir (map JStr ds) f
           = (map (blob_notice g f) ds, f', None)
           /\ omap skipped_name (map (blob_notice g f) ds)
              = map blob_name (List.filter (missing g f) ds)
           /\ forall d, d ∈ ds -> exists_ f (blob_src g d) = true ->
                stat f' (blob_dst blobs_dir d) = stat f (blob_src g d))
  /\ (forall (g : globals) (model_name model_base version : string)
             (manifest_path : path) (ds : list string) (f f1 f2 f3 : fs),
         let manifest_dir :=
           OUTPUT_DIR g // "manifests" // "registry.ollama.ai" // "library"
                      // model_base in
         let blobs_dir := OUTPUT_DIR g // "blobs" in
         Py.split_on ":" model_name = [model_base; version] ->
         mkdir f manifest_dir = Ok f1 ->
         mkdir f1 blobs_dir = Ok f2 ->
         copy2 f2 manifest_path (manifest_dir // version) = Ok f3 ->
         plain_blobs g blobs_dir ds = true ->
         copyable g blobs_dir f3 ds = true ->
         exists f',
           copy_files g model_name manifest_path (map JStr ds) f
           = (([MsgCopyingManifest (manifest_dir // version);
                MsgManifestCopied; MsgCopyingBlobs]
               ++ map (blob_notice g f3) ds
               ++ [MsgFilesCopied (OUTPUT_DIR g)])%list, f')
           /\ forall d, d ∈ ds -> exists_ f3 (blob_src g d) = true ->
                stat f' (blob_dst blobs_dir d) = stat f3 (blob_src g d))
  /\ (forall (g : globals) (model : string) (manifest_path : path)
             (digests : list json) (rest : model_data) (f : fs),
         export_all g ((model, manifest_path, digests) :: rest) f
         = let r := copy_files g model manifest_path digests f in
           let r' := export_all g rest r.2 in
           ((MsgCopyingModel model :: r.1 ++ r'.1)%list, r'.2)).
Proof.
  assert (Hloop : forall (g : globals) (bd : path) (ds : list string) (f : fs),
            copyable g bd f ds = true ->
            exists f',
              copy_blobs g bd (map JStr ds) f
              = (map (blob_notice g f) ds, f', None)
              /\ forall d, d ∈ ds -> exists_ f (blob_src g d) = true ->
                   stat f' (blob_dst bd d) = stat f (blob_src g d)).
  { intros g bd ds f Hc.
    destruct (copy_blobs_copyable g bd f ds (copyable_spec g bd f ds Hc)
                ds f) as (f' & Hrun & Hcopied & _); [done|done|done|].
    by exists f'. }
  split; [|split; [|split]].
  - intros g bd d rest f _ Hmiss. cbn [copy_blobs].
    fold (blob_src g d). by rewrite Hmiss.
  - intros g bd ds f _ Hc.
    destruct (Hloop g bd ds f Hc) as (f' & Hrun & Hcopied).
    exists f'. split; [done|]. split; [|done].
    apply blob_notice_skipped.
  - intros g model_name base version mpath ds f f1 f2 f3 md bd
      Hsplit H1 H2 H3 _ Hc.
    destruct (Hloop g bd ds f3 Hc) as (f' & Hrun & Hcopied).
    exists f'. split; [|done].
    unfold copy_files. rewrite Hsplit. fold md. rewrite H1.
    fold bd. rewrite H2, H3, Hrun. done.
  - intros g model mpath digests rest f. cbn [export_all].
    destruct (copy_files g model mpath digests f) as [out f'].
    cbn [fst snd]. by destruct (export_all g rest f').
Qed.

Lemma copy_blobs_missing_witness :
  copy_blobs sample_globals ["home"; "u"; "ollama"; "blobs"]
             [JStr "sha256:cc"] sample_fs_out
  = ([MsgBlobSkipped "sha256-cc"], sample_fs_out, None)
  /\ (exists f',
       copy_blobs sample_globals ["home"; "u"; "ollama"; "blobs"]
                  (map JStr sample_digests) sample_fs_out
       = ([MsgBlobCopied "sha256-aa"; MsgBlobCopied "sha256-bb";
           MsgBlobSkipped "sha256-cc"], f', None)
       /\ stat f' ["home"; "u"; "ollama"; "blobs"; "sha256-bb"]
          = Some (File "weights" 5))
  /\ exists f',
       copy_files sample_globals "llama3:8b"
                  (sample_library ++ ["llama3"; "8b"])
                  (map JStr sample_digests) sample_fs
       = ([MsgCopyingManifest
             ["home"; "u"; "ollama"; "manifests"; "registry.ollama.ai";
              "library"; "llama3"; "8b"];
           MsgManifestCopied; MsgCopyingBlobs;
           MsgBlobCopied "sha256-aa"; MsgBlobCopied "sha256-bb";
           MsgBlobSkipped "sha256-cc";
           MsgFilesCopied ["home"; "u"; "ollama"]], f')
       /\ stat f' ["home"; "u"; "ollama"; "blobs"; "sha256-aa"]
          = Some (File "config" 3)
       /\ stat f' ["home"; "u"; "ollama"; "blobs"; "sha256-cc"] = None.
Proof.
  split; [|split].
  - apply (proj1 copy_blobs_missing sample_globals
             ["home"; "u"; "ollama"; "blobs"] "sha256:cc" [] sample_fs_out).
    + vm_compute. reflexivity.
    + vm_compute. reflexivity.
  - destruct (proj1 (proj2 copy_blobs_missing) sample_globals
                ["home"; "u"; "ollama"; "blobs"] sample_digests sample_fs_out)
      as (f' & Hrun & _ & Hcopied);
      [vm_compute; reflexivity|vm_compute; reflexivity|].
    exists f'. split; [exact Hrun|].
    apply (Hcopied "sha256:bb"); [|vm_compute; reflexivity].
    right. left.
  - destruct (proj1 (proj2 (proj2 copy_blobs_missing)) sample_globals
                "llama3:8b" "llama3" "8b"
                (sample_library ++ ["llama3"; "8b"])%list
                sample_digests sample_fs sample_fs_dirs sample_fs_ready
                sample_fs_manifest) as (f' & Hrun & Hcopied).
    + reflexivity.
    + reflexivity.
    + reflexivity.
    + reflexivity.
    + vm_compute. reflexivity.
    + vm_compute. reflexivity.
    + exists f'. split; [exact Hrun|]. split.
      * apply (Hcopied "sha256:aa"); [left|vm_compute; reflexivity].
      * pose proof (f_equal snd Hrun) as Hf. cbn [snd] in Hf. subst f'.
        vm_compute. reflexivity.
Defined.

Lemma copy_files_idempotent_witness :
  (let once :=
     copy_files sample_globals "llama3:8b" (sample_library ++ ["llama3"; "8b"])
                (map JStr sample_digests) sample_fs in
   copy_files sample_globals "llama3:8b" (sample_library ++ ["llama3"; "8b"])
              (map JStr sample_digests) once.2
   = once)
  /\ mkdir sample_fs_out ["home"; "u"; "ollama"; "blobs"] = Ok sample_fs_out.
Proof.
  split.
  - apply (proj1 copy_files_idempotent sample_globals "llama3:8b"
             (sample_library ++ ["llama3"; "8b"])%list
             (map JStr sample_digests) sample_fs).
    + vm_compute. reflexivity.
    + vm_compute. reflexivity.
  - apply (proj2 copy_files_idempotent sample_fs). reflexivity.
Defined.


(** ** The blob file name *)

Lemma replace_back (d : string) :
  count_char "-" d = O -> Py.replace "-" ":" (blob_name d) = d.
Proof.
  unfold blob_name. induction d as [|c d IH]; simpl; [done|].
  intros H. destruct (Ascii.eqb c "-") eqn:Hd; [discriminate|].
  simpl in H. rewrite IH by exact H. f_equal.
  destruct (Ascii.eqb c ":") eqn:Hc.
  - apply Ascii.eqb_eq in Hc. subst c. reflexivity.
  - rewrite Hd. reflexivity.
Qed.

(** C7: the file name of a blob is the digest with every colon replaced
    by a dash ([sha256:abc] gives [sha256-abc]), it is the name used for
    the source and for the destination of the blob, and on a digest with
    exactly one colon and no dash, replacing the dashes of the file name
    by colons gives the digest back. *)
Theorem blob_name_roundtrip :
  blob_name "sha256:abc" = "sha256-abc"
  /\ (forall g blobs_dir d,
         blob_src g d = OLLAMA_BLOB_DIR g // Py.replace ":" "-" d
         /\ blob_dst blobs_dir d = blobs_dir // Py.replace ":" "-" d)
  /\ (forall d,
         count_char ":" d = 1%nat -> count_char "-" d = O ->
         Py.replace "-" ":" (blob_name d) = d).
Proof.
  split; [reflexivity|]. split; [done|].
  intros d _ H. by apply replace_back.
Qed.

Lemma blob_name_roundtrip_witness :
  count_char ":" "sha256:0f3a" = 1%nat
  /\ count_char "-" "sha256:0f3a" = O
  /\ Py.replace "-" ":" (blob_name "sha256:0f3a") = "sha256:0f3a".
Proof.
  split; [reflexivity|]. split; [reflexivity|].
  apply (proj2 (proj2 blob_name_roundtrip) "sha256:0f3a"); reflexivity.
Defined.

(** ** The path resolver *)

(** C8, evaluated where it fails: on a Linux host without override where
    [/var/lib/ollama/blobs] is missing and [/var/lib/ollama/models/blobs]
    exists, the second probe succeeds but the source root is set to
    [/var/lib/ollama], the candidate whose probe failed, so that the blob
    directory of the chosen root does not exist. *)
Theorem platform_base_dir_second_probe :
  let g := module_globals sample_host second_probe_fs in
  exists_ second_probe_fs (Path (cwd sample_host) "/var/lib/ollama" // "blobs")
  = false
  /\ exists_ second_probe_fs
       (Path (cwd sample_host) "/var/lib/ollama/models" // "blobs") = true
  /\ OLLAMA_BASE_DIR g = ["var"; "lib"; "ollama"]
  /\ OLLAMA_BASE_DIR g <> Path (cwd sample_host) "/var/lib/ollama/models"
  /\ exists_ second_probe_fs (OLLAMA_BLOB_DIR g) = false.
Proof.
  vm_compute. repeat split; discriminate.
Qed.

(** * Further properties *)

(** ** Rows of the inventory *)

Lemma fields_no_sep (p : ascii -> bool) (s : string) :
  Forall (fun t => forall c, In c (list_ascii_of_string t) -> p c = false)
         (Py.fields p s).
Proof.
  induction s as [|c s IH]; simpl.
  - constructor; [|constructor]. by intros c [].
  - destruct (p c) eqn:Hc.
    + constructor; [|done]. by intros c' [].
    + destruct (Py.fields p s) as [|t ts].
      * constructor; [|constructor]. intros c' [<-|[]]. done.
      * inversion IH as [|? ? Ht Hts]; subst. constructor; [|done].
        intros c' [<-|Hin]; [done|]. by apply Ht.
Qed.

Lemma no_space_chars (t : string) :
  (forall c, In c (list_ascii_of_string t) -> Py.isspace c = false) ->
  no_space t = true.
Proof.
  induction t as [|c t IH]; intros H; simpl; [done|].
  rewrite (H c) by by left. simpl. apply IH. intros c' Hc'. apply H. by right.
Qed.

Lemma split_tokens (s : string) : forallb is_token (Py.split s) = true.
Proof.
  unfold Py.split. pose proof (fields_no_sep Py.isspace s) as H.
  induction H as [|t ts Ht _ IH]; simpl; [done|].
  destruct (Py.is_empty t) eqn:He; simpl; [done|].
  rewrite IH, andb_true_r. unfold is_token. rewrite He. simpl.
  by apply no_space_chars.
Qed.

Lemma parse_line_row_ok (line : string) : Forall row_ok (parse_line line).
Proof.
  unfold parse_line. pose proof (split_tokens line) as H.
  destruct (Py.split line) as [|p0 [|p1 [|p2 [|p3 rest]]]]; try constructor;
    [|constructor].
  simpl in H. repeat (apply andb_prop in H as [? H]).
  repeat split; simpl; try done.
  - by exists p2, p3.
  - by exists rest.
Qed.

Lemma parse_models_row_ok (stdout : string) :
  Forall row_ok (parse_models stdout).
Proof.
  unfold parse_models.
  induction (List.tl (Py.splitlines (Py.strip stdout))) as [|l ls IH]; simpl.
  - constructor.
  - apply Forall_app. split; [apply parse_line_row_ok|done].
Qed.

Lemma fields_app_cut (p : ascii -> bool) (s t : string) (sep : ascii) :
  p sep = true ->
  Py.fields p (s ++ String sep t) = (Py.fields p s ++ Py.fields p t)%list.
Proof.
  intros Hsep. induction s as [|c s IH]; simpl.
  - by rewrite Hsep.
  - rewrite IH. destruct (p c); [done|].
    pose proof (fields_not_nil p s) as Hne.
    by destruct (Py.fields p s).
Qed.

Lemma split_app_cut (s t : string) :
  Py.split (s ++ " " ++ t) = (Py.split s ++ Py.split t)%list.
Proof.
  unfold Py.split. change (" " ++ t) with (String " " t).
  rewrite (fields_app_cut Py.isspace s t " ") by reflexivity.
  apply List.filter_app.
Qed.

Lemma fields_no_space (t : string) :
  no_space t = true -> Py.fields Py.isspace t = [t].
Proof.
  induction t as [|c t IH]; simpl; [done|].
  intros H. apply andb_prop in H as [Hc Ht]. apply negb_true_iff in Hc.
  by rewrite Hc, IH.
Qed.

Lemma split_token (t : string) : is_token t = true -> Py.split t = [t].
Proof.
  unfold is_token, Py.split. intros H. apply andb_prop in H as [He Hs].
  rewrite fields_no_space by done. simpl. by rewrite He.
Qed.

Lemma split_join_tokens (ts : list string) :
  forallb is_token ts = true -> Py.split (Py.join " " ts) = ts.
Proof.
  induction ts as [|t ts IH]; intros H; [done|].
  simpl in H. apply andb_prop in H as [Ht Hts].
  destruct ts as [|t' ts].
  - by apply split_token.
  - change (Py.join " " (t :: t' :: ts))
      with (t ++ " " ++ Py.join " " (t' :: ts)).
    by rewrite split_app_cut, split_token, IH.
Qed.

Lemma row_ok_round_trip (r : ModelRow) :
  row_ok r -> parse_line (render_row r) = [r].
Proof.
  intros (Hn & Hi & (a & b & Ha & Hb & Hsize) & (ts & Hts & Hmod)).
  unfold parse_line, render_row.
  change (Py.join " " [row_name r; row_id r; row_size r; row_modified r])
    with (row_name r ++ " " ++ row_id r ++ " " ++ row_size r ++ " "
          ++ row_modified r).
  rewrite !split_app_cut, (split_token _ Hn), (split_token _ Hi).
  rewrite Hsize, split_app_cut, (split_token _ Ha), (split_token _ Hb).
  rewrite Hmod, (split_join_tokens _ Hts). simpl.
  destruct r as [n i sz m]. simpl in *. by rewrite Hsize, Hmod.
Qed.

(** X1: in every row the reader returns, the name and the id are
    non-empty and free of whitespace, the size is two such tokens joined
    by one space, and the modified string is a list of such tokens joined
    by single spaces. *)
Theorem get_installed_models_row_ok (ollama_list : completed)
    (out : list msg) (rows : list ModelRow) :
  get_installed_models ollama_list = (out, Ok rows) -> Forall row_ok rows.
Proof.
  destruct ollama_list as [| |stdout]; try discriminate.
  simpl. intros [= _ <-].
  rewrite (sort_models_perm (parse_models stdout)).
  apply parse_models_row_ok.
Qed.

Lemma get_installed_models_row_ok_witness :
  Forall row_ok
    [ {| row_name := "llama3:8b"; row_id := "365c"; row_size := "4.7 GB";
         row_modified := "2 weeks ago" |} ].
Proof.
  apply (get_installed_models_row_ok sample_listing []). reflexivity.
Defined.

(** X2: writing a row the reader returned back as a line (its four
    fields joined by spaces) and reading that line gives the same row
    again. *)
Theorem render_row_round_trip (ollama_list : completed) (out : list msg)
    (rows : list ModelRow) (r : ModelRow) :
  get_installed_models ollama_list = (out, Ok rows) ->
  r ∈ rows ->
  parse_line (render_row r) = [r].
Proof.
  intros Hrun Hin. apply row_ok_round_trip.
  pose proof (get_installed_models_row_ok _ _ _ Hrun) as Hall.
  rewrite Forall_forall in Hall. by apply Hall.
Qed.

Lemma render_row_round_trip_witness :
  let r := {| row_name := "llama3:8b"; row_id := "365c";
              row_size := "4.7 GB"; row_modified := "2 weeks ago" |} in
  parse_line "llama3:8b 365c 4.7 GB 2 weeks ago" = [r].
Proof.
  intros r.
  apply (render_row_round_trip sample_listing [] [r] r); [reflexivity|].
  by left.
Defined.

Lemma str_lt_irrefl (a b : string) : Py.str_lt a b = true -> a <> b.
Proof.
  unfold Py.str_lt, String.ltb. intros H ->.
  assert (E : (b ?= b)%string = Eq).
  { clear. induction b as [|c b IH]; simpl; [done|].
    unfold Ascii.compare. by rewrite N.compare_refl. }
  by rewrite E in H.
Qed.

Lemma with_key_insert_row (k : string) (x : ModelRow) (l : list ModelRow) :
  with_key k (insert_row x l) = with_key k (x :: l).
Proof.
  induction l as [|y l IH]; [done|]. simpl.
  destruct (Py.str_lt (sort_key y) (sort_key x)) eqn:Hlt; [|done].
  apply str_lt_irrefl in Hlt. unfold with_key in *. simpl in *. rewrite IH.
  destruct (String.eqb (sort_key y) k) eqn:Hy,
           (String.eqb (sort_key x) k) eqn:Hx; try done.
  apply String.eqb_eq in Hy, Hx. congruence.
Qed.

Lemma sort_models_sorted_id (l : list ModelRow) :
  StronglySorted name_le l -> sort_models l = l.
Proof.
  induction 1 as [|x l Hs IH Hx]; [done|].
  simpl. rewrite IH. destruct l as [|y l']; [done|].
  simpl. inversion Hx as [|? ? Hxy _]; subst.
  unfold name_le in Hxy. unfold sort_key. by rewrite Hxy.
Qed.

(** X3: the sort of the reader is stable and idempotent: the rows that
    share a sort key (names equal up to letter case) stay in the order of
    the listing, and sorting a sorted list changes nothing. *)
Theorem sort_models_stable :
  (forall (k : string) (l : list ModelRow),
      with_key k (sort_models l) = with_key k l)
  /\ (forall l : list ModelRow, sort_models (sort_models l) = sort_models l).
Proof.
  split.
  - intros k l. induction l as [|x l IH]; [done|].
    simpl. rewrite with_key_insert_row. unfold with_key in *. simpl.
    by rewrite IH.
  - intros l. apply sort_models_sorted_id, sort_models_sorted.
Qed.

(** ** The prompts *)

Lemma py_index_elem {A : Type} (l : list A) (i : Z) (x : A) :
  py_index l i = Ok x -> x ∈ l.
Proof.
  unfold py_index. destruct (_ && _); [|done].
  destruct (l !! _) as [y|] eqn:Hy; [|done].
  intros [= <-]. by apply list_elem_of_lookup_2 in Hy.
Qed.

Lemma select_loop_names (models : list ModelRow) (choices : list Z)
    (selected names : list string) :
  select_loop models choices selected = Ok (AllValid names) ->
  (forall n, n ∈ selected -> n ∈ map row_name models) ->
  forall n, n ∈ names -> n ∈ map row_name models.
Proof.
  revert selected. induction choices as [|c cs IH]; intros selected.
  - simpl. by intros [= <-].
  - cbn [select_loop]. destruct (_ && _); [|done].
    destruct (py_index models (c - 1)) as [m|e] eqn:Hm; [|done].
    intros Hrun Hsel. apply (IH _ Hrun). intros n Hn.
    apply elem_of_app in Hn as [Hn|Hn]; [by apply Hsel|].
    apply list_elem_of_singleton in Hn as ->.
    apply list_elem_of_fmap. exists m. split; [done|].
    by apply (py_index_elem _ _ _ Hm).
Qed.

Lemma choose_loop_names (models : list ModelRow) (stdin : list string)
    (out : list msg) (names rest : list string) :
  choose_loop models stdin = (out, Ok names, rest) ->
  (forall n, n ∈ names -> n ∈ map row_name models)
  /\ exists used, stdin = (used ++ rest)%list.
Proof.
  revert out. induction stdin as [|line stdin IH]; intros out; [done|].
  cbn [choose_loop].
  assert (Hrec : forall pre,
             logged pre (choose_loop models stdin) = (out, Ok names, rest) ->
             (forall n, n ∈ names -> n ∈ map row_name models)
             /\ exists used, (line :: stdin) = (used ++ rest)%list).
  { intros pre. destruct (choose_loop models stdin) as [[o r] s] eqn:Hl.
    simpl. intros [= _ -> ->].
    destruct (IH o eq_refl) as [Hn (used & ->)].
    split; [done|]. by exists (line :: used). }
  destruct (Py.is_empty (Py.strip line)).
  { intros [= _ <- <-]. split; [by intros n Hn; inversion Hn|by exists [line]]. }
  destruct (String.eqb _ "all").
  { intros [= _ <- <-]. split; [done|by exists [line]]. }
  destruct (parse_choices _) as [choices|]; [|apply Hrec].
  destruct (select_loop models choices []) as [[sel|bad]|e] eqn:Hs;
    [|apply Hrec|done].
  destruct sel as [|n0 sel]; [apply Hrec|].
  intros [= _ <- <-]. split; [|by exists [line]].
  apply (select_loop_names _ _ _ _ Hs). by intros n Hn; inversion Hn.
Qed.

(** X4: the numeric prompt only returns names of the inventory it was
    given, and what it leaves of the input is a suffix of the input it
    received (it reads the lines in order and none beyond the one that
    decides). *)
Theorem choose_models_text_names (models : list ModelRow)
    (stdin : list string) (out : list msg) (names rest : list string) :
  choose_models_text models stdin = (out, Ok names, rest) ->
  (forall n, n ∈ names -> n ∈ map row_name models)
  /\ exists used, stdin = (used ++ rest)%list.
Proof.
  unfold choose_models_text.
  destruct (choose_loop models stdin) as [[o r] s] eqn:Hl. simpl.
  intros [= _ -> ->]. by apply (choose_loop_names _ _ o).
Qed.

Lemma choose_models_text_names_witness :
  (forall n, n ∈ ["mistral:7b"; "gemma:2b"] -> n ∈ map row_name five_rows)
  /\ exists used, ["x"; "3,1"; "y"] = (used ++ ["y"])%list.
Proof.
  apply (choose_models_text_names five_rows ["x"; "3,1"; "y"]
           ((MsgTableHeader :: table_rows 1 five_rows)
            ++ [MsgPromptSelect; MsgEnterNumbers; MsgPromptSelect])).
  reflexivity.
Defined.

Lemma find_in_range_false (models : list ModelRow) (choices : list Z) :
  forallb (in_range models) choices = false ->
  exists bad, List.find (fun c => negb (in_range models c)) choices = Some bad.
Proof.
  induction choices as [|c cs IH]; [done|]. simpl.
  destruct (in_range models c); simpl; [apply IH|]. intros _. by exists c.
Qed.

Lemma choose_loop_rejected (models : list ModelRow) (line : string)
    (rest : list string) :
  accepted models line = false ->
  choose_loop models (line :: rest)
  = logged [MsgPromptSelect; complaint models line] (choose_loop models rest).
Proof.
  unfold accepted, complaint, numbers. intros H.
  apply orb_false_elim in H as [H Hnum]. apply orb_false_elim in H as [He Hall].
  cbn [choose_loop]. rewrite He, Hall.
  destruct (parse_choices _) as [choices|]; [|done].
  destruct (find_in_range_false _ _ Hnum) as (bad & Hbad).
  by rewrite Hbad, (select_loop_invalid _ _ _ _ Hbad).
Qed.

(** X5: a line the numeric prompt does not accept (not empty, not [all],
    not a list of numbers all in range) is answered by one message, the
    invalid number or the request for numbers, and the prompt is shown
    again; when no line of the input is accepted the prompt ends in
    [EOFError] after one such exchange per line. *)
Theorem choose_models_text_rejected (models : list ModelRow) :
  (forall line rest,
      accepted models line = false ->
      choose_loop models (line :: rest)
      = logged [MsgPromptSelect; complaint models line]
               (choose_loop models rest))
  /\ (forall stdin,
         forallb (fun l => negb (accepted models l)) stdin = true ->
         choose_models_text models stdin
         = ((MsgTableHeader :: table_rows 1 models)
            ++ flat_map (fun l => [MsgPromptSelect; complaint models l]) stdin
            ++ [MsgPromptSelect], Raise EOFError, [])%list).
Proof.
  split; [apply choose_loop_rejected|].
  intros stdin H. unfold choose_models_text.
  assert (Hloop : choose_loop models stdin
                  = ((flat_map (fun l => [MsgPromptSelect; complaint models l])
                               stdin ++ [MsgPromptSelect])%list,
                     Raise EOFError, [])).
  { induction stdin as [|l stdin IH]; [done|].
    simpl in H. apply andb_prop in H as [Hl H].
    apply negb_true_iff in Hl.
    by rewrite (choose_loop_rejected _ _ _ Hl), (IH H). }
  by rewrite Hloop.
Qed.

Lemma choose_models_text_rejected_witness :
  choose_loop five_rows ["2,6"; "1"]
  = logged [MsgPromptSelect; MsgInvalidChoice 6] (choose_loop five_rows ["1"])
  /\ choose_loop five_rows [repeated 4301 "1"; "1"]
     = logged [MsgPromptSelect; MsgEnterNumbers] (choose_loop five_rows ["1"])
  /\ choose_models_text five_rows ["two"; "0"]
     = ((MsgTableHeader :: table_rows 1 five_rows)
        ++ [MsgPromptSelect; MsgEnterNumbers;
            MsgPromptSelect; MsgInvalidChoice 0; MsgPromptSelect],
        Raise EOFError, [])%list.
Proof.
  split; [|split].
  - apply (proj1 (choose_models_text_rejected five_rows) "2,6" ["1"]).
    reflexivity.
  - assert (Hc : complaint five_rows (repeated 4301 "1") = MsgEnterNumbers)
      by (vm_compute; reflexivity).
    rewrite <- Hc.
    apply (proj1 (choose_models_text_rejected five_rows)
             (repeated 4301 "1") ["1"]).
    vm_compute. reflexivity.
  - apply (proj2 (choose_models_text_rejected five_rows) ["two"; "0"]).
    reflexivity.
Defined.

(** X6: when no line of the input is a recognized answer, the
    confirmation prompt complains once per line and ends in [EOFError]
    with the input used up; it never takes silence for a yes or a no. *)
Theorem prompt_copy_eof (stdin : list string) :
  forallb (fun l => negb (recognized l)) stdin = true ->
  prompt_copy stdin
  = ((flat_map (fun _ => [MsgPromptCopy; MsgEnterYN]) stdin
      ++ [MsgPromptCopy])%list, Raise EOFError, []).
Proof.
  induction stdin as [|l stdin IH]; intros H; [done|].
  simpl in H. apply andb_prop in H as [Hl H].
  unfold recognized in Hl. apply negb_true_iff, orb_false_elim in Hl as [Ha Hn].
  rewrite prompt_copy_step, Ha, Hn, (IH H). done.
Qed.

Lemma prompt_copy_eof_witness :
  prompt_copy ["maybe"; "ok"]
  = ([MsgPromptCopy; MsgEnterYN; MsgPromptCopy; MsgEnterYN; MsgPromptCopy],
     Raise EOFError, []).
Proof. apply (prompt_copy_eof ["maybe"; "ok"]). reflexivity. Defined.

Lemma isspace_lower_char (c : ascii) :
  Py.isspace (Py.lower_char c) = Py.isspace c.
Proof. destruct c as [[] [] [] [] [] [] [] []]; reflexivity. Qed.

Lemma lower_app (a b : string) :
  Py.lower (a ++ b) = Py.lower a ++ Py.lower b.
Proof. induction a as [|c a IH]; simpl; [done|]. by rewrite IH. Qed.

Lemma all_space_lower (w : string) : all_space (Py.lower w) = all_space w.
Proof.
  induction w as [|c w IH]; simpl; [done|].
  by rewrite isspace_lower_char, IH.
Qed.

Lemma lstrip_app_space (w s : string) :
  all_space w = true -> Py.lstrip (w ++ s) = Py.lstrip s.
Proof.
  induction w as [|c w IH]; simpl; [done|].
  intros H. apply andb_prop in H as [-> H]. by apply IH.
Qed.

Lemma rstrip_all_space (w : string) :
  all_space w = true -> Py.rstrip w = EmptyString.
Proof.
  induction w as [|c w IH]; simpl; [done|].
  intros H. apply andb_prop in H as [Hc Hw]. by rewrite (IH Hw), Hc.
Qed.

Lemma rstrip_app_space (s w : string) :
  all_space w = true -> Py.rstrip (s ++ w) = Py.rstrip s.
Proof.
  intros Hw. induction s as [|c s IH].
  - by apply rstrip_all_space.
  - change (String c s ++ w) with (String c (s ++ w)).
    cbn [Py.rstrip]. by rewrite IH.
Qed.

Lemma rstrip_space_app (w x : string) :
  all_space w = true ->
  Py.lstrip (Py.rstrip (w ++ x)) = Py.lstrip (Py.rstrip x).
Proof.
  induction w as [|c w IH]; simpl; [done|].
  intros H. apply andb_prop in H as [Hc Hw]. specialize (IH Hw).
  destruct (Py.rstrip (w ++ x)) as [|c' r] eqn:Hr.
  - rewrite Hc. exact IH.
  - simpl. rewrite Hc. exact IH.
Qed.

Lemma strip_pad (w1 w2 s : string) :
  all_space w1 = true -> all_space w2 = true ->
  Py.strip (w1 ++ s ++ w2) = Py.strip s.
Proof.
  intros H1 H2. unfold Py.strip.
  by rewrite rstrip_space_app, rstrip_app_space.
Qed.

(** X7: both prompts ignore whitespace around the line they read: a line
    padded with whitespace on either side is treated exactly as the line
    itself. *)
Theorem prompts_ignore_padding (w1 w2 line : string) (rest : list string) :
  all_space w1 = true -> all_space w2 = true ->
  prompt_copy ((w1 ++ line ++ w2) :: rest) = prompt_copy (line :: rest)
  /\ forall models,
       choose_loop models ((w1 ++ line ++ w2) :: rest)
       = choose_loop models (line :: rest).
Proof.
  intros H1 H2. split.
  - rewrite !prompt_copy_step. unfold affirmative, negative, answer.
    rewrite !lower_app, strip_pad; [done| |]; by rewrite all_space_lower.
  - intros models. cbn [choose_loop]. by rewrite strip_pad.
Qed.

Lemma prompts_ignore_padding_witness :
  prompt_copy ["  Yes "; "n"] = prompt_copy ["Yes"; "n"]
  /\ forall models,
       choose_loop models ["  1,2 "; "n"] = choose_loop models ["1,2"; "n"].
Proof.
  split.
  - apply (prompts_ignore_padding "  " " " "Yes" ["n"]); reflexivity.
  - apply (prompts_ignore_padding "  " " " "1,2" ["n"]); reflexivity.
Defined.

(** ** The picker *)

Lemma py_index_valid (models : list ModelRow) (i : Z) :
  valid_index models i = true ->
  exists m, py_index models i = Ok m /\ name_at models i = Some (row_name m).
Proof.
  unfold valid_index, name_at. intros H. apply andb_prop in H as [H1 H2].
  apply Z.leb_le in H1. apply Z.ltb_lt in H2.
  set (n := Z.of_nat (length models)) in *.
  assert (Hmod : i mod n = if i <? 0 then i + n else i).
  { destruct (i <? 0) eqn:Hneg.
    - apply Z.ltb_lt in Hneg. symmetry.
      apply (Z.mod_unique i n (-1)); lia.
    - apply Z.ltb_ge in Hneg. apply Z.mod_small. lia. }
  rewrite Hmod. unfold py_index. fold n.
  set (j := if i <? 0 then i + n else i).
  assert (Hj : 0 <= j < n).
  { unfold j. destruct (i <? 0) eqn:Hneg;
      [apply Z.ltb_lt in Hneg|apply Z.ltb_ge in Hneg]; lia. }
  assert (Hb : (0 <=? j) && (j <? n) = true).
  { apply andb_true_intro. split; [apply Z.leb_le|apply Z.ltb_lt]; lia. }
  rewrite Hb. destruct (models !! Z.to_nat j) as [m|] eqn:Hm.
  - by exists m.
  - apply lookup_ge_None in Hm. lia.
Qed.

Lemma py_index_invalid (models : list ModelRow) (i : Z) :
  valid_index models i = false -> py_index models i = Raise IndexError.
Proof.
  unfold valid_index, py_index. intros H.
  set (n := Z.of_nat (length models)) in *.
  assert (Hb : (0 <=? (if i <? 0 then i + n else i))
               && ((if i <? 0 then i + n else i) <? n) = false).
  { apply andb_false_iff in H as [H|H].
    - apply Z.leb_gt in H. apply andb_false_iff. left. apply Z.leb_gt.
      destruct (i <? 0) eqn:Hneg; [lia|]. apply Z.ltb_ge in Hneg. lia.
    - apply Z.ltb_ge in H. apply andb_false_iff. right. apply Z.ltb_ge.
      destruct (i <? 0) eqn:Hneg; [|lia]. apply Z.ltb_lt in Hneg. lia. }
  by rewrite Hb.
Qed.

Lemma names_at_valid (models : list ModelRow) (indices : list Z) :
  forallb (valid_index models) indices = true ->
  exists names,
    names_at models indices = Ok names
    /\ map Some names = map (name_at models) indices.
Proof.
  induction indices as [|i rest IH]; intros H; [by exists []|].
  simpl in H. apply andb_prop in H as [Hi Hrest].
  destruct (py_index_valid _ _ Hi) as (m & Hm & Hn).
  destruct (IH Hrest) as (names & Hnames & Hmap).
  exists (row_name m :: names). simpl. rewrite Hm, Hnames, Hn.
  split; [done|]. by f_equal.
Qed.

Lemma names_at_invalid (models : list ModelRow) (indices : list Z) :
  forallb (valid_index models) indices = false ->
  names_at models indices = Raise IndexError.
Proof.
  induction indices as [|i rest IH]; intros H; [done|].
  simpl in H. simpl. destruct (valid_index models i) eqn:Hi.
  - destruct (py_index_valid _ _ Hi) as (m & -> & _).
    by rewrite (IH H).
  - by rewrite (py_index_invalid _ _ Hi).
Qed.

(** X8: the picker variant returns the names at the selected indices in
    the order the picker gave them, a negative index counting from the
    end of the inventory as Python does; if any index is outside
    [-n, n-1] it raises [IndexError] and returns no name at all. *)
Theorem choose_models_picker_indices
    (picker_run : list ModelRow -> list Z) (models : list ModelRow) :
  (forallb (valid_index models) (picker_run models) = true ->
   exists names,
     choose_models_picker picker_run models = Ok names
     /\ map Some names = map (name_at models) (picker_run models))
  /\ (forallb (valid_index models) (picker_run models) = false ->
      choose_models_picker picker_run models = Raise IndexError).
Proof.
  assert (E : choose_models_picker picker_run models
              = names_at models (picker_run models)).
  { unfold choose_models_picker. by destruct (picker_run models). }
  rewrite E. split; [apply names_at_valid|apply names_at_invalid].
Qed.

Lemma choose_models_picker_indices_witness :
  (exists names,
      choose_models_picker (fun _ => [2; -1; 0]) five_rows = Ok names
      /\ map Some names = [Some "mistral:7b"; Some "qwen2:7b"; Some "gemma:2b"])
  /\ choose_models_picker (fun _ => [0; 5]) five_rows = Raise IndexError.
Proof.
  split.
  - apply (proj1 (choose_models_picker_indices (fun _ => [2; -1; 0]) five_rows)).
    reflexivity.
  - apply (proj2 (choose_models_picker_indices (fun _ => [0; 5]) five_rows)).
    reflexivity.
Defined.

(** ** Resolving the selected models *)

(** X9: when the resolution of the selected models succeeds it prints
    nothing and records the selected models in order, each with the
    manifest path [OLLAMA_MANIFEST_DIR/base/version] of its name, a path
    that exists, and with the digests parsed from that manifest. *)
Theorem collect_model_data_ok (json_loads : string -> option json)
    (g : globals) (f : fs) (selected : list string) (out : list msg)
    (data : model_data) :
  collect_model_data json_loads g f selected = (out, Ok data) ->
  out = []
  /\ map (fun entry => entry.1.1) data = selected
  /\ Forall (resolved json_loads g f) data.
Proof.
  revert out data. induction selected as [|model rest IH]; intros out data.
  - simpl. by intros [= <- <-].
  - cbn [collect_model_data]. unfold find_manifest_path.
    destruct (Py.split_on ":" model) as [|base [|version [|x l]]] eqn:Hsplit;
      try discriminate.
    set (p := OLLAMA_MANIFEST_DIR g // base // version).
    destruct (exists_ f p) eqn:Hex; [|discriminate].
    destruct (parse_manifest json_loads f p) as [digests|e] eqn:Hparse;
      [|discriminate].
    destruct (collect_model_data json_loads g f rest) as [out' [data'|e]];
      [|discriminate].
    intros [= <- <-]. destruct (IH out' data' eq_refl) as (-> & Hnames & Hall).
    split; [done|]. split; [simpl; by rewrite Hnames|].
    constructor; [|done]. split; [done|]. split; [|done].
    by exists base, version.
Qed.

Lemma collect_model_data_ok_witness :
  Forall (resolved sample_json_loads sample_globals sample_fs)
    [("llama3:8b", (sample_library ++ ["llama3"; "8b"])%list,
      map JStr sample_digests)].
Proof.
  apply (collect_model_data_ok sample_json_loads sample_globals sample_fs
           ["llama3:8b"] []).
  reflexivity.
Defined.

Lemma collect_model_data_malformed (json_loads : string -> option json)
    (g : globals) (f : fs) (selected : list string) (name : string) :
  name ∈ selected ->
  length (Py.split_on ":" name) <> 2%nat ->
  exists out e, collect_model_data json_loads g f selected = (out, Raise e).
Proof.
  intros Hin Hbad. induction selected as [|model rest IH]; [by inversion Hin|].
  cbn [collect_model_data].
  destruct (find_manifest_path g f model) as [out [p|e]] eqn:Hfind;
    [|by eexists _, _].
  destruct (parse_manifest json_loads f p) as [digests|e]; [|by eexists _, _].
  apply elem_of_cons in Hin as [Heq|Hin'].
  - subst model. exfalso. revert Hfind. unfold find_manifest_path.
    destruct (Py.split_on ":" name) as [|a [|b [|c l]]]; try done.
  - destruct (IH Hin') as (out' & e & ->). by eexists _, _.
Qed.

Lemma names_at_names (models : list ModelRow) (indices : list Z)
    (names : list string) :
  names_at models indices = Ok names ->
  forall n, n ∈ names -> n ∈ map row_name models.
Proof.
  revert names. induction indices as [|i rest IH]; intros names.
  - simpl. intros [= <-] n Hn. inversion Hn.
  - simpl. destruct (py_index models i) as [m|e] eqn:Hm; [|done].
    destruct (names_at models rest) as [ns|e]; [|done].
    intros [= <-] n Hn. inversion Hn as [|? ? ? Hn']; subst.
    + apply list_elem_of_fmap. exists m. split; [done|].
      by apply (py_index_elem _ _ _ Hm).
    + by apply (IH ns).
Qed.

Lemma selection_of_names (h : host) (picker_run : list ModelRow -> list Z)
    (models : list ModelRow) (stdin : list string) (out : list msg)
    (names rest : list string) :
  selection_of h picker_run models stdin = (out, Ok names, rest) ->
  forall n, n ∈ names -> n ∈ map row_name models.
Proof.
  unfold selection_of. destruct (_ || _).
  - unfold choose_models_text.
    destruct (choose_loop models stdin) as [[o r] s] eqn:Hl. simpl.
    intros [= _ -> ->]. by apply (choose_loop_names _ _ o _ _ Hl).
  - unfold choose_models_picker. intros [= _ Hp _].
    destruct (picker_run models) as [|i l].
    + injection Hp as <-. intros n Hn. inversion Hn.
    + by apply (names_at_names models (i :: l) names Hp).
Qed.

(** X10: a malformed name among the selected models is fatal for the
    whole run: [main] ends with an exception before it asks for
    confirmation (the input left is what the selection left), and the
    file system is unchanged, also for the well-formed models selected
    with it. *)
Theorem main_malformed_name (json_loads : string -> option json) (h : host)
    (g : globals) (ollama_list : completed)
    (picker_run : list ModelRow -> list Z) (stdin : list string) (f : fs)
    (out0 out1 : list msg) (models : list ModelRow)
    (selected stdin1 : list string) (name : string) :
  get_installed_models ollama_list = (out0, Ok models) ->
  selection_of h picker_run models stdin = (out1, Ok selected, stdin1) ->
  name ∈ selected ->
  length (Py.split_on ":" name) <> 2%nat ->
  let r := main json_loads h g ollama_list picker_run stdin f in
  (exists e, run_end r = Raise e) /\ run_fs r = f /\ run_stdin r = stdin1.
Proof.
  intros Hm Hsel Hin Hbad.
  pose proof (selection_of_names _ _ _ _ _ _ _ Hsel name Hin) as Hname.
  destruct (collect_model_data_malformed json_loads g f selected name Hin Hbad)
    as (out2 & e & Hcollect).
  unfold main. rewrite Hm.
  destruct models as [|m ms]; [by inversion Hname|].
  rewrite Hsel. destruct selected as [|s ss]; [by inversion Hin|].
  rewrite Hcollect. simpl. split; [by exists e|done].
Qed.

Lemma main_malformed_name_witness :
  let r := main sample_json_loads sample_host sample_globals
                (Completed (unlines ["NAME ID SIZE MODIFIED";
                                     "llama3:8b a1 4.7 GB 2 weeks ago";
                                     "nameless b2 1 GB 3 days ago"]))
                (fun _ => []) ["1,2"; "y"] sample_fs in
  (exists e, run_end r = Raise e) /\ run_fs r = sample_fs
  /\ run_stdin r = ["y"].
Proof.
  eapply (main_malformed_name sample_json_loads sample_host sample_globals
            _ (fun _ => []) ["1,2"; "y"] sample_fs _ _ _ _ ["y"] "nameless").
  - reflexivity.
  - reflexivity.
  - right. left.
  - vm_compute. discriminate.
Defined.

(** ** Manifests outside the format *)

Lemma layer_loop_scalar (good : list json) (bad : json) (rest acc : list json) :
  forallb layer_shape good = true ->
  scalar bad = true ->
  layer_loop (good ++ bad :: rest) acc = Raise TypeError.
Proof.
  intros Hgood Hbad. revert acc.
  induction good as [|l good IH]; intros acc.
  - by destruct bad.
  - simpl in Hgood. apply andb_prop in Hgood as [Hl Hgood].
    destruct l as [| | | | | |d]; try discriminate. simpl.
    destruct (dict_get "digest" d); by apply IH.
Qed.

(** X11: how the parser fails on a document outside the format.  A
    manifest that is not an object, or whose [config] is not an object,
    raises [AttributeError].  In a manifest object whose [config] is
    absent or an object, whatever its digest is, a [layers] value that is
    [null], a boolean or a number raises [TypeError], and a layer of that
    kind raises [TypeError] even after well-formed layers, so that no
    partial list is returned.  A manifest object with neither [config]
    nor [layers] yields the empty list. *)
Theorem manifest_digests_errors :
  (forall m, is_object m = false -> manifest_digests m = Raise AttributeError)
  /\ (forall d c,
         dict_get "config" d = Some c -> is_object c = false ->
         manifest_digests (JDict d) = Raise AttributeError)
  /\ (forall d layers,
         config_ok d = true ->
         dict_get "layers" d = Some layers -> scalar layers = true ->
         manifest_digests (JDict d) = Raise TypeError)
  /\ (forall d good bad rest,
         config_ok d = true ->
         dict_get "layers" d = Some (JList (good ++ bad :: rest)) ->
         forallb layer_shape good = true -> scalar bad = true ->
         manifest_digests (JDict d) = Raise TypeError)
  /\ (forall d,
         dict_get "config" d = None -> dict_get "layers" d = None ->
         manifest_digests (JDict d) = Ok []).
Proof.
  split; [|split; [|split; [|split]]].
  - intros m Hm. by destruct m.
  - intros d c Hc Hobj. unfold manifest_digests. simpl. rewrite Hc.
    by destruct c.
  - intros d layers Hc Hl Hs. unfold manifest_digests, config_ok in *. simpl.
    rewrite Hl.
    destruct (dict_get "config" d) as [[| | | | | |c]|]; try discriminate;
      simpl; by destruct layers.
  - intros d good bad rest Hc Hl Hgood Hbad.
    unfold manifest_digests, config_ok in *. simpl. rewrite Hl.
    destruct (dict_get "config" d) as [[| | | | | |c]|]; try discriminate;
      simpl; by apply layer_loop_scalar.
  - intros d Hc Hl. unfold manifest_digests. simpl. by rewrite Hc, Hl.
Qed.

Lemma manifest_digests_errors_witness :
  manifest_digests (JList []) = Raise AttributeError
  /\ manifest_digests (JDict [("config", JNull)]) = Raise AttributeError
  /\ manifest_digests
       (JDict [("config", JDict [("digest", JStr "sha256:c0")]);
               ("layers", JNull)])
     = Raise TypeError
  /\ manifest_digests
       (JDict [("config", JDict [("digest", JStr "sha256:c0")]);
               ("layers", JList [JDict [("digest", JStr "sha256:aa")];
                                 JInt 3])])
     = Raise TypeError
  /\ manifest_digests (JDict [("schemaVersion", JInt 2)]) = Ok [].
Proof.
  split; [|split; [|split; [|split]]].
  - apply (proj1 manifest_digests_errors). reflexivity.
  - apply (proj1 (proj2 manifest_digests_errors) _ JNull); reflexivity.
  - apply (proj1 (proj2 (proj2 manifest_digests_errors)) _ JNull);
      reflexivity.
  - apply (proj1 (proj2 (proj2 (proj2 manifest_digests_errors))) _
             [JDict [("digest", JStr "sha256:aa")]] (JInt 3) []); reflexivity.
  - apply (proj2 (proj2 (proj2 (proj2 manifest_digests_errors))));
      reflexivity.
Defined.

Lemma layer_digests_strings (ls : list json) :
  forallb layer_shape ls = true ->
  exists ds : list string,
    omap (field "digest") ls = map JStr ds /\ (length ds <= length ls)%nat.
Proof.
  induction ls as [|l ls IH]; intros H; [by exists []|].
  simpl in H. apply andb_prop in H as [Hl Hls].
  destruct (IH Hls) as (ds & Hds & Hlen).
  destruct l as [| | | | | |d]; try discriminate. simpl in Hl.
  change (omap (field "digest") (JDict d :: ls))
    with (match dict_get "digest" d with
          | Some x => x :: omap (field "digest") ls
          | None => omap (field "digest") ls
          end).
  destruct (dict_get "digest" d) as [[| | | |s| |]|]; try discriminate.
  - exists (s :: ds). rewrite Hds. split; [done|]. simpl. lia.
  - exists ds. split; [done|]. simpl. lia.
Qed.

Lemma display_blobs_strings (g : globals) (f : fs) (ds : list string) :
  (display_blobs g f (map JStr ds)).2 = None.
Proof.
  induction ds as [|d ds IH]; [done|]. simpl.
  by destruct (display_blobs g f (map JStr ds)).
Qed.

Lemma copy2_not_attribute (f : fs) (src dst : path) :
  copy2 f src dst <> Raise AttributeError.
Proof.
  unfold copy2. destruct (stat f src) as [n|]; [|done].
  destruct (bool_decide _); [done|]. destruct n as [data meta|]; [|done].
  rewrite stat_dir_case. destruct (is_dir f _); [done|].
  by destruct (is_dir f _).
Qed.

Lemma copy_blobs_strings (g : globals) (bd : path) (ds : list string)
    (f : fs) :
  (copy_blobs g bd (map JStr ds) f).2 <> Some AttributeError.
Proof.
  revert f. induction ds as [|d ds IH]; intros f; [done|].
  cbn [map copy_blobs]. destruct (exists_ f _).
  - destruct (copy2 f _ _) as [f1|e] eqn:Hc.
    + specialize (IH f1).
      by destruct (copy_blobs g bd (map JStr ds) f1) as [[o f2] r].
    + simpl. intros [= ->]. by apply copy2_not_attribute in Hc.
  - specialize (IH f).
    by destruct (copy_blobs g bd (map JStr ds) f) as [[o f2] r].
Qed.

(** X12: for a manifest of the specified format every digest the parser
    returns is a string and there are at most as many as layers plus one;
    so neither the preview of [main] nor the blob loop of the exporter,
    which both need the file name of each digest, fails for want of a
    string: on these digests they never raise [AttributeError]. *)
Theorem manifest_digests_strings (m : json) :
  manifest_shape m = true ->
  exists ds : list string,
    manifest_digests m = Ok (map JStr ds)
    /\ (length ds <= S (length (layers_of m)))%nat
    /\ forall (g : globals) (f : fs),
         (display_blobs g f (map JStr ds)).2 <> Some AttributeError
         /\ forall blobs_dir,
              (copy_blobs g blobs_dir (map JStr ds) f).2
              <> Some AttributeError.
Proof.
  intros Hshape. rewrite (manifest_digests_shape m Hshape).
  assert (Huse : forall (ds : list string) (g : globals) (f : fs),
             (display_blobs g f (map JStr ds)).2 <> Some AttributeError
             /\ forall blobs_dir,
                  (copy_blobs g blobs_dir (map JStr ds) f).2
                  <> Some AttributeError).
  { intros ds g f. split.
    - by rewrite display_blobs_strings.
    - intros bd. apply copy_blobs_strings. }
  destruct m as [| | | | | |d]; try discriminate. simpl in Hshape.
  apply andb_prop in Hshape as [Hc Hl].
  assert (Hlayers : exists ds : list string,
             layer_digests (JDict d) = map JStr ds
             /\ (length ds <= length (layers_of (JDict d)))%nat).
  { unfold layer_digests, layers_of. simpl.
    destruct (dict_get "layers" d) as [[| | | | |ls|]|]; try discriminate.
    - by apply layer_digests_strings.
    - by exists []. }
  destruct Hlayers as (ds & Hds & Hlen).
  unfold listed_digests, config_digest. simpl. rewrite Hds.
  destruct (dict_get "config" d) as [[| | | | | |c]|]; try discriminate; simpl.
  - destruct (dict_get "digest" c) as [[| | | |s| |]|]; try discriminate;
      simpl.
    + destruct (Py.is_empty s); simpl.
      * exists ds. split; [done|]. split; [lia|]. apply Huse.
      * exists (s :: ds). split; [done|]. split; [simpl; lia|].
        apply (Huse (s :: ds)).
    + exists ds. split; [done|]. split; [lia|]. apply Huse.
  - exists ds. split; [done|]. split; [lia|]. apply Huse.
Qed.

Lemma manifest_digests_strings_witness :
  exists ds : list string,
    manifest_digests sample_manifest = Ok (map JStr ds)
    /\ (length ds <= S (length (layers_of sample_manifest)))%nat
    /\ forall (g : globals) (f : fs),
         (display_blobs g f (map JStr ds)).2 <> Some AttributeError
         /\ forall blobs_dir,
              (copy_blobs g blobs_dir (map JStr ds) f).2
              <> Some AttributeError.
Proof. apply (manifest_digests_strings sample_manifest). reflexivity. Defined.

(** ** What the exporter leaves alone *)

Lemma kept_refl (f : fs) : kept f f.
Proof. intros p n H. by exists n. Qed.

Lemma kept_trans (f1 f2 f3 : fs) : kept f1 f2 -> kept f2 f3 -> kept f1 f3.
Proof.
  intros H12 H23 p n H. destruct (H12 p n H) as (n2 & H2 & K2).
  destruct (H23 p n2 H2) as (n3 & H3 & K3). exists n3. split; [done|].
  congruence.
Qed.

Lemma stat_mkdir (f f' : fs) (q p : path) (n : node) :
  mkdir f q = Ok f' -> stat f p = Some n -> stat f' p = Some n.
Proof.
  intros Hm. destruct p as [|c p]; [done|]. simpl.
  by apply (mkdir_walk_keeps _ _ _ _ _ _ Hm).
Qed.

Lemma kept_mkdir (f f' : fs) (q : path) : mkdir f q = Ok f' -> kept f f'.
Proof. intros Hm p n H. exists n. split; [|done]. by apply (stat_mkdir f f' q). Qed.

Lemma kept_copy2 (f f' : fs) (src dst : path) :
  copy2 f src dst = Ok f' -> kept f f'.
Proof.
  intros Hc. destruct (copy2_ok _ _ _ _ Hc)
    as (data & meta & _ & _ & Hne & Hdir & _ & ->).
  intros p n H. destruct (decide (copy_target f src dst = p)) as [<-|Hp].
  - rewrite stat_insert_eq by done. eexists. split; [done|].
    unfold is_dir in Hdir. rewrite H in Hdir. by destruct n.
  - rewrite stat_insert_ne by done. by exists n.
Qed.

Lemma kept_copy_blobs (g : globals) (bd : path) (digests : list json)
    (f : fs) :
  kept f (copy_blobs g bd digests f).1.2.
Proof.
  revert f. induction digests as [|x rest IH]; intros f; [apply kept_refl|].
  destruct x; try apply kept_refl. cbn [copy_blobs].
  destruct (exists_ f _).
  - destruct (copy2 f _ _) as [f1|e] eqn:Hc; [|apply kept_refl].
    specialize (IH f1). destruct (copy_blobs g bd rest f1) as [[o f2] r].
    simpl in *. apply (kept_trans _ f1); [|done]. by apply (kept_copy2 _ _ _ _ Hc).
  - specialize (IH f). by destruct (copy_blobs g bd rest f) as [[o f2] r].
Qed.

(** X13: the exporter never removes anything and never changes the kind
    of an entry: whatever the model name, manifest path and digests,
    every path that exists before [copy_files] exists after it, a
    directory still a directory and a file still a file. *)
Theorem copy_files_keeps (g : globals) (model_name : string)
    (manifest_path : path) (digests : list json) (f : fs) :
  kept f (copy_files g model_name manifest_path digests f).2.
Proof.
  unfold copy_files.
  destruct (Py.split_on ":" model_name) as [|base [|version [|x l]]];
    try apply kept_refl.
  destruct (mkdir f _) as [f1|e] eqn:H1; [|apply kept_refl].
  apply (kept_trans _ f1); [by apply (kept_mkdir _ _ _ H1)|].
  destruct (mkdir f1 _) as [f2|e] eqn:H2; [|apply kept_refl].
  apply (kept_trans _ f2); [by apply (kept_mkdir _ _ _ H2)|].
  destruct (copy2 f2 _ _) as [f3|e] eqn:H3; [|apply kept_refl].
  apply (kept_trans _ f3); [by apply (kept_copy2 _ _ _ _ H3)|].
  pose proof (kept_copy_blobs g (OUTPUT_DIR g // "blobs") digests f3) as Hb.
  by destruct (copy_blobs g _ digests f3) as [[o f4] r].
Qed.

Lemma copy_blobs_frame (g : globals) (bd : path) (digests : list json)
    (f : fs) (p : path) :
  p ∉ blob_targets g bd digests ->
  stat (copy_blobs g bd digests f).1.2 p = stat f p.
Proof.
  revert f. induction digests as [|x rest IH]; intros f Hp; [done|].
  destruct x as [| | | |d| |]; try done. cbn [copy_blobs].
  fold (blob_src g d). fold (blob_dst bd d). simpl in Hp.
  apply not_elem_of_cons in Hp as [Hp1 Hp].
  apply not_elem_of_cons in Hp as [Hp2 Hp].
  destruct (exists_ f (blob_src g d)).
  - destruct (copy2 f _ _) as [f1|e] eqn:Hc; [|done].
    specialize (IH f1 Hp). destruct (copy_blobs g bd rest f1) as [[o f2] r].
    simpl in *. rewrite IH.
    destruct (copy2_ok _ _ _ _ Hc) as (data & meta & _ & _ & _ & _ & _ & ->).
    apply stat_insert_ne.
    destruct (copy_target_cases f (blob_src g d) (blob_dst bd d)) as [E|E];
      rewrite E; congruence.
  - specialize (IH f Hp). by destruct (copy_blobs g bd rest f) as [[o f2] r].
Qed.

(** X14: the exporter writes only to its destinations.  When the paths
    the export may write a file to (the destination of the manifest or of
    a blob, or the entry of the same name inside a destination that is a
    directory) are plain, a plain path that exists before [copy_files]
    and is not one of them holds exactly the same entry after it.  In
    particular the files of the source store are not touched when they
    are not destinations. *)
Theorem copy_files_frame (g : globals) (model_name : string)
    (manifest_path : path) (digests : list json) (f : fs) (p : path)
    (n : node) :
  forallb plain (p :: export_targets g model_name manifest_path digests)
  = true ->
  stat f p = Some n ->
  p ∉ export_targets g model_name manifest_path digests ->
  stat (copy_files g model_name manifest_path digests f).2 p = Some n.
Proof.
  intros _.
  intros Hst Hp. unfold copy_files, export_targets in *.
  destruct (Py.split_on ":" model_name) as [|base [|version [|x l]]];
    try done.
  unfold export_writes in Hp.
  apply not_elem_of_cons in Hp as [Hp1 Hp].
  apply not_elem_of_cons in Hp as [Hp2 Hp].
  destruct (mkdir f _) as [f1|e] eqn:H1; [|done].
  pose proof (stat_mkdir _ _ _ _ _ H1 Hst) as Hst1.
  destruct (mkdir f1 _) as [f2|e] eqn:H2; [|done].
  pose proof (stat_mkdir _ _ _ _ _ H2 Hst1) as Hst2.
  destruct (copy2 f2 _ _) as [f3|e] eqn:H3; [|done].
  pose proof (copy_blobs_frame g (OUTPUT_DIR g // "blobs") digests f3 p Hp)
    as Hb.
  destruct (copy_blobs g _ digests f3) as [[o f4] r]. simpl in *.
  rewrite Hb.
  destruct (copy2_ok _ _ _ _ H3) as (data & meta & _ & _ & _ & _ & _ & ->).
  rewrite stat_insert_ne; [done|].
  match goal with
  | |- copy_target ?a ?b ?c <> _ =>
      destruct (copy_target_cases a b c) as [E|E]; rewrite E; congruence
  end.
Qed.

Lemma copy_files_keeps_witness :
  exists n',
    stat (copy_files sample_globals "llama3:8b"
            (sample_library ++ ["llama3"; "8b"])
            (map JStr sample_digests) sample_fs).2
         (sample_store ++ ["blobs"; "sha256-aa"])
    = Some n'
    /\ is_dir_node n' = false.
Proof.
  apply (copy_files_keeps sample_globals "llama3:8b"
           (sample_library ++ ["llama3"; "8b"])%list
           (map JStr sample_digests) sample_fs
           (sample_store ++ ["blobs"; "sha256-aa"])%list (File "config" 3)).
  reflexivity.
Defined.

Lemma copy_files_frame_witness :
  stat (copy_files sample_globals "llama3:8b"
          (sample_library ++ ["llama3"; "8b"])
          (map JStr sample_digests) sample_fs).2
       (sample_store ++ ["blobs"; "sha256-aa"])
  = Some (File "config" 3).
Proof.
  apply (copy_files_frame sample_globals "llama3:8b"
           (sample_library ++ ["llama3"; "8b"])%list
           (map JStr sample_digests) sample_fs).
  - vm_compute. reflexivity.
  - reflexivity.
  - apply (bool_decide_unpack _). vm_compute. exact I.
Defined.

(** ** What the exporter produces *)

Lemma mkdir_walk_files (pre : path) (rest : list string) (f f' : fs)
    (p : path) (data : string) (meta : Z) :
  mkdir_walk pre rest f = Ok f' ->
  f' !! p = Some (File data meta) -> f !! p = Some (File data meta).
Proof.
  revert pre f. induction rest as [|c rest IH]; intros pre f Hm Hp.
  - by injection Hm as ->.
  - simpl in Hm. destruct (f !! (pre ++ [c])%list) as [[]|] eqn:Hq.
    + discriminate.
    + by apply (IH _ _ Hm).
    + specialize (IH _ _ Hm Hp). rewrite lookup_insert in IH.
      by destruct (decide ((pre ++ [c])%list = p)).
Qed.

Lemma stat_mkdir_file (f f' : fs) (q p : path) (data : string) (meta : Z) :
  mkdir f q = Ok f' ->
  stat f' p = Some (File data meta) -> stat f p = Some (File data meta).
Proof.
  intros Hm. destruct p as [|c p]; [done|]. simpl.
  by apply (mkdir_walk_files _ _ _ _ _ _ _ Hm).
Qed.














(** ** Blob file names *)

Lemma blob_name_no_colon (d : string) : count_char ":" (blob_name d) = O.
Proof.
  unfold blob_name. induction d as [|c d IH]; simpl; [done|].
  rewrite IH. destruct (Ascii.eqb c ":") eqn:Hc; [done|]. by rewrite Hc.
Qed.

Lemma blob_name_length (d : string) :
  String.length (blob_name d) = String.length d.
Proof.
  unfold blob_name. induction d as [|c d IH]; simpl; [done|]. by rewrite IH.
Qed.

(** X18: the file name of a blob has the length of the digest and no
    colon, and two digests without a dash that have the same file name
    are the same digest: distinct digests of the usual form never share a
    blob file. *)
Theorem blob_name_injective :
  (forall d,
      count_char ":" (blob_name d) = O
      /\ String.length (blob_name d) = String.length d)
  /\ (forall d d',
         count_char "-" d = O -> count_char "-" d' = O ->
         blob_name d = blob_name d' -> d = d').
Proof.
  split.
  - intros d. split; [apply blob_name_no_colon|apply blob_name_length].
  - intros d d' Hd Hd' E.
    rewrite <- (replace_back d Hd), <- (replace_back d' Hd'). by rewrite E.
Qed.

Lemma blob_name_injective_witness :
  (count_char ":" (blob_name "sha256:0f3a") = O
   /\ String.length (blob_name "sha256:0f3a") = 11%nat)
  /\ "sha256:0f3a" = "sha256:0f3a".
Proof.
  split.
  - apply (proj1 blob_name_injective "sha256:0f3a").
  - apply (proj2 blob_name_injective "sha256:0f3a" "sha256:0f3a");
      reflexivity.
Defined.

(** ** The preview and the export *)

Lemma display_blobs_warned (g : globals) (f : fs) (ds : list string) :
  omap warned_path (display_blobs g f (map JStr ds)).1
  = map (blob_src g) (List.filter (missing g f) ds).
Proof.
  induction ds as [|d ds IH]; [done|].
  cbn [map display_blobs]. fold (blob_src g d).
  destruct (display_blobs g f (map JStr ds)) as [out r].
  unfold missing at 1. cbn [fst List.filter] in *.
  destruct (exists_ f (blob_src g d)); simpl;
    first [exact IH | f_equal; exact IH].
Qed.

Lemma copy_blobs_no_success (g : globals) (bd : path) (digests : list json)
    (f : fs) (p : path) :
  MsgFilesCopied p ∉ (copy_blobs g bd digests f).1.1.
Proof.
  revert f. induction digests as [|x rest IH]; intros f;
    [by apply not_elem_of_nil|].
  destruct x; try by apply not_elem_of_nil. cbn [copy_blobs].
  destruct (exists_ f _).
  - destruct (copy2 f _ _) as [f1|e]; [|by apply not_elem_of_nil].
    specialize (IH f1). destruct (copy_blobs g bd rest f1) as [[o f2] r].
    simpl in *. by apply not_elem_of_cons.
  - specialize (IH f). destruct (copy_blobs g bd rest f) as [[o f2] r].
    simpl in *. by apply not_elem_of_cons.
Qed.

Lemma mkdir_stat_cases (f f' : fs) (q p : path) :
  mkdir f q = Ok f' ->
  stat f' p = stat f p \/ (stat f p = None /\ stat f' p = Some Dir).
Proof.
  intros Hm. destruct (stat f p) as [n|] eqn:Hp.
  - left. by apply (stat_mkdir f f' q).
  - destruct (stat f' p) as [[data meta|]|] eqn:Hp'; [|by right|by left].
    apply (stat_mkdir_file _ _ _ _ _ _ Hm) in Hp'. congruence.
Qed.

Lemma mkdir_stat_file (f f' : fs) (q p : path) :
  mkdir f q = Ok f' -> is_dir f' p = false -> stat f' p = stat f p.
Proof.
  intros Hm Hd. destruct (mkdir_stat_cases f f' q p Hm) as [E|[_ E]]; [done|].
  unfold is_dir in Hd. by rewrite E in Hd.
Qed.

(** A run of [copy_files] that reports success. *)
Lemma copy_files_succeeded (g : globals) (model_name : string)
    (manifest_path : path) (digests : list json) (f : fs) :
  MsgFilesCopied (OUTPUT_DIR g)
  ∈ (copy_files g model_name manifest_path digests f).1 ->
  exists base version f1 f2 f3 out f4,
    Py.split_on ":" model_name = [base; version]
    /\ mkdir f (OUTPUT_DIR g // "manifests" // "registry.ollama.ai"
                           // "library" // base) = Ok f1
    /\ mkdir f1 (OUTPUT_DIR g // "blobs") = Ok f2
    /\ copy2 f2 manifest_path (dest_manifest_of g base version) = Ok f3
    /\ copy_blobs g (OUTPUT_DIR g // "blobs") digests f3 = (out, f4, None)
    /\ copy_files g model_name manifest_path digests f
       = (([MsgCopyingManifest (dest_manifest_of g base version);
            MsgManifestCopied; MsgCopyingBlobs]
           ++ out ++ [MsgFilesCopied (OUTPUT_DIR g)])%list, f4).
Proof.
  unfold copy_files, dest_manifest_of.
  destruct (Py.split_on ":" model_name) as [|base [|version [|x l]]];
    try (intros H; apply list_elem_of_In in H; simpl in H;
         by intuition discriminate).
  destruct (mkdir f _) as [f1|e] eqn:H1;
    [|intros H; apply list_elem_of_In in H; simpl in H;
      by intuition discriminate].
  destruct (mkdir f1 _) as [f2|e] eqn:H2;
    [|intros H; apply list_elem_of_In in H; simpl in H;
      by intuition discriminate].
  destruct (copy2 f2 _ _) as [f3|e] eqn:H3;
    [|intros H; apply list_elem_of_In in H; simpl in H;
      by intuition discriminate].
  pose proof (copy_blobs_no_success g (OUTPUT_DIR g // "blobs") digests f3
                (OUTPUT_DIR g)) as Hq.
  destruct (copy_blobs g (OUTPUT_DIR g // "blobs") digests f3)
    as [[o f4] r] eqn:Hrun.
  simpl in Hq.
  intros H. exists base, version, f1, f2, f3, o, f4.
  destruct r as [e|]; [|done].
  exfalso. apply list_elem_of_In in H. simpl in H.
  destruct H as [H|[H|[H|H]]]; try discriminate.
  apply in_app_or in H as [H|H].
  - by apply Hq, list_elem_of_In.
  - simpl in H. by intuition discriminate.
Qed.

(** The notices of a blob loop that ends without an exception, when no
    source is a target: [h0] is a file system that has the sources of the
    one the loop runs on. *)
Lemma copy_blobs_success_log (g : globals) (bd : path) (rs ts : list path)
    (all : list string) :
  (forall d, d ∈ all -> blob_src g d ∈ rs) ->
  (forall d, d ∈ all ->
     blob_dst bd d ∈ ts
     /\ (blob_dst bd d ++ [basename (blob_src g d)])%list ∈ ts) ->
  (forall s, s ∈ rs -> s ∉ ts) ->
  forall (ds : list string) (h0 h h' : fs) (out : list msg),
    (forall d, d ∈ ds -> d ∈ all) ->
    (forall s, s ∈ rs -> stat h s = stat h0 s) ->
    copy_blobs g bd (map JStr ds) h = (out, h', None) ->
    out = map (blob_notice g h0) ds
    /\ forall d, d ∈ ds -> is_dir h0 (blob_src g d) = false.
Proof.
  intros Hrs Hts Hdisj. induction ds as [|d ds IH];
    intros h0 h h' out Hsub Hsame Hrun.
  { injection Hrun as <- _. split; [done|]. intros d H. by inversion H. }
  assert (Hd : d ∈ all) by (apply Hsub; by left).
  assert (Hsub' : forall d', d' ∈ ds -> d' ∈ all)
    by (intros d' H; apply Hsub; by right).
  revert Hrun. cbn [map copy_blobs].
  fold (blob_src g d). fold (blob_dst bd d).
  unfold blob_notice at 1. unfold exists_.
  rewrite (Hsame _ (Hrs d Hd)).
  destruct (stat h0 (blob_src g d)) as [n|] eqn:Hst.
  - destruct (copy2 h (blob_src g d) (blob_dst bd d)) as [h1|e] eqn:Hc;
      [|discriminate].
    destruct (copy2_ok _ _ _ _ Hc) as (data & meta & Hsrc & _ & _ & _ & _ & ->).
    rewrite (Hsame _ (Hrs d Hd)), Hst in Hsrc. injection Hsrc as ->.
    set (t := copy_target h (blob_src g d) (blob_dst bd d)) in *.
    assert (Ht : t ∈ ts).
    { destruct (Hts d Hd) as [T1 T2].
      destruct (copy_target_cases h (blob_src g d) (blob_dst bd d)) as [E|E];
        fold t in E; by rewrite E. }
    destruct (copy_blobs g bd (map JStr ds) (<[t := File data meta]> h))
      as [[o h2] r] eqn:Hrest.
    simpl. intros [= <- <- ->].
    destruct (IH h0 (<[t := File data meta]> h) h2 o Hsub') as [-> Hdirs];
      [|done|].
    { intros s Hs. rewrite stat_insert_ne; [by apply Hsame|].
      intros ->. by apply (Hdisj s). }
    split; [done|]. intros d' Hd'.
    apply elem_of_cons in Hd' as [->|Hd']; [|by apply Hdirs].
    unfold is_dir. by rewrite Hst.
  - destruct (copy_blobs g bd (map JStr ds) h) as [[o h2] r] eqn:Hrest.
    simpl. intros [= <- <- ->].
    destruct (IH h0 h h2 o Hsub' Hsame) as [-> Hdirs]; [done|].
    split; [done|]. intros d' Hd'.
    apply elem_of_cons in Hd' as [->|Hd']; [|by apply Hdirs].
    unfold is_dir. by rewrite Hst.
Qed.

Lemma blob_sources_strings (g : globals) (ds : list string) (d : string) :
  d ∈ ds -> blob_src g d ∈ blob_sources g (map JStr ds).
Proof.
  induction ds as [|d0 ds IH]; intros H; [by inversion H|].
  apply elem_of_cons in H as [->|H]; [by left|]. right. by apply IH.
Qed.

Lemma blob_targets_strings (g : globals) (bd : path) (ds : list string)
    (d : string) :
  d ∈ ds ->
  blob_dst bd d ∈ blob_targets g bd (map JStr ds)
  /\ (blob_dst bd d ++ [basename (blob_src g d)])%list
     ∈ blob_targets g bd (map JStr ds).
Proof.
  induction ds as [|d0 ds IH]; intros H; [by inversion H|].
  apply elem_of_cons in H as [->|H].
  - split; [by left|right; by left].
  - destruct (IH H) as [H1 H2]. split; by do 2 right.
Qed.

Lemma map_blob_notice (g : globals) (f f' : fs) (ds : list string) :
  (forall d, d ∈ ds -> stat f' (blob_src g d) = stat f (blob_src g d)) ->
  map (blob_notice g f') ds = map (blob_notice g f) ds.
Proof.
  induction ds as [|d ds IH]; intros H; [done|].
  cbn [map]. rewrite IH by (intros d' Hd'; apply H; by right).
  f_equal. unfold blob_notice, exists_. rewrite H; [done|by left].
Qed.

(** X19: the preview tells what the export will do.  For digests whose
    source blob paths are plain, the warnings of the preview are the
    source paths of the digests whose blob is missing, in the order of
    the digest list.  And when the export of a model on that same file
    system reports success, its paths being plain and no file it reads
    being one it may write, the skipped notices it has printed name the
    same digests, in the same order: the blobs skipped are exactly the
    blobs the preview warned about. *)
Theorem preview_matches_export :
  (forall (g : globals) (f : fs) (ds : list string),
      forallb (fun d => plain (blob_src g d)) ds = true ->
      omap warned_path (display_blobs g f (map JStr ds)).1
      = map (blob_src g) (List.filter (missing g f) ds))
  /\ (forall (g : globals) (model_name : string) (manifest_path : path)
             (ds : list string) (f : fs),
         plain_export g model_name manifest_path (map JStr ds) = true ->
         no_alias g model_name manifest_path (map JStr ds) = true ->
         MsgFilesCopied (OUTPUT_DIR g)
         ∈ (copy_files g model_name manifest_path (map JStr ds) f).1 ->
         omap skipped_name
              (copy_files g model_name manifest_path (map JStr ds) f).1
         = map blob_name (List.filter (missing g f) ds)).
Proof.
  split; [intros g f ds _; apply display_blobs_warned|].
  intros g model_name mpath ds f _ Hna Hok.
  destruct (copy_files_succeeded g model_name mpath (map JStr ds) f Hok)
    as (base & version & f1 & f2 & f3 & out & f4
        & Hsplit & H1 & H2 & H3 & Hrun & ->).
  cbn [fst].
  pose proof (no_alias_disjoint _ _ _ _ _ _ Hsplit Hna) as Hdisj.
  set (bd := OUTPUT_DIR g // "blobs") in *.
  set (dm := dest_manifest_of g base version) in *.
  set (rs := export_reads g mpath (map JStr ds)) in *.
  set (ts := export_writes g base version mpath (map JStr ds)) in *.
  assert (Hrs : forall d, d ∈ ds -> blob_src g d ∈ rs).
  { intros d Hd. right. by apply blob_sources_strings. }
  assert (Hts : forall d, d ∈ ds ->
            blob_dst bd d ∈ ts
            /\ (blob_dst bd d ++ [basename (blob_src g d)])%list ∈ ts).
  { intros d Hd. destruct (blob_targets_strings g bd ds d Hd).
    split; by do 2 right. }
  destruct (copy_blobs_success_log g bd rs ts ds Hrs Hts Hdisj ds f3 f3 f4 out)
    as [-> Hdirs]; [done|done|done|].
  assert (Hsame : forall d, d ∈ ds ->
            stat f3 (blob_src g d) = stat f (blob_src g d)).
  { intros d Hd. specialize (Hdirs d Hd).
    destruct (copy2_ok _ _ _ _ H3)
      as (data & meta & _ & _ & Htne & _ & _ & Hf3).
    assert (Hne : copy_target f2 mpath dm <> blob_src g d).
    { intros E. apply (Hdisj (blob_src g d) (Hrs d Hd)). rewrite <- E.
      destruct (copy_target_cases f2 mpath dm) as [E'|E']; rewrite E';
        [by left|right; by left]. }
    assert (H32 : stat f3 (blob_src g d) = stat f2 (blob_src g d)).
    { rewrite Hf3. by apply stat_insert_ne. }
    assert (Hd2 : is_dir f2 (blob_src g d) = false).
    { unfold is_dir in *. by rewrite <- H32. }
    rewrite H32, (mkdir_stat_file _ _ _ _ H2 Hd2).
    apply (mkdir_stat_file _ _ _ _ H1).
    unfold is_dir in *. by rewrite <- (mkdir_stat_file _ _ _ _ H2 Hd2). }
  rewrite (map_blob_notice g f f3 ds Hsame).
  rewrite !omap_app.
  change (omap skipped_name
            [MsgCopyingManifest dm; MsgManifestCopied; MsgCopyingBlobs])
    with (@nil string).
  change (omap skipped_name [MsgFilesCopied (OUTPUT_DIR g)])
    with (@nil string).
  cbn [app].
  rewrite app_nil_r. apply blob_notice_skipped.
Qed.

Lemma preview_matches_export_witness :
  let run := copy_files sample_globals "llama3:8b"
               (sample_library ++ ["llama3"; "8b"])
               (map JStr sample_digests) sample_fs in
  omap warned_path
       (display_blobs sample_globals sample_fs (map JStr sample_digests)).1
  = [blob_src sample_globals "sha256:cc"]
  /\ omap skipped_name run.1 = ["sha256-cc"].
Proof.
  intros run. split.
  - apply (proj1 preview_matches_export sample_globals sample_fs
             sample_digests).
    vm_compute. reflexivity.
  - apply (proj2 preview_matches_export sample_globals "llama3:8b"
             (sample_library ++ ["llama3"; "8b"])%list sample_digests
             sample_fs).
    + vm_compute. reflexivity.
    + vm_compute. reflexivity.
    + assert (E : run.1
                  = [MsgCopyingManifest
                       (dest_manifest_of sample_globals "llama3" "8b");
                     MsgManifestCopied; MsgCopyingBlobs;
                     MsgBlobCopied "sha256-aa"; MsgBlobCopied "sha256-bb";
                     MsgBlobSkipped "sha256-cc";
                     MsgFilesCopied (OUTPUT_DIR sample_globals)])
        by (vm_compute; reflexivity).
      unfold run in E. rewrite E. do 6 right. left.
Defined.

(** ** Digests that are absolute paths *)

Lemma is_absolute_blob_name (d : string) :
  is_absolute (blob_name d) = is_absolute d.
Proof.
  destruct d as [|c d]; [done|].
  unfold is_absolute, blob_name. cbn [Py.replace String.prefix].
  destruct (Ascii.eqb c ":") eqn:Hc.
  - apply Ascii.eqb_eq in Hc. by subst c.
  - destruct (ascii_dec "/" c); [|done]. by destruct d.
Qed.

Lemma absolute_paths_meet (g : globals) (bd : path) (d : string) :
  is_absolute d = true -> blob_src g d = blob_dst bd d.
Proof.
  intros Ha. unfold blob_src, blob_dst, path_div.
  by rewrite is_absolute_blob_name, Ha.
Qed.

Lemma copy2_same (f f' : fs) (p : path) : copy2 f p p <> Ok f'.
Proof.
  intros Hc.
  destruct (copy2_ok _ _ _ _ Hc) as (data & meta & Hst & Hne & _).
  apply Hne. unfold copy_target, is_dir. by rewrite Hst.
Qed.

Lemma copy_blobs_absolute (g : globals) (bd : path) (d : string)
    (ds : list string) :
  d ∈ ds -> is_absolute d = true ->
  forall f, exists_ f (blob_src g d) = true ->
    exists e, (copy_blobs g bd (map JStr ds) f).2 = Some e.
Proof.
  intros Hin Ha. induction ds as [|d0 ds IH]; intros f Hex;
    [by inversion Hin|].
  cbn [map copy_blobs]. fold (blob_src g d0). fold (blob_dst bd d0).
  destruct (exists_ f (blob_src g d0)) eqn:Hex0.
  - destruct (copy2 f (blob_src g d0) (blob_dst bd d0)) as [f1|e] eqn:Hc;
      [|by exists e].
    apply elem_of_cons in Hin as [<-|Hin].
    + rewrite <- (absolute_paths_meet g bd d Ha) in Hc.
      by apply copy2_same in Hc.
    + destruct (IH Hin f1) as (e & He).
      * unfold exists_ in *.
        destruct (stat f (blob_src g d)) as [n|] eqn:Hst; [|done].
        destruct (kept_copy2 _ _ _ _ Hc _ _ Hst) as (n' & -> & _). done.
      * exists e. by destruct (copy_blobs g bd (map JStr ds) f1) as [[o f2] r].
  - apply elem_of_cons in Hin as [<-|Hin]; [congruence|].
    destruct (IH Hin f Hex) as (e & He).
    exists e. by destruct (copy_blobs g bd (map JStr ds) f) as [[o f2] r].
Qed.

(** X20: a digest is joined to the blob directories as a path.  A digest
    that does not start with a slash names a file below each blob
    directory; one that starts with a slash replaces the directory, so
    that source and destination are the same path, and when a file is
    there the blob loop ends with an exception: the exporter then never
    reports success for the model, whatever the other digests are. *)
Theorem absolute_digest_fails (g : globals) (model_name : string)
    (manifest_path : path) (d : string) (ds : list string) (f : fs) :
  (is_absolute d = false ->
   blob_src g d = (OLLAMA_BLOB_DIR g ++ parts (blob_name d))%list
   /\ forall bd, blob_dst bd d = (bd ++ parts (blob_name d))%list)
  /\ (is_absolute d = true ->
      (forall bd, blob_src g d = blob_dst bd d)
      /\ (d ∈ ds -> exists_ f (blob_src g d) = true ->
          (forall bd, exists e,
              (copy_blobs g bd (map JStr ds) f).2 = Some e)
          /\ MsgFilesCopied (OUTPUT_DIR g)
             ∉ (copy_files g model_name manifest_path (map JStr ds) f).1)).
Proof.
  split.
  - intros Ha. unfold blob_src, blob_dst, path_div.
    by rewrite is_absolute_blob_name, Ha.
  - intros Ha. split; [intros bd; by apply absolute_paths_meet|].
    intros Hin Hex.
    split; [intros bd; by apply (copy_blobs_absolute g bd d)|].
    unfold copy_files.
    destruct (Py.split_on ":" model_name) as [|base [|version [|x l]]];
      try (intros H; apply list_elem_of_In in H; simpl in H;
           by intuition discriminate).
    destruct (mkdir f _) as [f1|e] eqn:H1;
      [|intros H; apply list_elem_of_In in H; simpl in H;
        by intuition discriminate].
    destruct (mkdir f1 _) as [f2|e] eqn:H2;
      [|intros H; apply list_elem_of_In in H; simpl in H;
        by intuition discriminate].
    destruct (copy2 f2 _ _) as [f3|e] eqn:H3;
      [|intros H; apply list_elem_of_In in H; simpl in H;
        by intuition discriminate].
    assert (Hex3 : exists_ f3 (blob_src g d) = true).
    { unfold exists_ in *.
      destruct (stat f (blob_src g d)) as [n|] eqn:Hst; [|done].
      destruct (kept_mkdir _ _ _ H1 _ _ Hst) as (n1 & Hst1 & _).
      destruct (kept_mkdir _ _ _ H2 _ _ Hst1) as (n2 & Hst2 & _).
      destruct (kept_copy2 _ _ _ _ H3 _ _ Hst2) as (n3 & -> & _). done. }
    destruct (copy_blobs_absolute g (OUTPUT_DIR g // "blobs") d ds Hin Ha
                f3 Hex3) as (e & He).
    pose proof (copy_blobs_no_success g (OUTPUT_DIR g // "blobs")
                  (map JStr ds) f3 (OUTPUT_DIR g)) as Hq.
    destruct (copy_blobs g _ (map JStr ds) f3) as [[o f4] r].
    simpl in He, Hq. subst r.
    intros H. apply list_elem_of_In in H. simpl in H.
    destruct H as [H|[H|[H|H]]]; try discriminate.
    apply in_app_or in H as [H|H].
    + by apply Hq, list_elem_of_In.
    + simpl in H. by intuition discriminate.
Qed.

Lemma absolute_digest_fails_witness :
  let f := <[["etc"; "passwd"] := File "root" 0]> sample_fs_manifest in
  (forall bd, blob_src sample_globals "/etc/passwd" = blob_dst bd "/etc/passwd")
  /\ (forall bd, exists e,
         (copy_blobs sample_globals bd
                     (map JStr ["sha256:aa"; "/etc/passwd"]) f).2 = Some e)
  /\ MsgFilesCopied (OUTPUT_DIR sample_globals)
     ∉ (copy_files sample_globals "llama3:8b"
                   (sample_library ++ ["llama3"; "8b"])
                   (map JStr ["sha256:aa"; "/etc/passwd"]) f).1.
Proof.
  intros f.
  destruct (absolute_digest_fails sample_globals "llama3:8b"
              (sample_library ++ ["llama3"; "8b"])%list "/etc/passwd"
              ["sha256:aa"; "/etc/passwd"] f) as [_ Habs].
  destruct (Habs eq_refl) as [Hsame Hrun].
  split; [exact Hsame|].
  apply Hrun.
  - right. left.
  - vm_compute. reflexivity.
Defined.

(** ** Runs without an inventory *)

(** X21: without an inventory [main] stops at once.  When the command is
    missing or fails, whatever it wrote to its error stream, the run ends
    with exit status 1 after one message; when its output has no line of
    four tokens after the first line, the run returns normally after the
    no-models message.  In each case no line of the input is read and no
    file is changed, whatever the host, the picker and the manifests
    are. *)
Theorem main_no_inventory (json_loads : string -> option json) (h : host)
    (g : globals) (picker_run : list ModelRow -> list Z)
    (stdin : list string) (f : fs) :
  (forall text,
      List.filter well_formed (List.tl (Py.splitlines (Py.strip text))) = [] ->
      main json_loads h g (Completed text) picker_run stdin f
      = Build_run [MsgNoModelsFound] (Ok tt) stdin f)
  /\ (forall stderr,
         main json_loads h g (CalledProcessError stderr) picker_run stdin f
         = Build_run [MsgOllamaListError stderr] (Raise (SystemExit 1))
                     stdin f)
  /\ main json_loads h g CommandNotFound picker_run stdin f
     = Build_run [MsgOllamaNotFound] (Raise (SystemExit 1)) stdin f.
Proof.
  split; [|done].
  intros text Hnone. unfold main, get_installed_models, parse_models.
  by rewrite rows_filter, Hnone.
Qed.

Lemma main_no_inventory_witness :
  let text := unlines ["NAME ID SIZE MODIFIED"; "llama3:8b a1 4.7"; ""] in
  let stderr := unlines ["Error: boom"; "usage: ollama list [flags]"] in
  main sample_json_loads sample_host sample_globals (Completed text)
       (fun _ => []) ["all"; "y"] sample_fs
  = Build_run [MsgNoModelsFound] (Ok tt) ["all"; "y"] sample_fs
  /\ main sample_json_loads sample_host sample_globals
          (CalledProcessError stderr) (fun _ => []) ["all"; "y"] sample_fs
     = Build_run [MsgOllamaListError stderr] (Raise (SystemExit 1))
                 ["all"; "y"] sample_fs
  /\ main sample_json_loads sample_host sample_globals CommandNotFound
          (fun _ => []) ["all"; "y"] sample_fs
     = Build_run [MsgOllamaNotFound] (Raise (SystemExit 1))
                 ["all"; "y"] sample_fs.
Proof.
  intros text stderr.
  destruct (main_no_inventory sample_json_loads sample_host sample_globals
              (fun _ => []) ["all"; "y"] sample_fs) as (Hnone & Hfail & Hcmd).
  split; [|split; [apply Hfail|exact Hcmd]].
  apply Hnone. vm_compute. reflexivity.
Defined.

(** ** The source root on every host *)

(** X22: without a source override the source root is one of three
    directories, none of which depends on the working directory: the
    store under the home directory on the two home-directory platforms
    whatever the file system holds, and elsewhere [/var/lib/ollama] when
    one of the two probed blob directories exists and
    [/usr/share/ollama/models] when none does.  Without an output
    override, whether or not there is a source override, the output
    directory is [ollama] under the working directory. *)
Theorem source_root_table (h : host) (f : fs) :
  let g := module_globals h f in
  (CUSTOM_OLLAMA_BASE_DIR h = "" ->
   (home_platform h = true -> OLLAMA_BASE_DIR g = home_store h)
   /\ (home_platform h = false ->
       OLLAMA_BASE_DIR g
       = if exists_ f (var_store ++ ["blobs"])
            || exists_ f (var_store ++ ["models"; "blobs"])
         then var_store else usr_store))
  /\ (CUSTOM_OUTPUT_DIR h = "" -> OUTPUT_DIR g = (cwd h ++ ["ollama"])%list).
Proof.
  intros g. subst g. split.
  - intros Hno. unfold module_globals, platform_base_dir.
    rewrite Hno. cbn [OLLAMA_BASE_DIR negb String.eqb].
    unfold home_platform.
    change (Path (cwd h) "/var/lib/ollama") with var_store.
    change (Path (cwd h) "/var/lib/ollama/models" // "blobs")
      with (var_store ++ ["models"; "blobs"])%list.
    change (var_store // "blobs") with (var_store ++ ["blobs"])%list.
    change (Path (cwd h) "/usr/share/ollama/models") with usr_store.
    change (home h // ".ollama/models") with (home_store h).
    split.
    + intros Hp. apply orb_prop in Hp as [->| Hw]; [done|].
      rewrite Hw. by destruct (String.eqb (system h) "Darwin").
    + intros Hp. apply orb_false_elim in Hp as [-> ->].
      by destruct (exists_ f (var_store ++ ["blobs"])),
                 (exists_ f (var_store ++ ["models"; "blobs"])).
  - intros Hno. unfold module_globals. cbn [OUTPUT_DIR]. by rewrite Hno.
Qed.

Lemma source_root_table_witness :
  OLLAMA_BASE_DIR (module_globals sample_host second_probe_fs) = var_store
  /\ OUTPUT_DIR (module_globals sample_host second_probe_fs)
     = (cwd sample_host ++ ["ollama"])%list.
Proof.
  destruct (source_root_table sample_host second_probe_fs) as (Hroot & Hout).
  split; [exact (proj2 (Hroot eq_refl) eq_refl)|exact (Hout eq_refl)].
Defined.
